(** * Receipt Flow: a shallow embedding of the receipt aggregator

    The development follows the layout of the Python sources:

    - [Float64], [Unicode], [Text], [Py]
                                : the Python values the program handles
                                  (binary64 floats, str, dict, the builtins
                                  [float()], [int()], [str.strip()], ...);
    - [Utils]                   : src/core/utils.py
                                  ([parse_price], [format_comparison_summary]);
    - [Gemini], [Perplexity]    : src/services (the two adapters);
    - [Pandas]                  : the few DataFrame operations logic.py uses;
    - [Logic]                   : src/core/logic.py ([process_receipt],
                                  [clear_inventory], [prepare_for_next_receipt]);
    - [Startup]                 : src/config.py (how the settings are loaded);
    - [PerplexityReply]         : src/services/perplexity_client.py (how the
                                  answer of the price service is read);
    - [App]                     : src/app.py (the three buttons).

    Python floats are IEEE binary64 numbers: they are modelled by the
    executable specification [SpecFloat] of the standard library, with
    round-to-nearest-even, so that sums are the sums Python computes.
    A Python [str] is a sequence of code points: it is modelled by the
    [string] of the bytes of its UTF-8 encoding, which [Text.chars] cuts
    into characters (a lone surrogate is encoded like any other code
    point).  The classes of characters are those of Unicode 14.0, the
    database of CPython 3.11.  A [dict] is an association list in insertion
    order. *)

From Stdlib Require Import ZArith List Bool Lia.
From Stdlib Require Import Strings.String Strings.Ascii.
From Stdlib Require Import Numbers.DecimalString Numbers.DecimalN.
From Stdlib Require Import Floats.SpecFloat.
Import ListNotations.

Local Open Scope string_scope.
Local Open Scope Z_scope.

(* ------------------------------------------------------------------ *)
(** ** Binary64 floating point numbers *)

Module Float64.

Definition prec : Z := 53.
Definition emax : Z := 1024.

Definition float : Type := spec_float.

Definition zero : float := S754_zero false.
Definition nan : float := S754_nan.
Definition infinity (neg : bool) : float := S754_infinity neg.

Definition add : float -> float -> float := SFadd prec emax.
Definition sub : float -> float -> float := SFsub prec emax.
Definition abs : float -> float := SFabs.
Definition ltb : float -> float -> bool := SFltb.
Definition eqb : float -> float -> bool := SFeqb.

(** The float nearest to the fraction [n / d] ([0 <= n], [0 < d]), ties to
    even, with the given sign. *)
Definition of_ratio (neg : bool) (n d : Z) : float :=
  match n with
  | Z0 => S754_zero neg
  | _ =>
      let '(q, e, l) := SFdiv_core_binary prec emax n 0 d 0 in
      binary_round_aux prec emax neg q e l
  end.

(** The float nearest to [m * 10 ^ e]: what a correctly rounded
    string-to-double conversion returns for the decimal [m]e[e]. *)
Definition of_decimal (neg : bool) (m e : Z) : float :=
  if 0 <=? e then of_ratio neg (m * 10 ^ e) 1
  else of_ratio neg m (10 ^ (- e)).

(** Conversion of a Python int; [None] stands for the OverflowError
    "int too large to convert to float". *)
Definition of_Z (z : Z) : option float :=
  match binary_normalize prec emax z 0 false with
  | S754_infinity _ => None
  | f => Some f
  end.

(** Truncation toward zero of a finite float ([int(x)], [math.trunc]). *)
Definition trunc (f : float) : option Z :=
  match f with
  | S754_zero _ => Some 0
  | S754_finite s m e =>
      let a := if 0 <=? e then Z.pos m * 2 ^ e else Z.pos m / 2 ^ (- e) in
      Some (if s then - a else a)
  | _ => None
  end.

(** [m * 2 ^ e * 100] rounded to an integer, ties to even. *)
Definition round_cents (m : positive) (e : Z) : Z :=
  if 0 <=? e then Z.pos m * 2 ^ e * 100
  else
    let d := 2 ^ (- e) in
    let n := Z.pos m * 100 in
    let q := n / d in
    let r := n mod d in
    match 2 * r ?= d with
    | Lt => q
    | Gt => q + 1
    | Eq => if Z.even q then q else q + 1
    end.

Definition digits_of_Z (z : Z) : string :=
  NilZero.string_of_uint (N.to_uint (Z.to_N z)).

Definition two_digits (z : Z) : string :=
  if z <? 10 then "0" ++ digits_of_Z z else digits_of_Z z.

(** The format specification [:.2f]. *)
Definition format_2f (f : float) : string :=
  match f with
  | S754_nan => "nan"
  | S754_infinity s => if s then "-inf" else "inf"
  | S754_zero s => if s then "-0.00" else "0.00"
  | S754_finite s m e =>
      let c := round_cents m e in
      (if s then "-" else "") ++ digits_of_Z (c / 100) ++ "." ++ two_digits (c mod 100)
  end.

End Float64.

Abbreviation float := Float64.float.

(* ------------------------------------------------------------------ *)
(** ** The classes of characters *)

Module Unicode.

Local Open Scope N_scope.

(** Whitespace, by code point: [str.isspace], what [str.strip] removes,
    the class [\s] of a pattern. *)
Definition is_space (n : N) : bool :=
  ((9 <=? n) && (n <=? 13)) || ((28 <=? n) && (n <=? 32))
  || (n =? 133) || (n =? 160) || (n =? 5760)
  || ((8192 <=? n) && (n <=? 8202)) || (n =? 8232) || (n =? 8233)
  || (n =? 8239) || (n =? 8287) || (n =? 12288).

(** The decimal digits (category Nd) come in runs of ten, from the zero to
    the nine of a script: the code points of the zeros. *)
Definition decimal_zeros : list N :=
  [
   48; 1632; 1776; 1984; 2406; 2534; 2662; 2790; 2918; 3046; 3174; 3302;
   3430; 3558; 3664; 3792; 3872; 4160; 4240; 6112; 6160; 6470; 6608; 6784;
   6800; 6992; 7088; 7232; 7248; 42528; 43216; 43264; 43472; 43504; 43600;
   44016; 65296; 66720; 68912; 69734; 69872; 69942; 70096; 70384; 70736;
   70864; 71248; 71360; 71472; 71904; 72016; 72784; 73040; 73120; 92768;
   92864; 93008; 120782; 120792; 120802; 120812; 120822; 123200; 123632;
   125264; 130032
  ].

(** The value of a decimal digit: [str.isdecimal], the digits [float()] and
    [int()] read, the class [\d] of a pattern. *)
Definition decimal (n : N) : option N :=
  option_map (fun zero => n - zero)
    (find (fun zero => (zero <=? n) && (n <? zero + 10)) decimal_zeros).

Definition is_decimal (n : N) : bool :=
  match decimal n with Some _ => true | None => false end.

(** The ranges of the alphanumeric characters ([str.isalnum]), with the
    underscore. *)
Definition word_ranges : list (N * N) :=
  [
   (48, 57); (65, 90); (95, 95); (97, 122); (170, 170); (178, 179); (181,
   181); (185, 186); (188, 190); (192, 214); (216, 246); (248, 705); (710,
   721); (736, 740); (748, 748); (750, 750); (880, 884); (886, 887); (890,
   893); (895, 895); (902, 902); (904, 906); (908, 908); (910, 929); (931,
   1013); (1015, 1153); (1162, 1327); (1329, 1366); (1369, 1369); (1376,
   1416); (1488, 1514); (1519, 1522); (1568, 1610); (1632, 1641); (1646,
   1647); (1649, 1747); (1749, 1749); (1765, 1766); (1774, 1788); (1791,
   1791); (1808, 1808); (1810, 1839); (1869, 1957); (1969, 1969); (1984,
   2026); (2036, 2037); (2042, 2042); (2048, 2069); (2074, 2074); (2084,
   2084); (2088, 2088); (2112, 2136); (2144, 2154); (2160, 2183); (2185,
   2190); (2208, 2249); (2308, 2361); (2365, 2365); (2384, 2384); (2392,
   2401); (2406, 2415); (2417, 2432); (2437, 2444); (2447, 2448); (2451,
   2472); (2474, 2480); (2482, 2482); (2486, 2489); (2493, 2493); (2510,
   2510); (2524, 2525); (2527, 2529); (2534, 2545); (2548, 2553); (2556,
   2556); (2565, 2570); (2575, 2576); (2579, 2600); (2602, 2608); (2610,
   2611); (2613, 2614); (2616, 2617); (2649, 2652); (2654, 2654); (2662,
   2671); (2674, 2676); (2693, 2701); (2703, 2705); (2707, 2728); (2730,
   2736); (2738, 2739); (2741, 2745); (2749, 2749); (2768, 2768); (2784,
   2785); (2790, 2799); (2809, 2809); (2821, 2828); (2831, 2832); (2835,
   2856); (2858, 2864); (2866, 2867); (2869, 2873); (2877, 2877); (2908,
   2909); (2911, 2913); (2918, 2927); (2929, 2935); (2947, 2947); (2949,
   2954); (2958, 2960); (2962, 2965); (2969, 2970); (2972, 2972); (2974,
   2975); (2979, 2980); (2984, 2986); (2990, 3001); (3024, 3024); (3046,
   3058); (3077, 3084); (3086, 3088); (3090, 3112); (3114, 3129); (3133,
   3133); (3160, 3162); (3165, 3165); (3168, 3169); (3174, 3183); (3192,
   3198); (3200, 3200); (3205, 3212); (3214, 3216); (3218, 3240); (3242,
   3251); (3253, 3257); (3261, 3261); (3293, 3294); (3296, 3297); (3302,
   3311); (3313, 3314); (3332, 3340); (3342, 3344); (3346, 3386); (3389,
   3389); (3406, 3406); (3412, 3414); (3416, 3425); (3430, 3448); (3450,
   3455); (3461, 3478); (3482, 3505); (3507, 3515); (3517, 3517); (3520,
   3526); (3558, 3567); (3585, 3632); (3634, 3635); (3648, 3654); (3664,
   3673); (3713, 3714); (3716, 3716); (3718, 3722); (3724, 3747); (3749,
   3749); (3751, 3760); (3762, 3763); (3773, 3773); (3776, 3780); (3782,
   3782); (3792, 3801); (3804, 3807); (3840, 3840); (3872, 3891); (3904,
   3911); (3913, 3948); (3976, 3980); (4096, 4138); (4159, 4169); (4176,
   4181); (4186, 4189); (4193, 4193); (4197, 4198); (4206, 4208); (4213,
   4225); (4238, 4238); (4240, 4249); (4256, 4293); (4295, 4295); (4301,
   4301); (4304, 4346); (4348, 4680); (4682, 4685); (4688, 4694); (4696,
   4696); (4698, 4701); (4704, 4744); (4746, 4749); (4752, 4784); (4786,
   4789); (4792, 4798); (4800, 4800); (4802, 4805); (4808, 4822); (4824,
   4880); (4882, 4885); (4888, 4954); (4969, 4988); (4992, 5007); (5024,
   5109); (5112, 5117); (5121, 5740); (5743, 5759); (5761, 5786); (5792,
   5866); (5870, 5880); (5888, 5905); (5919, 5937); (5952, 5969); (5984,
   5996); (5998, 6000); (6016, 6067); (6103, 6103); (6108, 6108); (6112,
   6121); (6128, 6137); (6160, 6169); (6176, 6264); (6272, 6276); (6279,
   6312); (6314, 6314); (6320, 6389); (6400, 6430); (6470, 6509); (6512,
   6516); (6528, 6571); (6576, 6601); (6608, 6618); (6656, 6678); (6688,
   6740); (6784, 6793); (6800, 6809); (6823, 6823); (6917, 6963); (6981,
   6988); (6992, 7001); (7043, 7072); (7086, 7141); (7168, 7203); (7232,
   7241); (7245, 7293); (7296, 7304); (7312, 7354); (7357, 7359); (7401,
   7404); (7406, 7411); (7413, 7414); (7418, 7418); (7424, 7615); (7680,
   7957); (7960, 7965); (7968, 8005); (8008, 8013); (8016, 8023); (8025,
   8025); (8027, 8027); (8029, 8029); (8031, 8061); (8064, 8116); (8118,
   8124); (8126, 8126); (8130, 8132); (8134, 8140); (8144, 8147); (8150,
   8155); (8160, 8172); (8178, 8180); (8182, 8188); (8304, 8305); (8308,
   8313); (8319, 8329); (8336, 8348); (8450, 8450); (8455, 8455); (8458,
   8467); (8469, 8469); (8473, 8477); (8484, 8484); (8486, 8486); (8488,
   8488); (8490, 8493); (8495, 8505); (8508, 8511); (8517, 8521); (8526,
   8526); (8528, 8585); (9312, 9371); (9450, 9471); (10102, 10131); (11264,
   11492); (11499, 11502); (11506, 11507); (11517, 11517); (11520, 11557);
   (11559, 11559); (11565, 11565); (11568, 11623); (11631, 11631); (11648,
   11670); (11680, 11686); (11688, 11694); (11696, 11702); (11704, 11710);
   (11712, 11718); (11720, 11726); (11728, 11734); (11736, 11742); (11823,
   11823); (12293, 12295); (12321, 12329); (12337, 12341); (12344, 12348);
   (12353, 12438); (12445, 12447); (12449, 12538); (12540, 12543); (12549,
   12591); (12593, 12686); (12690, 12693); (12704, 12735); (12784, 12799);
   (12832, 12841); (12872, 12879); (12881, 12895); (12928, 12937); (12977,
   12991); (13312, 19903); (19968, 42124); (42192, 42237); (42240, 42508);
   (42512, 42539); (42560, 42606); (42623, 42653); (42656, 42735); (42775,
   42783); (42786, 42888); (42891, 42954); (42960, 42961); (42963, 42963);
   (42965, 42969); (42994, 43009); (43011, 43013); (43015, 43018); (43020,
   43042); (43056, 43061); (43072, 43123); (43138, 43187); (43216, 43225);
   (43250, 43255); (43259, 43259); (43261, 43262); (43264, 43301); (43312,
   43334); (43360, 43388); (43396, 43442); (43471, 43481); (43488, 43492);
   (43494, 43518); (43520, 43560); (43584, 43586); (43588, 43595); (43600,
   43609); (43616, 43638); (43642, 43642); (43646, 43695); (43697, 43697);
   (43701, 43702); (43705, 43709); (43712, 43712); (43714, 43714); (43739,
   43741); (43744, 43754); (43762, 43764); (43777, 43782); (43785, 43790);
   (43793, 43798); (43808, 43814); (43816, 43822); (43824, 43866); (43868,
   43881); (43888, 44002); (44016, 44025); (44032, 55203); (55216, 55238);
   (55243, 55291); (63744, 64109); (64112, 64217); (64256, 64262); (64275,
   64279); (64285, 64285); (64287, 64296); (64298, 64310); (64312, 64316);
   (64318, 64318); (64320, 64321); (64323, 64324); (64326, 64433); (64467,
   64829); (64848, 64911); (64914, 64967); (65008, 65019); (65136, 65140);
   (65142, 65276); (65296, 65305); (65313, 65338); (65345, 65370); (65382,
   65470); (65474, 65479); (65482, 65487); (65490, 65495); (65498, 65500);
   (65536, 65547); (65549, 65574); (65576, 65594); (65596, 65597); (65599,
   65613); (65616, 65629); (65664, 65786); (65799, 65843); (65856, 65912);
   (65930, 65931); (66176, 66204); (66208, 66256); (66273, 66299); (66304,
   66339); (66349, 66378); (66384, 66421); (66432, 66461); (66464, 66499);
   (66504, 66511); (66513, 66517); (66560, 66717); (66720, 66729); (66736,
   66771); (66776, 66811); (66816, 66855); (66864, 66915); (66928, 66938);
   (66940, 66954); (66956, 66962); (66964, 66965); (66967, 66977); (66979,
   66993); (66995, 67001); (67003, 67004); (67072, 67382); (67392, 67413);
   (67424, 67431); (67456, 67461); (67463, 67504); (67506, 67514); (67584,
   67589); (67592, 67592); (67594, 67637); (67639, 67640); (67644, 67644);
   (67647, 67669); (67672, 67702); (67705, 67742); (67751, 67759); (67808,
   67826); (67828, 67829); (67835, 67867); (67872, 67897); (67968, 68023);
   (68028, 68047); (68050, 68096); (68112, 68115); (68117, 68119); (68121,
   68149); (68160, 68168); (68192, 68222); (68224, 68255); (68288, 68295);
   (68297, 68324); (68331, 68335); (68352, 68405); (68416, 68437); (68440,
   68466); (68472, 68497); (68521, 68527); (68608, 68680); (68736, 68786);
   (68800, 68850); (68858, 68899); (68912, 68921); (69216, 69246); (69248,
   69289); (69296, 69297); (69376, 69415); (69424, 69445); (69457, 69460);
   (69488, 69505); (69552, 69579); (69600, 69622); (69635, 69687); (69714,
   69743); (69745, 69746); (69749, 69749); (69763, 69807); (69840, 69864);
   (69872, 69881); (69891, 69926); (69942, 69951); (69956, 69956); (69959,
   69959); (69968, 70002); (70006, 70006); (70019, 70066); (70081, 70084);
   (70096, 70106); (70108, 70108); (70113, 70132); (70144, 70161); (70163,
   70187); (70272, 70278); (70280, 70280); (70282, 70285); (70287, 70301);
   (70303, 70312); (70320, 70366); (70384, 70393); (70405, 70412); (70415,
   70416); (70419, 70440); (70442, 70448); (70450, 70451); (70453, 70457);
   (70461, 70461); (70480, 70480); (70493, 70497); (70656, 70708); (70727,
   70730); (70736, 70745); (70751, 70753); (70784, 70831); (70852, 70853);
   (70855, 70855); (70864, 70873); (71040, 71086); (71128, 71131); (71168,
   71215); (71236, 71236); (71248, 71257); (71296, 71338); (71352, 71352);
   (71360, 71369); (71424, 71450); (71472, 71483); (71488, 71494); (71680,
   71723); (71840, 71922); (71935, 71942); (71945, 71945); (71948, 71955);
   (71957, 71958); (71960, 71983); (71999, 71999); (72001, 72001); (72016,
   72025); (72096, 72103); (72106, 72144); (72161, 72161); (72163, 72163);
   (72192, 72192); (72203, 72242); (72250, 72250); (72272, 72272); (72284,
   72329); (72349, 72349); (72368, 72440); (72704, 72712); (72714, 72750);
   (72768, 72768); (72784, 72812); (72818, 72847); (72960, 72966); (72968,
   72969); (72971, 73008); (73030, 73030); (73040, 73049); (73056, 73061);
   (73063, 73064); (73066, 73097); (73112, 73112); (73120, 73129); (73440,
   73458); (73648, 73648); (73664, 73684); (73728, 74649); (74752, 74862);
   (74880, 75075); (77712, 77808); (77824, 78894); (82944, 83526); (92160,
   92728); (92736, 92766); (92768, 92777); (92784, 92862); (92864, 92873);
   (92880, 92909); (92928, 92975); (92992, 92995); (93008, 93017); (93019,
   93025); (93027, 93047); (93053, 93071); (93760, 93846); (93952, 94026);
   (94032, 94032); (94099, 94111); (94176, 94177); (94179, 94179); (94208,
   100343); (100352, 101589); (101632, 101640); (110576, 110579); (110581,
   110587); (110589, 110590); (110592, 110882); (110928, 110930); (110948,
   110951); (110960, 111355); (113664, 113770); (113776, 113788); (113792,
   113800); (113808, 113817); (119520, 119539); (119648, 119672); (119808,
   119892); (119894, 119964); (119966, 119967); (119970, 119970); (119973,
   119974); (119977, 119980); (119982, 119993); (119995, 119995); (119997,
   120003); (120005, 120069); (120071, 120074); (120077, 120084); (120086,
   120092); (120094, 120121); (120123, 120126); (120128, 120132); (120134,
   120134); (120138, 120144); (120146, 120485); (120488, 120512); (120514,
   120538); (120540, 120570); (120572, 120596); (120598, 120628); (120630,
   120654); (120656, 120686); (120688, 120712); (120714, 120744); (120746,
   120770); (120772, 120779); (120782, 120831); (122624, 122654); (123136,
   123180); (123191, 123197); (123200, 123209); (123214, 123214); (123536,
   123565); (123584, 123627); (123632, 123641); (124896, 124902); (124904,
   124907); (124909, 124910); (124912, 124926); (124928, 125124); (125127,
   125135); (125184, 125251); (125259, 125259); (125264, 125273); (126065,
   126123); (126125, 126127); (126129, 126132); (126209, 126253); (126255,
   126269); (126464, 126467); (126469, 126495); (126497, 126498); (126500,
   126500); (126503, 126503); (126505, 126514); (126516, 126519); (126521,
   126521); (126523, 126523); (126530, 126530); (126535, 126535); (126537,
   126537); (126539, 126539); (126541, 126543); (126545, 126546); (126548,
   126548); (126551, 126551); (126553, 126553); (126555, 126555); (126557,
   126557); (126559, 126559); (126561, 126562); (126564, 126564); (126567,
   126570); (126572, 126578); (126580, 126583); (126585, 126588); (126590,
   126590); (126592, 126601); (126603, 126619); (126625, 126627); (126629,
   126633); (126635, 126651); (127232, 127244); (130032, 130041); (131072,
   173791); (173824, 177976); (177984, 178205); (178208, 183969); (183984,
   191456); (194560, 195101); (196608, 201546)
  ].

(** The class [\w] of a pattern. *)
Definition is_word (n : N) : bool :=
  existsb (fun r => (fst r <=? n) && (n <=? snd r)) word_ranges.

End Unicode.

(* ------------------------------------------------------------------ *)
(** ** Character and string operations of [str] *)

Module Text.

Definition code (c : ascii) : N := N_of_ascii c.

Definition is_digit (c : ascii) : bool :=
  (48 <=? code c)%N && (code c <=? 57)%N.

Definition digit_value (c : ascii) : Z := Z.of_N (code c) - 48.

(** *** The characters of a str

    In UTF-8 a character is one byte below 128, or a byte from 192 on
    followed by its continuation bytes (128 to 191).  [chars] and
    [code_point] read the characters of a str back from its bytes
    ([chars_of_code_points], [code_point_encode]). *)

Definition is_continuation (c : ascii) : bool :=
  (128 <=? code c)%N && (code c <? 192)%N.

Definition starts_with_continuation (t : string) : bool :=
  match t with
  | String c _ => is_continuation c
  | EmptyString => false
  end.

(** The characters of [s], each as the string of its bytes: a byte from
    128 on joins the continuation bytes that follow it. *)
Fixpoint chars (s : string) : list string :=
  match s with
  | EmptyString => []
  | String c r =>
      match chars r with
      | t :: l =>
          if (128 <=? code c)%N && starts_with_continuation t
          then String c t :: l
          else String c EmptyString :: t :: l
      | [] => [String c EmptyString]
      end
  end.

(** The str made of the characters [l]. *)
Fixpoint join (l : list string) : string :=
  match l with
  | [] => EmptyString
  | t :: r => t ++ join r
  end.

Fixpoint continuation_value (acc : N) (s : string) : N :=
  match s with
  | EmptyString => acc
  | String c r => continuation_value (acc * 64 + code c mod 64)%N r
  end.

(** The code point of a character: the low bits of its first byte (all
    seven of 0xxxxxxx, five of 110xxxxx, four of 1110xxxx, three of
    11110xxx), then six bits of each continuation byte. *)
Definition code_point (t : string) : N :=
  match t with
  | EmptyString => 0%N
  | String c r =>
      let n := code c in
      continuation_value
        (if n <? 192 then n else if n <? 224 then n - 192
         else if n <? 240 then n - 224 else n - 240)%N r
  end.

(** The UTF-8 encoding of a code point (below 1114112). *)
Definition encode (n : N) : string :=
  (if n <? 128 then String (ascii_of_N n) EmptyString
   else if n <? 2048 then
     String (ascii_of_N (192 + n / 64))
       (String (ascii_of_N (128 + n mod 64)) EmptyString)
   else if n <? 65536 then
     String (ascii_of_N (224 + n / 4096))
       (String (ascii_of_N (128 + (n / 64) mod 64))
          (String (ascii_of_N (128 + n mod 64)) EmptyString))
   else
     String (ascii_of_N (240 + n / 262144))
       (String (ascii_of_N (128 + (n / 4096) mod 64))
          (String (ascii_of_N (128 + (n / 64) mod 64))
             (String (ascii_of_N (128 + n mod 64)) EmptyString))))%N.

(** The str of the code points [l]. *)
Definition of_code_points (l : list N) : string := join (map encode l).

(** Whitespace in the sense of [str.isspace]. *)
Definition is_space_char (t : string) : bool := Unicode.is_space (code_point t).

(** A decimal digit of any script. *)
Definition is_decimal_char (t : string) : bool :=
  Unicode.is_decimal (code_point t).

Definition is_word_char (t : string) : bool := Unicode.is_word (code_point t).

(** Whitespace in the sense of C's [isspace] in the "C" locale. *)
Definition is_c_space (c : ascii) : bool :=
  let n := code c in
  ((9 <=? n)%N && (n <=? 13)%N) || (n =? 32)%N.

Definition to_lower (c : ascii) : ascii :=
  let n := code c in
  if (65 <=? n)%N && (n <=? 90)%N then ascii_of_N (n + 32) else c.

Fixpoint lower (s : string) : string :=
  match s with
  | EmptyString => EmptyString
  | String c r => String (to_lower c) (lower r)
  end.

(** [s.replace(c, '')] for a one-character [c]. *)
Fixpoint remove_char (c : ascii) (s : string) : string :=
  match s with
  | EmptyString => EmptyString
  | String a r =>
      if Ascii.eqb a c then remove_char c r else String a (remove_char c r)
  end.

Fixpoint lstrip_with (sp : ascii -> bool) (s : string) : string :=
  match s with
  | EmptyString => EmptyString
  | String a r => if sp a then lstrip_with sp r else s
  end.

Fixpoint rstrip_with (sp : ascii -> bool) (s : string) : string :=
  match s with
  | EmptyString => EmptyString
  | String a r =>
      match rstrip_with sp r with
      | EmptyString => if sp a then EmptyString else String a EmptyString
      | t => String a t
      end
  end.

Definition strip_with (sp : ascii -> bool) (s : string) : string :=
  rstrip_with sp (lstrip_with sp s).

Fixpoint drop_leading (sp : string -> bool) (l : list string) : list string :=
  match l with
  | [] => []
  | t :: r => if sp t then drop_leading sp r else l
  end.

Fixpoint drop_trailing (sp : string -> bool) (l : list string) : list string :=
  match l with
  | [] => []
  | t :: r =>
      match drop_trailing sp r with
      | [] => if sp t then [] else [t]
      | u => t :: u
      end
  end.

(** [s.strip()] *)
Definition strip (s : string) : string :=
  join (drop_trailing is_space_char (drop_leading is_space_char (chars s))).

(** [needle in s] for two strings. *)
Fixpoint contains (needle s : string) : bool :=
  prefix needle s ||
  match s with
  | EmptyString => false
  | String _ r => contains needle r
  end.

Fixpoint span_digits (s : string) : string * string :=
  match s with
  | EmptyString => (EmptyString, EmptyString)
  | String c r =>
      if is_digit c then
        let '(d, t) := span_digits r in (String c d, t)
      else (EmptyString, s)
  end.

Fixpoint digits_value_from (acc : Z) (s : string) : Z :=
  match s with
  | EmptyString => acc
  | String c r => digits_value_from (acc * 10 + digit_value c) r
  end.

(** The natural number a string of decimal digits denotes. *)
Definition digits_value (s : string) : Z := digits_value_from 0 s.

Fixpoint all_chars (p : ascii -> bool) (s : string) : bool :=
  match s with
  | EmptyString => true
  | String c r => p c && all_chars p r
  end.

Definition is_empty (s : string) : bool :=
  match s with EmptyString => true | _ => false end.

Fixpoint zeros (n : nat) : string :=
  match n with
  | O => EmptyString
  | S k => String "0" (zeros k)
  end.

(** The decimal digits of [z], padded with zeros on the left to [width]. *)
Definition zero_pad (width : nat) (z : Z) : string :=
  let d := Float64.digits_of_Z z in
  zeros (width - String.length d) ++ d.

End Text.

(* ------------------------------------------------------------------ *)
(** ** Python values, exceptions and the builtins the program calls *)

Module Py.

Inductive exn_class :=
| ValueError
| TypeError
| AttributeError
| OverflowError
| KeyError
| OtherException.

(** An exception: its class and [str(e)]. *)
Record exn := Exn { exn_cls : exn_class; exn_msg : string }.

Inductive result (A : Type) :=
| Ok (a : A)
| Raise (e : exn).

Arguments Ok {A} a.
Arguments Raise {A} e.

Definition bind {A B : Type} (r : result A) (k : A -> result B) : result B :=
  match r with
  | Ok a => k a
  | Raise e => Raise e
  end.

(** The values that reach the program: what [json.loads] produces, plus the
    floats and strings the program itself builds. *)
#[warnings="-register-all"]
Inductive value :=
| PNone
| PBool (b : bool)
| PInt (z : Z)
| PFloat (f : float)
| PStr (s : string)
| PList (l : list value)
| PDict (d : list (string * value)).

(** A [dict] with string keys, in insertion order. *)
Definition dict : Type := list (string * value).

Fixpoint dict_get (k : string) (d : dict) : option value :=
  match d with
  | [] => None
  | (k', v) :: r => if String.eqb k k' then Some v else dict_get k r
  end.

(** [k in d] *)
Definition dict_has (k : string) (d : dict) : bool :=
  match dict_get k d with Some _ => true | None => false end.

(** [d.get(k, default)] *)
Definition dict_get_default (k : string) (default : value) (d : dict) : value :=
  match dict_get k d with Some v => v | None => default end.

(** [d.get(k)] *)
Definition dict_get_none (k : string) (d : dict) : value :=
  dict_get_default k PNone d.

(** [d[k] = v]: an existing key keeps its position, a new key goes last. *)
Fixpoint dict_set (k : string) (v : value) (d : dict) : dict :=
  match d with
  | [] => [(k, v)]
  | (k', v') :: r =>
      if String.eqb k k' then (k, v) :: r else (k', v') :: dict_set k v r
  end.

Definition dict_keys (d : dict) : list string := map fst d.

Definition type_name (v : value) : string :=
  match v with
  | PNone => "NoneType"
  | PBool _ => "bool"
  | PInt _ => "int"
  | PFloat _ => "float"
  | PStr _ => "str"
  | PList _ => "list"
  | PDict _ => "dict"
  end.

(** Truth value testing. *)
Definition truthy (v : value) : bool :=
  match v with
  | PNone => false
  | PBool b => b
  | PInt z => negb (z =? 0)
  | PFloat f =>
      match f with
      | S754_zero _ => false
      | _ => true
      end
  | PStr s => negb (Text.is_empty s)
  | PList l => match l with [] => false | _ => true end
  | PDict d => match d with [] => false | _ => true end
  end.

Definition is_none (v : value) : bool :=
  match v with PNone => true | _ => false end.

(** [v != s] where [s] is a str: only an equal str compares equal. *)
Definition ne_str (v : value) (s : string) : bool :=
  match v with
  | PStr t => negb (String.eqb t s)
  | _ => true
  end.

(** *** [float(s)] for a str

    Leading and trailing whitespace is ignored; single underscores may
    separate digits; then, case-insensitively,
<<
      floatvalue  ::= [sign] (floatnumber | "inf" | "infinity" | "nan")
      floatnumber ::= (digits ["." [digits]] | "." digits) [("e"|"E") [sign] digits]
>>
    Anything else is a ValueError.  Out-of-range magnitudes give an
    infinity or a zero, never an error. *)

(** What [float()] and [int()] make of the characters of a str before
    they parse it: a code point below 127 stands for itself, whitespace
    becomes a blank, a decimal digit of any script the ASCII digit of its
    value, and at any other character the text ends with a question
    mark. *)
Fixpoint to_ascii_chars (l : list string) : string :=
  match l with
  | [] => EmptyString
  | t :: r =>
      let n := Text.code_point t in
      if (n <? 127)%N then String (ascii_of_N n) (to_ascii_chars r)
      else if Unicode.is_space n then String " " (to_ascii_chars r)
      else
        match Unicode.decimal n with
        | Some d => String (ascii_of_N (48 + d)) (to_ascii_chars r)
        | None => "?"
        end
  end.

Definition to_ascii_text (s : string) : string := to_ascii_chars (Text.chars s).

(** Underscores are only allowed between two digits. *)
Fixpoint drop_underscores (prev : ascii) (s : string) : option string :=
  match s with
  | EmptyString => if Ascii.eqb prev "_" then None else Some EmptyString
  | String c r =>
      if Ascii.eqb c "_" then
        if Text.is_digit prev then drop_underscores c r else None
      else if Ascii.eqb prev "_" && negb (Text.is_digit c) then None
      else option_map (String c) (drop_underscores c r)
  end.

Definition split_sign (s : string) : bool * string :=
  match s with
  | String "-" r => (true, r)
  | String "+" r => (false, r)
  | _ => (false, s)
  end.

(** The exponent part, after the digits: empty, or [e], a sign, digits. *)
Definition parse_exponent (s : string) : option Z :=
  match s with
  | EmptyString => Some 0
  | String c r =>
      if Ascii.eqb (Text.to_lower c) "e" then
        let '(neg, r1) := split_sign r in
        let '(ed, r2) := Text.span_digits r1 in
        if Text.is_empty ed || negb (Text.is_empty r2) then None
        else Some (if neg then - Text.digits_value ed else Text.digits_value ed)
      else None
  end.

(** An unsigned [floatnumber]: the digits as an integer and the power of ten. *)
Definition parse_floatnumber (s : string) : option (Z * Z) :=
  let '(ip, r1) := Text.span_digits s in
  let '(fp, r2) :=
    match r1 with
    | String "." r => Text.span_digits r
    | _ => (EmptyString, r1)
    end in
  if Text.is_empty ip && Text.is_empty fp then None
  else
    match parse_exponent r2 with
    | Some e =>
        Some (Text.digits_value (ip ++ fp), e - Z.of_nat (String.length fp))
    | None => None
    end.

Definition parse_floatvalue (s : string) : option float :=
  let '(neg, r) := split_sign s in
  let w := Text.lower r in
  if String.eqb w "inf" || String.eqb w "infinity" then
    Some (Float64.infinity neg)
  else if String.eqb w "nan" then Some Float64.nan
  else
    match parse_floatnumber r with
    | Some (m, e) => Some (Float64.of_decimal neg m e)
    | None => None
    end.

Definition could_not_convert (s : string) : exn :=
  Exn ValueError ("could not convert string to float: '" ++ s ++ "'").

Definition float_of_str (s : string) : result float :=
  match drop_underscores "000"%char (to_ascii_text s) with
  | None => Raise (could_not_convert s)
  | Some t =>
      match parse_floatvalue (Text.strip_with Text.is_c_space t) with
      | Some f => Ok f
      | None => Raise (could_not_convert s)
      end
  end.

(** *** [int(v)] *)

Definition parse_intvalue (s : string) : option Z :=
  let '(neg, r) := split_sign s in
  let '(ds, rest) := Text.span_digits r in
  if Text.is_empty ds || negb (Text.is_empty rest) then None
  else Some (if neg then - Text.digits_value ds else Text.digits_value ds).

Definition invalid_literal (s : string) : exn :=
  Exn ValueError ("invalid literal for int() with base 10: '" ++ s ++ "'").

(** The number of digits at the head of a literal, after its sign. *)
Definition count_digits (s : string) : Z :=
  Z.of_nat (String.length (fst (Text.span_digits (snd (split_sign s))))).

(** A literal of more than 4300 digits is not converted. *)
Definition too_many_digits (n : Z) : exn :=
  Exn ValueError
    ("Exceeds the limit (4300 digits) for integer string conversion: value has "
     ++ Float64.digits_of_Z n
     ++ " digits; use sys.set_int_max_str_digits() to increase the limit").

Definition int_of_str (s : string) : result Z :=
  match drop_underscores "000"%char (to_ascii_text s) with
  | None => Raise (invalid_literal s)
  | Some t =>
      let u := Text.strip_with Text.is_c_space t in
      if 4300 <? count_digits u then Raise (too_many_digits (count_digits u))
      else
        match parse_intvalue u with
        | Some z => Ok z
        | None => Raise (invalid_literal s)
        end
  end.

Definition int (v : value) : result Z :=
  match v with
  | PBool b => Ok (if b then 1 else 0)
  | PInt z => Ok z
  | PFloat f =>
      match f with
      | S754_nan => Raise (Exn ValueError "cannot convert float NaN to integer")
      | S754_infinity _ =>
          Raise (Exn OverflowError "cannot convert float infinity to integer")
      | _ =>
          match Float64.trunc f with
          | Some z => Ok z
          | None => Raise (Exn ValueError "cannot convert float NaN to integer")
          end
      end
  | PStr s => int_of_str s
  | _ =>
      Raise (Exn TypeError
               ("int() argument must be a string, a bytes-like object or a real number, not '"
                ++ type_name v ++ "'"))
  end.

(** [x + v] for a float [x], as in [total += v]. *)
Definition float_add (x : float) (v : value) : result float :=
  match v with
  | PFloat f => Ok (Float64.add x f)
  | PBool b => Ok (Float64.add x (Float64.of_decimal false (if b then 1 else 0) 0))
  | PInt z =>
      match Float64.of_Z z with
      | Some f => Ok (Float64.add x f)
      | None => Raise (Exn OverflowError "int too large to convert to float")
      end
  | _ =>
      Raise (Exn TypeError
               ("unsupported operand type(s) for +=: 'float' and '"
                ++ type_name v ++ "'"))
  end.

(** [needle in v] where [needle] is a str. *)
Definition str_in (needle : string) (v : value) : result bool :=
  match v with
  | PStr s => Ok (Text.contains needle s)
  | PList l =>
      Ok (existsb (fun x => match x with PStr t => String.eqb t needle | _ => false end) l)
  | PDict d => Ok (dict_has needle d)
  | _ =>
      Raise (Exn TypeError
               ("argument of type '" ++ type_name v ++ "' is not iterable"))
  end.

End Py.

Export Py.

(* ------------------------------------------------------------------ *)
(** ** src/core/utils.py *)

Module Utils.

(** [parse_price]: a non-str is rejected by the guard; the ValueError or
    TypeError of [float()] is turned into [None]; any other exception
    would escape. *)
Definition parse_price (price_str : value) : result (option float) :=
  match price_str with
  | PStr s =>
      let cleaned_price :=
        Text.strip (Text.remove_char "," (Text.remove_char "$" s)) in
      match float_of_str cleaned_price with
      | Ok f => Ok (Some f)
      | Raise e =>
          match exn_cls e with
          | ValueError | TypeError => Ok None
          | _ => Raise e
          end
      end
  | _ => Ok None
  end.

(** *** [format_comparison_summary]

    The HTML text is kept as the list of the blocks the function appends,
    one constructor per [html += ...] statement, each holding the values
    interpolated into that block. *)
Inductive segment :=
| LatestReceipt (receipt_total : float)
| OnlineTotal (compared : Z) (items : nat) (assumed_note : option Z)
    (online_total : float) (color : string) (difference : float) (status : string)
| OnlineTotalNA
| AllReceipts (total_paid : float)
| AllOnlineTotal (compared : Z) (items : nat) (assumed_note : option Z)
    (online_total : float) (color : string) (savings : float) (status : string)
| AllOnlineTotalNA
| CloseDiv
| CurrentItems (count : nat)
| ItemRow (item_name : value) (link : option value) (price_paid : value)
    (status_color : string) (online_details : value).

Definition html : Type := list segment.

Definition gt0 (x : float) : bool := Float64.ltb Float64.zero x.
Definition lt0 (x : float) : bool := Float64.ltb x Float64.zero.

(** ['cheaper online' if d > 0 else 'cheaper in store' if d < 0 else 'same price'] *)
Definition diff_status (d : float) : string :=
  if gt0 d then "cheaper online"
  else if lt0 d then "cheaper in store"
  else "same price".

(** ['green' if d > 0 else 'red' if d < 0 else 'black'] *)
Definition diff_color (d : float) : string :=
  if gt0 d then "green" else if lt0 d then "red" else "black".

Definition assumption_note (assumed_count : Z) : option Z :=
  if 0 <? assumed_count then Some assumed_count else None.

(** The tolerance [0.01] of the multi-receipt test. *)
Definition tolerance : float := Float64.of_decimal false 1 (-2).

(** [len(all_items) > len(current_items) or
     abs(all_receipts_paid - current_receipt_paid) > 0.01] *)
Definition shows_cumulative (all_items current_items : list dict)
  (all_receipts_paid current_receipt_paid : float) : bool :=
  (List.length current_items <? List.length all_items)%nat
  || Float64.ltb tolerance
       (Float64.abs (Float64.sub all_receipts_paid current_receipt_paid)).

(** One turn of the loop over [current_items]. *)
Definition item_row (res : dict) : result segment :=
  let item_name := dict_get_default "item" (PStr "Unknown") res in
  let price_paid := dict_get_default "price_paid" (PStr "N/A") res in
  let online_details := dict_get_default "online_details" (PStr "Not found") res in
  let product_url := dict_get_none "url" res in
  bind (str_in "Not Found" online_details) (fun not_found =>
  bind (if not_found then Ok "#999"
        else bind (str_in "Assumed same" online_details) (fun assumed =>
             Ok (if assumed then "#666" else ""))) (fun status_color =>
  Ok (ItemRow item_name
        (if truthy product_url then Some product_url else None)
        price_paid status_color online_details))).

Fixpoint item_rows (current_items : list dict) : result (list segment) :=
  match current_items with
  | [] => Ok []
  | res :: rest =>
      bind (item_row res) (fun row =>
      bind (item_rows rest) (fun rows => Ok (row :: rows)))
  end.

Definition format_comparison_summary
  (current_items : list dict) (current_receipt_total_str : value)
  (current_receipt_paid current_online_total : float)
  (current_found_count current_assumed_count : Z)
  (all_items : list dict) (all_receipts_paid all_online_total : float)
  (all_found_count all_assumed_count : Z) : result html :=
  let current_diff := Float64.sub current_receipt_paid current_online_total in
  let current_diff_status := diff_status current_diff in
  let all_diff := Float64.sub all_receipts_paid all_online_total in
  let all_diff_status := diff_status all_diff in
  let html0 := [LatestReceipt current_receipt_paid] in
  let html1 :=
    (if (0 <? current_found_count) || (0 <? current_assumed_count) then
       html0 ++ [OnlineTotal (current_found_count + current_assumed_count)
                   (List.length current_items)
                   (assumption_note current_assumed_count)
                   current_online_total (diff_color current_diff)
                   (Float64.abs current_diff) current_diff_status]
     else html0 ++ [OnlineTotalNA])%list in
  let html2 :=
    (if shows_cumulative all_items current_items all_receipts_paid current_receipt_paid
     then
       html1 ++ [AllReceipts all_receipts_paid]
       ++ (if (0 <? all_found_count) || (0 <? all_assumed_count) then
             [AllOnlineTotal (all_found_count + all_assumed_count)
                (List.length all_items)
                (assumption_note all_assumed_count)
                all_online_total (diff_color all_diff)
                (Float64.abs all_diff) all_diff_status]
           else [AllOnlineTotalNA])
       ++ [CloseDiv]
     else html1 ++ [CloseDiv])%list in
  bind (match current_items with
        | [] => Ok html2
        | _ =>
            bind (item_rows current_items) (fun rows =>
            Ok (html2 ++ [CurrentItems (List.length current_items)]
                  ++ rows ++ [CloseDiv])%list)
        end) (fun html3 =>
  Ok (html3 ++ [CloseDiv])%list).

End Utils.

(* ------------------------------------------------------------------ *)
(** ** [datetime]: dates as proleptic Gregorian ordinals *)

Module Datetime.

(** [date.max.toordinal()] *)
Definition MAXORDINAL : Z := 3652059.

(** Year, month and day of an ordinal (day 1 is 0001-01-01). *)
Definition civil_of_ordinal (n : Z) : Z * Z * Z :=
  let z := n + 305 in
  let era := z / 146097 in
  let doe := z mod 146097 in
  let yoe := (doe - doe / 1460 + doe / 36524 - doe / 146096) / 365 in
  let doy := doe - (365 * yoe + yoe / 4 - yoe / 100) in
  let mp := (5 * doy + 2) / 153 in
  let d := doy - (153 * mp + 2) / 5 + 1 in
  let m := if mp <? 10 then mp + 3 else mp - 9 in
  let y := yoe + era * 400 + (if m <=? 2 then 1 else 0) in
  (y, m, d).

(** [date.isoformat()]: YYYY-MM-DD *)
Definition date_isoformat (n : Z) : string :=
  let '(y, m, d) := civil_of_ordinal n in
  Text.zero_pad 4 y ++ "-" ++ Text.zero_pad 2 m ++ "-" ++ Text.zero_pad 2 d.

(** [today + datetime.timedelta(days=days)]: the days are passed as a C
    [int] (of 32 bits), and a timedelta has at most 999999999 of them. *)
Definition add_days (today days : Z) : result Z :=
  if (days <? - 2147483648) || (2147483647 <? days) then
    Raise (Exn OverflowError "Python int too large to convert to C int")
  else if 999999999 <? Z.abs days then
    Raise (Exn OverflowError
             ("days=" ++ (if days <? 0 then "-" else "")
              ++ Float64.digits_of_Z (Z.abs days)
              ++ "; must have magnitude <= 999999999"))
  else
    let n := today + days in
    if (1 <=? n) && (n <=? MAXORDINAL) then Ok n
    else Raise (Exn OverflowError "date value out of range").

Record datetime := {
  date : Z;
  hour : Z;
  minute : Z;
  second : Z;
  microsecond : Z
}.

(** [datetime.isoformat()]: YYYY-MM-DDTHH:MM:SS, then .ffffff unless the
    microsecond is 0. *)
Definition isoformat (t : datetime) : string :=
  date_isoformat (date t) ++ "T"
  ++ Text.zero_pad 2 (hour t) ++ ":" ++ Text.zero_pad 2 (minute t) ++ ":"
  ++ Text.zero_pad 2 (second t)
  ++ (if microsecond t =? 0 then "" else "." ++ Text.zero_pad 6 (microsecond t)).

End Datetime.

(* ------------------------------------------------------------------ *)
(** ** src/config.py *)

Module Config.

(** The truth values of the three module-level settings. *)
Record config := {
  GOOGLE_API_KEY : bool;
  GEMINI_CLIENT_INITIALIZED : bool;
  PERPLEXITY_API_KEY : bool
}.

End Config.

Export Config.

(* ------------------------------------------------------------------ *)
(** ** src/services/gemini_client.py *)

Module Gemini.

(** What [model.generate_content(prompt)] and [json.loads] make of one
    request: the call (or reading [response.text]) raises, the text is
    not JSON, or the text parses to a value. *)
Inductive reply :=
| ApiFailure (e : exn)
| NotJson (json_err : string)
| Json (data : value).

Definition has_required_keys (d : dict) : bool :=
  dict_has "item" d && dict_has "days_until_expiry" d && dict_has "price_paid" d.

Definition with_expiry (expiry_date : Z) (validated_item : dict) : dict :=
  dict_set "predicted_expiry" (PStr (Datetime.date_isoformat expiry_date)) validated_item.

(** The [try] block computing the predicted expiry of one item. *)
Definition expiry_from_days (today : Z) (item : dict) : result dict :=
  bind (int (dict_get_none "days_until_expiry" item)) (fun days =>
  bind (Datetime.add_days today days) (fun expiry_date =>
  Ok (with_expiry expiry_date item))).

(** One turn of the validation loop: [None] when the item is skipped. *)
Definition validate_item (today : Z) (item : value) : result (option dict) :=
  match item with
  | PDict d =>
      if has_required_keys d then
        match expiry_from_days today d with
        | Ok validated_item => Ok (Some validated_item)
        | Raise e =>
            match exn_cls e with
            | ValueError | TypeError =>
                bind (Datetime.add_days today 7) (fun expiry_date =>
                Ok (Some (with_expiry expiry_date d)))
            | _ => Raise e
            end
        end
      else Ok None
  | _ => Ok None
  end.

Fixpoint validate_items (today : Z) (items : list value) : result (list dict) :=
  match items with
  | [] => Ok []
  | item :: rest =>
      bind (validate_item today item) (fun v =>
      bind (validate_items today rest) (fun validated_items =>
      Ok (match v with
          | Some validated_item => validated_item :: validated_items
          | None => validated_items
          end)))
  end.

(** The part of the [try] block after [json.loads]. *)
Definition validate_response (today : Z) (data : value) : result (list dict * value) :=
  match data with
  | PDict d =>
      let items := dict_get_default "items" (PList []) d in
      let total := dict_get_default "total" (PStr "N/A") d in
      match items with
      | PList l =>
          bind (validate_items today l) (fun validated_items =>
          Ok (validated_items, total))
      | _ => Ok ([], total)
      end
  | _ =>
      Raise (Exn AttributeError
               ("'" ++ type_name data ++ "' object has no attribute 'get'"))
  end.

Definition api_call_failed (e : exn) : value :=
  PStr ("Error: AI API call failed (" ++ exn_msg e ++ ")").

Definition call_gemini_vision_api (cfg : config) (today : Z) (r : reply)
  : result (list dict * value) :=
  if negb (GOOGLE_API_KEY cfg) || negb (GEMINI_CLIENT_INITIALIZED cfg) then
    Raise (Exn ValueError
             "Google API Key not configured or client initialization failed.")
  else
    match r with
    | ApiFailure e => Ok ([], api_call_failed e)
    | NotJson json_err =>
        Ok ([], PStr ("Error: Invalid JSON response from AI (" ++ json_err ++ ")"))
    | Json data =>
        match validate_response today data with
        | Ok res => Ok res
        | Raise e => Ok ([], api_call_failed e)
        end
    end.

(** The draws of [random] of one call of the mock. *)
Record draws := {
  draw_int : nat -> Z;
  draw_uniform : nat -> float;
  draw_total : float
}.

(** [random.randint(a, b)] from the [k]-th integer draw. *)
Definition randint (r : draws) (k : nat) (a b : Z) : Z :=
  a + draw_int r k mod (b - a + 1).

(** [f"${random.uniform(a, b):.2f}"] from the [k]-th float draw. *)
Definition random_price (r : draws) (k : nat) : string :=
  "$" ++ Float64.format_2f (draw_uniform r k).

Definition mock_catalog : list (string * Z * Z) :=
  [ ("Organic Milk", 7, 14); ("Artisan Bread", 2, 5); ("Avocado", 2, 4);
    ("Free-Range Eggs", 14, 28); ("Fresh Spinach", 3, 7) ].

Fixpoint mock_items (r : draws) (today : Z) (k : nat)
  (catalog : list (string * Z * Z)) : result (list dict) :=
  match catalog with
  | [] => Ok []
  | (name, lo, hi) :: rest =>
      let days := randint r k lo hi in
      bind (Datetime.add_days today days) (fun expiry_date =>
      bind (mock_items r today (S k) rest) (fun items =>
      Ok ([ ("item", PStr name); ("price_paid", PStr (random_price r k));
            ("predicted_expiry", PStr (Datetime.date_isoformat expiry_date)) ]
          :: items)))
  end.

Definition mock_gemini_vision_processor (r : draws) (today : Z)
  : result (list dict * value) :=
  bind (mock_items r today 0 mock_catalog) (fun items =>
  Ok (items, PStr ("$" ++ Float64.format_2f (draw_total r)))).

End Gemini.

(* ------------------------------------------------------------------ *)
(** ** src/services/perplexity_client.py *)

Module Perplexity.

Inductive status := found | not_found | varies | error.

(** The dictionary the adapter returns; [price] is [None] when the key is
    absent or holds [None]. *)
Record lookup_result := {
  lookup_status : status;
  price : option float;
  details : string;
  url : value
}.

(** The HTTP round trip and the parsing of the answer, for a cleaned item
    name: every failure in there is caught and becomes an [error] result. *)
Definition web := string -> lookup_result.

Definition get_online_grocery_price_perplexity (cfg : config) (request : web)
  (item_name : value) : result lookup_result :=
  if negb (PERPLEXITY_API_KEY cfg) then
    Ok {| lookup_status := error; price := None;
          details := "Perplexity API Key not configured."; url := PNone |}
  else
    match item_name with
    | PStr s => Ok (request (Text.strip (Text.remove_char "^" s)))
    | _ =>
        Raise (Exn AttributeError
                 ("'" ++ type_name item_name ++ "' object has no attribute 'replace'"))
    end.

End Perplexity.

(* ------------------------------------------------------------------ *)
(** ** The DataFrame operations of logic.py *)

Module Pandas.

(** A cell holds the value of the record under the key of the column, or
    nothing where the record had no such key.  Where a column holds a
    str, a list or a dict pandas keeps its values as they are, and these
    are the cells of the frame; a column of numbers and nulls alone is
    converted as a whole (an int next to a float becomes a float, a null
    NaN), which is not modelled: of such a column the cells tell which
    records had the key, not the values shown. *)
Definition cell : Type := option value.

Record DataFrame := {
  columns : list string;
  rows : list (list cell)
}.

Definition mem (c : string) (l : list string) : bool := existsb (String.eqb c) l.

Fixpoint add_keys (seen ks : list string) : list string :=
  match ks with
  | [] => seen
  | k :: r => add_keys (if mem k seen then seen else seen ++ [k])%list r
  end.

(** The keys of the records, in order of first appearance. *)
Fixpoint union_keys (seen : list string) (records : list dict) : list string :=
  match records with
  | [] => seen
  | d :: r => union_keys (add_keys seen (dict_keys d)) r
  end.

Definition row_of (cols : list string) (d : dict) : list cell :=
  map (fun c => dict_get c d) cols.

(** [pd.DataFrame(records, columns=cols)] and [pd.DataFrame(columns=cols)] *)
Definition from_records_columns (records : list dict) (cols : list string) : DataFrame :=
  {| columns := cols; rows := map (row_of cols) records |}.

(** [pd.DataFrame(records)] *)
Definition from_records (records : list dict) : DataFrame :=
  from_records_columns records (union_keys [] records).

(** [c in df.columns] *)
Definition has_column (c : string) (df : DataFrame) : bool := mem c (columns df).

(** [df[c] = v] for a label [c] that is not yet a column. *)
Definition set_column (c : string) (v : value) (df : DataFrame) : DataFrame :=
  {| columns := (columns df ++ [c])%list;
     rows := map (fun r => r ++ [Some v])%list (rows df) |}.

Definition rename_label (m : list (string * string)) (c : string) : string :=
  match find (fun p => String.eqb (fst p) c) m with
  | Some p => snd p
  | None => c
  end.

(** [df.rename(columns=m, inplace=True)] *)
Definition rename (m : list (string * string)) (df : DataFrame) : DataFrame :=
  {| columns := map (rename_label m) (columns df); rows := rows df |}.

(** The entries of [r] under the columns called [label]. *)
Fixpoint pick {A : Type} (label : string) (cols : list string) (r : list A) : list A :=
  match cols, r with
  | c :: cols', x :: r' =>
      if String.eqb c label then x :: pick label cols' r' else pick label cols' r'
  | _, _ => []
  end.

(** [df[labels]] *)
Definition select (labels : list string) (df : DataFrame) : DataFrame :=
  {| columns := flat_map (fun l => pick l (columns df) (columns df)) labels;
     rows := map (fun r => flat_map (fun l => pick l (columns df) r) labels) (rows df) |}.

(** [df.empty] *)
Definition empty (df : DataFrame) : bool :=
  match rows df, columns df with
  | [], _ => true
  | _, [] => true
  | _, _ => false
  end.

End Pandas.

(* ------------------------------------------------------------------ *)
(** ** src/core/logic.py *)

Module Logic.

Import Utils Perplexity Pandas.

(** The uploaded picture; its content only matters to the vision model. *)
Variant image := Picture.

(** Everything outside the program that one call of [process_receipt]
    depends on. *)
Record env := {
  cfg : Config.config;
  (** [datetime.datetime.now()] and [datetime.date.today()] *)
  now : Datetime.datetime;
  today : Z;
  (** the answer of the vision model *)
  gemini_reply : Gemini.reply;
  (** the draws of the mock, and of the price patch after it *)
  mock_random : Gemini.draws;
  patch_random : Gemini.draws;
  (** the price service, for the [n]-th lookup of the call *)
  perplexity : nat -> Perplexity.web;
  (** an exception raised by pandas or gradio while the outputs are
      prepared (lines 163 to 192), if any *)
  output_failure : option exn;
  (** the name of the temporary CSV file, if it could be written *)
  temp_csv : option string
}.

(** The objects the [except] clause can still see when the [try] block
    raises: the inventory list (mutated in place by [extend]) and the
    summary computed so far; and, as a trace, the arguments of the calls of
    the lookup adapter. *)
Record store := {
  current_inventory_state : list dict;
  comparison_summary : html;
  lookups : list value
}.

Definition M (A : Type) : Type := store -> result A * store.

Definition ret {A : Type} (a : A) : M A := fun st => (Ok a, st).

Definition bindM {A B : Type} (m : M A) (k : A -> M B) : M B :=
  fun st =>
    match m st with
    | (Ok a, st') => k a st'
    | (Raise e, st') => (Raise e, st')
    end.

Definition lift {A : Type} (r : result A) : M A := fun st => (r, st).

Definition get_inventory : M (list dict) :=
  fun st => (Ok (current_inventory_state st), st).

(** [current_inventory_state.extend(items)] *)
Definition extend_inventory (items : list dict) : M unit :=
  fun st =>
    (Ok tt, {| current_inventory_state := (current_inventory_state st ++ items)%list;
               comparison_summary := comparison_summary st;
               lookups := lookups st |}).

Definition set_summary (h : html) : M unit :=
  fun st =>
    (Ok tt, {| current_inventory_state := current_inventory_state st;
               comparison_summary := h;
               lookups := lookups st |}).

Declare Scope monad_scope.
Delimit Scope monad_scope with monad.
Notation "x <- c ;; k" := (bindM c (fun x => k))
  (at level 61, c at next level, right associativity) : monad_scope.
Notation "' pat <- c ;; k" := (bindM c (fun x => match x with pat => k end))
  (at level 61, pat pattern, c at next level, right associativity) : monad_scope.
Notation "c ;;; k" := (bindM c (fun _ => k))
  (at level 61, right associativity) : monad_scope.
Local Open Scope monad_scope.

(** A call of the lookup adapter: the [n]-th call of the run asks the
    service's [n]-th answer. *)
Definition log_lookup (item_name : value) (st : store) : store :=
  {| current_inventory_state := current_inventory_state st;
     comparison_summary := comparison_summary st;
     lookups := (lookups st ++ [item_name])%list |}.

Definition lookup (E : env) (item_name : value) : M lookup_result :=
  fun st =>
    (get_online_grocery_price_perplexity (cfg E)
       (perplexity E (List.length (lookups st))) item_name,
     log_lookup item_name st).

Definition COLUMNS_ORDER : list string :=
  ["Item"; "Price Paid"; "Predicted Expiry Date"].

Definition rename_map : list (string * string) :=
  [("item", "Item"); ("price_paid", "Price Paid");
   ("predicted_expiry", "Predicted Expiry Date")].

(** The totals, counts and line results of one aggregate (the [current_*]
    variables, and the [all_*] variables). *)
Record aggregate := {
  paid_total : float;
  online_total : float;
  found_count : Z;
  assumed_count : Z;
  results : list dict
}.

Definition empty_aggregate : aggregate :=
  {| paid_total := Float64.zero; online_total := Float64.zero;
     found_count := 0; assumed_count := 0; results := [] |}.

Definition add_paid (total : float) (price_paid_float : option float) : float :=
  match price_paid_float with
  | Some p => Float64.add total p
  | None => total
  end.

(** Lines 32 to 41: the extraction, real or mock. *)
Definition extract (E : env) : result (list dict * value) :=
  if GOOGLE_API_KEY (cfg E) then
    Gemini.call_gemini_vision_api (cfg E) (today E) (gemini_reply E)
  else
    bind (Gemini.mock_gemini_vision_processor (mock_random E) (today E))
      (fun '(new_items_data, latest_total_amount) =>
       if negb (forallb (dict_has "price_paid") new_items_data) then
         Ok (map (fun '(k, item) =>
                    dict_set "price_paid"
                      (PStr (Gemini.random_price (patch_random E) k)) item)
               (combine (seq 0 (List.length new_items_data)) new_items_data),
             latest_total_amount)
       else Ok (new_items_data, latest_total_amount)).

(** Line 44: [isinstance(total, str) and "Error:" in total] *)
Definition is_error_total (latest_total_amount : value) : bool :=
  match latest_total_amount with
  | PStr s => Text.contains "Error:" s
  | _ => false
  end.

(** Lines 53 and 54 *)
Definition tag_items (receipt_timestamp : string) (new_items_data : list dict)
  : list dict :=
  map (dict_set "receipt_timestamp" (PStr receipt_timestamp)) new_items_data.

Definition line_result (item_name price_paid_str : value) (online_details : value)
  (product_url : value) (receipt_timestamp : value) : dict :=
  [ ("item", item_name); ("price_paid", price_paid_str);
    ("online_details", online_details); ("url", product_url);
    ("receipt_timestamp", receipt_timestamp) ].

Definition assumed_details (price_paid_float : float) : string :=
  "Assumed same as receipt ($" ++ Float64.format_2f price_paid_float ++ ")".

(** Lines 85 to 100: how a lookup result is folded into the online total,
    the counts and the item. *)
Definition fold_lookup (online_info : lookup_result) (price_paid_float : option float)
  (cur : aggregate) (item_dict : dict) : float * Z * Z * string * dict :=
  match lookup_status online_info, price online_info with
  | found, Some p =>
      (Float64.add (online_total cur) p, found_count cur + 1, assumed_count cur,
       details online_info,
       dict_set "is_assumed_price" (PBool false)
         (dict_set "online_price" (PFloat p) item_dict))
  | _, _ =>
      match price_paid_float with
      | Some q =>
          (Float64.add (online_total cur) q, found_count cur, assumed_count cur + 1,
           assumed_details q,
           dict_set "is_assumed_price" (PBool true)
             (dict_set "online_price" (PFloat q) item_dict))
      | None =>
          (online_total cur, found_count cur, assumed_count cur,
           details online_info,
           dict_set "is_assumed_price" (PBool false)
             (dict_set "online_price" PNone item_dict))
      end
  end.

(** [item_dict.get('item', 'Unknown Item')] *)
Definition name_of (item_dict : dict) : value :=
  dict_get_default "item" (PStr "Unknown Item") item_dict.

(** [item_dict.get('price_paid', 'N/A')] *)
Definition price_text_of (item_dict : dict) : value :=
  dict_get_default "price_paid" (PStr "N/A") item_dict.

(** Lines 74 to 111: one turn of the loop over the new items; returns the
    updated [current_*] variables and the item as it has been updated. *)
Definition process_item (E : env) (receipt_timestamp : string)
  (cur : aggregate) (item_dict : dict) : M (aggregate * dict) :=
  let item_name := name_of item_dict in
  let price_paid_str := price_text_of item_dict in
  price_paid_float <- lift (parse_price price_paid_str) ;;
  let current_receipt_total := add_paid (paid_total cur) price_paid_float in
  online_info <- lookup E item_name ;;
  let product_url := url online_info in
  let '(current_online_total, current_found_count, current_assumed_count,
        online_details, item_dict1) :=
    fold_lookup online_info price_paid_float cur item_dict in
  let item_dict2 :=
    dict_set "url" product_url
      (dict_set "online_details" (PStr online_details) item_dict1) in
  ret ({| paid_total := current_receipt_total;
          online_total := current_online_total;
          found_count := current_found_count;
          assumed_count := current_assumed_count;
          results := (results cur
                      ++ [line_result item_name price_paid_str (PStr online_details)
                            product_url (PStr receipt_timestamp)])%list |},
       item_dict2).

(** Lines 73 to 111 *)
Fixpoint process_items (E : env) (receipt_timestamp : string)
  (cur : aggregate) (new_items_data : list dict) : M (aggregate * list dict) :=
  match new_items_data with
  | [] => ret (cur, [])
  | item_dict :: rest =>
      '(cur1, item1) <- process_item E receipt_timestamp cur item_dict ;;
      '(cur2, rest1) <- process_items E receipt_timestamp cur1 rest ;;
      ret (cur2, item1 :: rest1)
  end.

(** Lines 124 and 125 *)
Definition existing_items_from_previous_receipts (receipt_timestamp : string)
  (current_inventory_state : list dict) : list dict :=
  filter (fun item =>
            ne_str (dict_get_default "receipt_timestamp" (PStr "") item)
              receipt_timestamp)
    current_inventory_state.

(** Lines 128 to 150: one turn of the loop over the previous items. *)
Definition add_previous_item (all : aggregate) (item : dict) : result aggregate :=
  let price_paid_str := price_text_of item in
  bind (parse_price price_paid_str) (fun price_paid_float =>
  let all_receipts_total := add_paid (paid_total all) price_paid_float in
  bind
    (if dict_has "online_price" item
        && negb (is_none (dict_get_none "online_price" item))
     then
       bind (float_add (online_total all) (dict_get_none "online_price" item))
         (fun all_online_total =>
          if truthy (dict_get_default "is_assumed_price" (PBool false) item)
          then Ok (all_online_total, found_count all, assumed_count all + 1)
          else Ok (all_online_total, found_count all + 1, assumed_count all))
     else
       match price_paid_float with
       | Some p =>
           Ok (Float64.add (online_total all) p, found_count all, assumed_count all + 1)
       | None => Ok (online_total all, found_count all, assumed_count all)
       end)
    (fun '(all_online_total, all_found_count, all_assumed_count) =>
  Ok {| paid_total := all_receipts_total;
        online_total := all_online_total;
        found_count := all_found_count;
        assumed_count := all_assumed_count;
        results := (results all
                    ++ [line_result (dict_get_default "item" (PStr "Unknown") item)
                          price_paid_str
                          (dict_get_default "online_details" (PStr "N/A") item)
                          (dict_get_none "url" item)
                          (dict_get_default "receipt_timestamp" (PStr "") item)])%list
     |})).

Fixpoint add_previous_items (all : aggregate) (items : list dict) : result aggregate :=
  match items with
  | [] => Ok all
  | item :: rest =>
      bind (add_previous_item all item) (fun all1 => add_previous_items all1 rest)
  end.

(** Lines 113 to 150: the cumulative aggregate, starting from the current
    receipt's values. *)
Definition cumulative (receipt_timestamp : string) (cur : aggregate)
  (current_inventory_state : list dict) : result aggregate :=
  match current_inventory_state with
  | [] => Ok cur
  | _ =>
      add_previous_items cur
        (existing_items_from_previous_receipts receipt_timestamp
           current_inventory_state)
  end.

Definition add_missing (c : string) (v : value) (df : DataFrame) : DataFrame :=
  if has_column c df then df else set_column c v df.

(** Lines 164 to 180: the table of the whole inventory. *)
Definition full_table (current_inventory_state : list dict) : DataFrame :=
  match current_inventory_state with
  | [] => from_records_columns [] COLUMNS_ORDER
  | _ =>
      let full_df := from_records current_inventory_state in
      let full_df := add_missing "item" (PStr "Unknown Item") full_df in
      let full_df := add_missing "price_paid" (PStr "N/A") full_df in
      let full_df := add_missing "predicted_expiry" (PStr "N/A") full_df in
      select COLUMNS_ORDER (rename rename_map full_df)
  end.

(** The five values [process_receipt] returns. *)
Record outputs := {
  table : DataFrame;
  total_text : value;
  file_output : option string;
  inventory_state : list dict;
  summary : html
}.

Definition upload_first : string := "⚠️ Upload receipt first".
Definition no_items_found : string := "No items found in receipt.".
Definition unexpected_error (e : exn) : string :=
  "❌ An unexpected error occurred in processing: " ++ exn_msg e.

(** Lines 56 to 158: the totals of the receipt, the cumulative totals and
    the summary; returns the new items as updated by the lookups. *)
Definition aggregate_receipt (E : env) (receipt_timestamp : string)
  (new_items_data : list dict) (latest_total_amount : value)
  : M (list dict) :=
  '(cur, new_items) <- process_items E receipt_timestamp empty_aggregate new_items_data ;;
  inventory <- get_inventory ;;
  all <- lift (cumulative receipt_timestamp cur inventory) ;;
  h <- lift (format_comparison_summary
               (results cur) latest_total_amount
               (paid_total cur) (online_total cur)
               (found_count cur) (assumed_count cur)
               (results all) (paid_total all) (online_total all)
               (found_count all) (assumed_count all)) ;;
  set_summary h ;;;
  ret new_items.

(** Lines 163 to 193 *)
Definition prepare_outputs (E : env) (latest_total_amount : value) : M outputs :=
  lift (match output_failure E with
        | Some e => Raise e
        | None => Ok tt
        end) ;;;
  fun st =>
    let full_df := full_table (current_inventory_state st) in
    let temp_file_path := if empty full_df then None else temp_csv E in
    (Ok {| table := full_df;
           total_text := latest_total_amount;
           file_output := temp_file_path;
           inventory_state := current_inventory_state st;
           summary := comparison_summary st |}, st).

(** Lines 31 to 193: the [try] block.  Past the two early returns the
    list of new items is not empty, so that the test of line 70 holds. *)
Definition process_receipt_try (E : env) (receipt_timestamp : string) : M outputs :=
  '(new_items_data, latest_total_amount) <- lift (extract E) ;;
  inventory <- get_inventory ;;
  match new_items_data with
  | [] =>
      ret {| table := from_records_columns inventory COLUMNS_ORDER;
             total_text :=
               if is_error_total latest_total_amount then latest_total_amount
               else PStr no_items_found;
             file_output := None;
             inventory_state := inventory;
             summary := [] |}
  | _ =>
      let new_items_data := tag_items receipt_timestamp new_items_data in
      new_items <- aggregate_receipt E receipt_timestamp new_items_data
                     latest_total_amount ;;
      extend_inventory new_items ;;;
      prepare_outputs E latest_total_amount
  end.

(** Lines 195 to 204: the [except] clause. *)
Definition on_exception (e : exn) (st : store) : outputs :=
  {| table := from_records_columns (current_inventory_state st) COLUMNS_ORDER;
     total_text := PStr (unexpected_error e);
     file_output := None;
     inventory_state := current_inventory_state st;
     summary := comparison_summary st |}.

(** The state on entry of the [try] block (lines 24 and 25). *)
Definition initial_store (current_inventory_state : list dict) : store :=
  {| current_inventory_state := current_inventory_state;
     comparison_summary := [];
     lookups := [] |}.

(** [process_receipt]: the five outputs, and the trace of the lookups.
    The inventory is a list, as the signature says ([None] would be
    replaced by the empty list on line 25). *)
Definition process_receipt (E : env) (receipt_image : option image)
  (current_inventory_state : list dict) : outputs * list value :=
  match receipt_image with
  | None =>
      ({| table := from_records_columns [] COLUMNS_ORDER;
          total_text := PStr upload_first;
          file_output := None;
          inventory_state := current_inventory_state;
          summary := [] |}, [])
  | Some _ =>
      let receipt_timestamp := Datetime.isoformat (now E) in
      match process_receipt_try E receipt_timestamp
              (initial_store current_inventory_state) with
      | (Ok out, st) => (out, lookups st)
      | (Raise e, st) => (on_exception e st, lookups st)
      end
  end.

(** [clear_inventory]: new state, table, file, total text, summary. *)
Definition clear_inventory
  : list dict * DataFrame * option string * value * html :=
  ([], from_records_columns [] COLUMNS_ORDER, None, PStr "Cleared", []).

(** Lines 218 to 234: the table [prepare_for_next_receipt] shows. *)
Definition inventory_table (inventory_state : list dict) : DataFrame :=
  match inventory_state with
  | [] => from_records_columns [] COLUMNS_ORDER
  | _ =>
      let inventory_df := from_records inventory_state in
      let inventory_df :=
        if has_column "item" inventory_df then rename rename_map inventory_df
        else inventory_df in
      if negb (empty inventory_df) then
        select COLUMNS_ORDER
          (fold_left (fun df col => add_missing col (PStr "N/A") df)
             COLUMNS_ORDER inventory_df)
      else from_records_columns [] COLUMNS_ORDER
  end.

(** [prepare_for_next_receipt]: image input, state, table, total text,
    file, summary. *)
Definition prepare_for_next_receipt (inventory_state : list dict)
  : option image * list dict * DataFrame * value * option string * html :=
  (None, inventory_state, inventory_table inventory_state, PStr "", None, []).

End Logic.

(* ------------------------------------------------------------------ *)
(** ** Sample receipts and environments *)

Module Samples.

Import Logic Perplexity.

Definition no_draws : Gemini.draws :=
  {| Gemini.draw_int := fun _ => 0;
     Gemini.draw_uniform := fun _ => Float64.zero;
     Gemini.draw_total := Float64.zero |}.

Definition keys_configured : config :=
  {| GOOGLE_API_KEY := true; GEMINI_CLIENT_INITIALIZED := true;
     PERPLEXITY_API_KEY := true |}.

Definition only_gemini_key : config :=
  {| GOOGLE_API_KEY := true; GEMINI_CLIENT_INITIALIZED := true;
     PERPLEXITY_API_KEY := false |}.

(** 2026-11-03, 09:05:00.000123 and one minute later *)
Definition morning : Datetime.datetime :=
  {| Datetime.date := 739923; Datetime.hour := 9; Datetime.minute := 5;
     Datetime.second := 0; Datetime.microsecond := 123 |}.

Definition a_minute_later : Datetime.datetime :=
  {| Datetime.date := 739923; Datetime.hour := 9; Datetime.minute := 6;
     Datetime.second := 0; Datetime.microsecond := 0 |}.

Definition json_item (name : value) (days : value) (price_paid : value) : value :=
  PDict [("item", name); ("days_until_expiry", days); ("price_paid", price_paid)].

Definition json_receipt (items : list value) (total : string) : Gemini.reply :=
  Gemini.Json (PDict [("items", PList items); ("total", PStr total)]).

Definition found_at (cents : Z) (text : string) : lookup_result :=
  {| lookup_status := found; price := Some (Float64.of_decimal false cents (-2));
     details := text; url := PStr "https://shop.example/p/1" |}.

Definition not_found_result : lookup_result :=
  {| lookup_status := not_found; price := None;
     details := "Not Found via Online Retailers"; url := PNone |}.

Definition make_env (cfg : config) (t : Datetime.datetime) (reply : Gemini.reply)
  (answers : nat -> web) (failure : option exn) : env :=
  {| Logic.cfg := cfg; now := t; today := Datetime.date t;
     gemini_reply := reply;
     mock_random := no_draws; patch_random := no_draws;
     perplexity := answers;
     output_failure := failure;
     temp_csv := Some "/tmp/tmpa1b2c3.csv" |}.

(** Receipt A of the specification: Milk, paid $4.00, found online at 3.50. *)
Definition receipt_A : env :=
  make_env keys_configured morning
    (json_receipt [json_item (PStr "Milk") (PInt 10) (PStr "$4.00")] "$4.00")
    (fun _ _ => found_at 350 "$3.50 at Walmart") None.

Definition milk : dict :=
  [("item", PStr "Milk"); ("days_until_expiry", PInt 10); ("price_paid", PStr "$4.00");
   ("predicted_expiry", PStr "2026-11-13");
   ("receipt_timestamp", PStr "2026-11-03T09:05:00.000123")].

(** An extraction that fails: no item, and an error text as the total. *)
Definition bad_json : env :=
  make_env keys_configured morning (json_receipt [] "Error: bad json")
    (fun _ _ => not_found_result) None.

(** Receipt A, with pandas failing while the table is built. *)
Definition receipt_A_table_failure : env :=
  make_env keys_configured morning
    (json_receipt [json_item (PStr "Milk") (PInt 10) (PStr "$4.00")] "$4.00")
    (fun _ _ => found_at 350 "$3.50 at Walmart")
    (Some (Exn OtherException "out of memory")).

(** A receipt whose only item has a number for a name: the lookup adapter
    raises AttributeError on it. *)
Definition numeric_name : env :=
  make_env keys_configured a_minute_later
    (json_receipt [json_item (PInt 5) (PInt 10) (PStr "$2.00")] "$2.00")
    (fun _ _ => not_found_result) None.

(** The model is not configured although the key is set: the extraction
    raises ValueError. *)
Definition client_not_initialized : env :=
  make_env {| GOOGLE_API_KEY := true; GEMINI_CLIENT_INITIALIZED := false;
              PERPLEXITY_API_KEY := true |}
    a_minute_later (json_receipt [] "$0.00") (fun _ _ => not_found_result) None.

(** Milk as it is stored after receipt A. *)
Definition stored_milk : dict :=
  [("item", PStr "Milk"); ("days_until_expiry", PInt 10); ("price_paid", PStr "$4.00");
   ("predicted_expiry", PStr "2026-11-13");
   ("receipt_timestamp", PStr "2026-11-03T09:05:00.000123");
   ("online_price", PFloat (Float64.of_decimal false 350 (-2)));
   ("is_assumed_price", PBool false);
   ("online_details", PStr "$3.50 at Walmart");
   ("url", PStr "https://shop.example/p/1")].

(** Responses of the vision model with one odd item each. *)
Definition no_days_item : value :=
  PDict [("item", PStr "Milk"); ("price_paid", PStr "$3.99")].



(** Receipt B of the specification: Bread, paid $2.00, the lookup fails. *)
Definition receipt_B : env :=
  make_env keys_configured a_minute_later
    (json_receipt [json_item (PStr "Bread") (PInt 5) (PStr "$2.00")] "$2.00")
    (fun _ _ => {| lookup_status := error; price := None;
                   details := "Error connecting to Perplexity API: timeout";
                   url := PNone |}) None.

(** Two receipts with no price service configured: two items at $0.10,
    then one item at $1.10. *)
Definition two_dimes : env :=
  make_env only_gemini_key morning
    (json_receipt [json_item (PStr "Gum") (PInt 90) (PStr "$0.10");
                   json_item (PStr "Mint") (PInt 90) (PStr "$0.10")] "$0.20")
    (fun _ _ => not_found_result) None.

Definition one_dollar_ten : env :=
  make_env only_gemini_key a_minute_later
    (json_receipt [json_item (PStr "Pen") (PInt 900) (PStr "$1.10")] "$1.10")
    (fun _ _ => not_found_result) None.

(** Two receipts with prices of three decimals: $1.11 and $2.165, then
    $0.15. *)
Definition two_odd_prices : env :=
  make_env only_gemini_key morning
    (json_receipt [json_item (PStr "Tea") (PInt 90) (PStr "$1.11");
                   json_item (PStr "Fuel") (PInt 90) (PStr "$2.165")] "$3.28")
    (fun _ _ => not_found_result) None.

Definition fifteen_cents : env :=
  make_env only_gemini_key a_minute_later
    (json_receipt [json_item (PStr "Bag") (PInt 900) (PStr "$0.15")] "$0.15")
    (fun _ _ => not_found_result) None.

(** A line of a summary: Milk, paid $10.00, found online at 9.50. *)
Definition milk_line : dict :=
  line_result (PStr "Milk") (PStr "$10.00") (PStr "$9.50 at Walmart") PNone
    (PStr "2026-11-03T09:05:00.000123").

Definition dollars (cents : Z) : float := Float64.of_decimal false cents (-2).

End Samples.

(* ------------------------------------------------------------------ *)
(** ** Vocabulary of the properties *)

Module Spec.

Import Logic Perplexity.

(** The decision table of the aggregator: how the lookup result [info] of
    an item whose paid price parsed to [paid] takes the running aggregate
    from [cur] to [cur'] and marks the stored item [item']. *)
Definition follows_decision_table (info : lookup_result) (paid : option float)
  (cur cur' : aggregate) (item' : dict) : Prop :=
  (forall p, lookup_status info = found -> price info = Some p ->
     online_total cur' = Float64.add (online_total cur) p
     /\ found_count cur' = found_count cur + 1
     /\ assumed_count cur' = assumed_count cur
     /\ dict_get "online_price" item' = Some (PFloat p)
     /\ dict_get "is_assumed_price" item' = Some (PBool false))
  /\ (forall q, lookup_status info <> found \/ price info = None ->
        paid = Some q ->
        online_total cur' = Float64.add (online_total cur) q
        /\ found_count cur' = found_count cur
        /\ assumed_count cur' = assumed_count cur + 1
        /\ dict_get "online_price" item' = Some (PFloat q)
        /\ dict_get "is_assumed_price" item' = Some (PBool true))
  /\ (lookup_status info <> found \/ price info = None ->
        paid = None ->
        online_total cur' = online_total cur
        /\ paid_total cur' = paid_total cur
        /\ found_count cur' = found_count cur
        /\ assumed_count cur' = assumed_count cur
        /\ dict_get "online_price" item' = Some PNone
        /\ dict_get "is_assumed_price" item' = Some (PBool false)).

(** The item carries the batch identifier [ts]. *)
Definition tagged (ts : string) (item : dict) : Prop :=
  dict_get "receipt_timestamp" item = Some (PStr ts).

(** The item carries a batch identifier that is a non-empty string. *)
Definition has_batch_id (item : dict) : Prop :=
  exists ts, tagged ts item /\ ts <> "".

(** The item has the three fields the table shows. *)
Definition has_item_fields (item : dict) : Prop :=
  dict_has "item" item = true
  /\ dict_has "price_paid" item = true
  /\ dict_has "predicted_expiry" item = true.


(** The line result has a text for its online details (or none at all). *)
Definition details_is_text (res : dict) : Prop :=
  exists text, dict_get_default "online_details" (PStr "Not found") res = PStr text.

(** The texts of the form [\$?\d+(\.\d+)?], where commas may stand among
    the digits before the point: an optional dollar sign, the integer part
    [ip], and the fraction digits [fp] if there is a point. *)
Definition digit_or_comma (c : ascii) : bool :=
  Text.is_digit c || Ascii.eqb c ",".

(** The part of a price after the integer part. *)
Definition after_integer (fp : option string) : string :=
  match fp with Some f => "." ++ f | None => "" end.

Definition price_text (dollar : bool) (ip : string) (fp : option string) : string :=
  (if dollar then "$" else "") ++ ip ++ after_integer fp.

Definition well_formed_price (ip : string) (fp : option string) : Prop :=
  Text.all_chars digit_or_comma ip = true
  /\ Text.remove_char "," ip <> ""
  /\ match fp with
     | Some f => Text.all_chars Text.is_digit f = true /\ f <> ""
     | None => True
     end.

Definition price_pattern (s : string) : Prop :=
  exists dollar ip fp, well_formed_price ip fp /\ s = price_text dollar ip fp.

Definition fraction_digits (fp : option string) : string :=
  match fp with Some f => f | None => "" end.

(** The float nearest to the number the digits denote. *)
Definition denoted_price (ip : string) (fp : option string) : float :=
  Float64.of_decimal false
    (Text.digits_value (Text.remove_char "," ip ++ fraction_digits fp))
    (- Z.of_nat (String.length (fraction_digits fp))).

(** *** The texts [float()] accepts

    The grammar of the language reference, for a text in which the digits
    are ASCII digits and no underscore is left:
<<
      floatvalue  ::= [sign] (floatnumber | "inf" | "infinity" | "nan")
      floatnumber ::= (digits ["." [digits]] | "." digits) [exponent]
      exponent    ::= ("e" | "E") [sign] digits
>>
    with "inf", "infinity" and "nan" in any case. *)

Definition digits (s : string) : Prop := Text.all_chars Text.is_digit s = true.

(** An optional sign, and whether it is the minus sign. *)
Inductive sign_text : string -> bool -> Prop :=
| no_sign : sign_text "" false
| plus_sign : sign_text "+" false
| minus_sign : sign_text "-" true.

(** A number without exponent: its text, the digits before the point and
    the digits after it. *)
Inductive number_text : string -> string -> string -> Prop :=
| whole_number (ip : string) :
    digits ip -> ip <> "" -> number_text ip ip ""
| pointed_number (ip fp : string) :
    digits ip -> digits fp -> ip ++ fp <> "" ->
    number_text (ip ++ "." ++ fp) ip fp.

(** An optional exponent: its text and the power of ten. *)
Inductive exponent_text : string -> Z -> Prop :=
| no_exponent : exponent_text "" 0
| some_exponent (e : ascii) (sg : string) (neg : bool) (ed : string) :
    e = "e"%char \/ e = "E"%char ->
    sign_text sg neg -> digits ed -> ed <> "" ->
    exponent_text (String e (sg ++ ed))
      (if neg then - Text.digits_value ed else Text.digits_value ed).

(** A float literal: its text and the float it denotes, the one nearest
    to the decimal number for a [floatnumber]. *)
Inductive float_literal : string -> float -> Prop :=
| number_literal (sg : string) (neg : bool) (n ip fp e : string) (k : Z) :
    sign_text sg neg -> number_text n ip fp -> exponent_text e k ->
    float_literal (sg ++ n ++ e)
      (Float64.of_decimal neg (Text.digits_value (ip ++ fp))
         (k - Z.of_nat (String.length fp)))
| infinity_literal (sg : string) (neg : bool) (w : string) :
    sign_text sg neg ->
    Text.lower w = "inf" \/ Text.lower w = "infinity" ->
    float_literal (sg ++ w) (Float64.infinity neg)
| nan_literal (sg : string) (neg : bool) (w : string) :
    sign_text sg neg -> Text.lower w = "nan" ->
    float_literal (sg ++ w) Float64.nan.

(** The text [float()] reads a literal from, for the price text [s]: the
    dollar signs, the commas and the surrounding whitespace are removed;
    the decimal digits of any script become ASCII digits and whitespace
    blanks, and any other character from code point 127 on ends the text
    with a question mark; the underscores, each of which must stand
    between two digits, are dropped; the blanks (ASCII whitespace) at both
    ends are ignored.  There is no such text when an underscore is
    misplaced. *)
Definition float_text (s : string) : option string :=
  option_map (Text.strip_with Text.is_c_space)
    (drop_underscores "000"
       (to_ascii_text
          (Text.strip (Text.remove_char "," (Text.remove_char "$" s))))).

(** What a stored item adds to the cumulative paid total: its paid price,
    if it parses. *)
Definition paid_addend (item : dict) : option float :=
  match Utils.parse_price (price_text_of item) with
  | Ok p => p
  | Raise _ => None
  end.

(** What a stored item adds to the cumulative online total: its stored
    online price, if it has one. *)
Definition online_addend (item : dict) : option float :=
  match dict_get "online_price" item with
  | Some (PFloat p) => Some p
  | _ => None
  end.

(** [start], with the addends added to it one at a time, in order. *)
Definition sum_from (start : float) (addends : list (option float)) : float :=
  fold_left add_paid addends start.

(** The items the extraction of a call yields. *)
Definition extracted_items (E : env) : list dict :=
  match extract E with
  | Ok (items, _) => items
  | Raise _ => []
  end.

Definition is_item_row (seg : Utils.segment) : Prop :=
  match seg with
  | Utils.ItemRow _ _ _ _ _ => True
  | _ => False
  end.

End Spec.

Export Spec.

(* ------------------------------------------------------------------ *)
(** ** src/config.py: how the settings are loaded *)

Module Startup.

(** A value of [os.getenv] is truthy when it is set and not empty. *)
Definition is_set (v : option string) : bool :=
  match v with
  | Some s => negb (Text.is_empty s)
  | None => false
  end.

(** The module-level code: [GOOGLE_API_KEY] is reset to [None] when
    [genai.configure] raises, and the client counts as initialised only
    when it did not. *)
Definition load_config (gemini_api_key perplexity_api_key : option string)
  (configure_raises : bool) : config :=
  if is_set gemini_api_key then
    if configure_raises then
      {| GOOGLE_API_KEY := false; GEMINI_CLIENT_INITIALIZED := false;
         PERPLEXITY_API_KEY := is_set perplexity_api_key |}
    else
      {| GOOGLE_API_KEY := true; GEMINI_CLIENT_INITIALIZED := true;
         PERPLEXITY_API_KEY := is_set perplexity_api_key |}
  else
    {| GOOGLE_API_KEY := false; GEMINI_CLIENT_INITIALIZED := false;
       PERPLEXITY_API_KEY := is_set perplexity_api_key |}.

End Startup.

(* ------------------------------------------------------------------ *)
(** ** src/services/perplexity_client.py: reading the answer *)

Module PerplexityReply.

Import Perplexity.

(** The patterns are matched against the characters of the text. *)

(** Any character but whitespace and the two quotes. *)
Definition is_url_char (t : string) : bool :=
  let n := Text.code_point t in
  negb (Unicode.is_space n || (n =? 34)%N || (n =? 39)%N).

(** The longest run of characters with [p] at the head of [l], and the
    rest. *)
Fixpoint span_chars (p : string -> bool) (l : list string)
  : list string * list string :=
  match l with
  | [] => ([], [])
  | t :: r =>
      if p t then let '(a, u) := span_chars p r in (t :: a, u)
      else ([], l)
  end.

(** [l] without the characters of the ASCII text [p], if it starts with
    them. *)
Fixpoint after_prefix (p : string) (l : list string) : option (list string) :=
  match p, l with
  | EmptyString, _ => Some l
  | String a p', t :: l' =>
      if String.eqb t (String a EmptyString) then after_prefix p' l' else None
  | _, _ => None
  end.

(** [\d+\.\d{2}] at the head of [l]: the text matched and what follows.
    The digits are matched greedily; giving one back never helps, as the
    point would then face a digit. *)
Definition match_amount (l : list string) : option (string * list string) :=
  let '(ds, r) := span_chars Text.is_decimal_char l in
  match ds with
  | [] => None
  | _ =>
      match r with
      | dot :: a :: b :: rest =>
          if String.eqb dot "." && Text.is_decimal_char a
             && Text.is_decimal_char b
          then Some (Text.join ds ++ "." ++ a ++ b, rest)
          else None
      | _ => None
      end
  end.

(** [\$?(\d+\.\d{2})] at the head of [l]: group 1. *)
Definition match_price_here (l : list string) : option string :=
  match l with
  | t :: r =>
      if String.eqb t "$" then option_map fst (match_amount r)
      else option_map fst (match_amount l)
  | [] => None
  end.

Fixpoint search_price_from (l : list string) : option string :=
  match match_price_here l with
  | Some g => Some g
  | None =>
      match l with
      | [] => None
      | _ :: r => search_price_from r
      end
  end.

(** [re.search(r'\$?(\d+\.\d{2})', s)]: group 1 of the leftmost match. *)
Definition search_price (s : string) : option string :=
  search_price_from (Text.chars s).

(** [\$(\d+\.\d{2})\s+at\s+(\w+)] at the head of [l]: groups 1 and 2. *)
Definition match_offer_here (l : list string) : option (string * string) :=
  match l with
  | t :: r =>
      if String.eqb t "$" then
        match match_amount r with
        | Some (g, r1) =>
            match span_chars Text.is_space_char r1 with
            | ([], _) => None
            | (_, r2) =>
                match after_prefix "at" r2 with
                | Some r3 =>
                    match span_chars Text.is_space_char r3 with
                    | ([], _) => None
                    | (_, r4) =>
                        match span_chars Text.is_word_char r4 with
                        | ([], _) => None
                        | (w, _) => Some (g, Text.join w)
                        end
                    end
                | None => None
                end
            end
        | None => None
        end
      else None
  | [] => None
  end.

Fixpoint search_offer_from (l : list string) : option (string * string) :=
  match match_offer_here l with
  | Some g => Some g
  | None =>
      match l with
      | [] => None
      | _ :: r => search_offer_from r
      end
  end.

(** [re.search(r'\$(\d+\.\d{2})\s+at\s+(\w+)', s)] *)
Definition search_offer (s : string) : option (string * string) :=
  search_offer_from (Text.chars s).

(** The URL pattern at the head of [l]: [http], an optional [s], [://],
    then one or more characters that are neither whitespace nor a quote;
    the text matched. *)
Definition match_url_here (l : list string) : option string :=
  let with_scheme (scheme : string) :=
    match after_prefix scheme l with
    | Some r =>
        match span_chars is_url_char r with
        | ([], _) => None
        | (u, _) => Some (scheme ++ Text.join u)
        end
    | None => None
    end in
  match with_scheme "https://" with
  | Some u => Some u
  | None => with_scheme "http://"
  end.

Fixpoint search_url_from (l : list string) : option string :=
  match match_url_here l with
  | Some u => Some u
  | None =>
      match l with
      | [] => None
      | _ :: r => search_url_from r
      end
  end.

(** [re.search] of the URL pattern: the leftmost match. *)
Definition search_url (s : string) : option string :=
  search_url_from (Text.chars s).

(** What [json.loads] makes of the JSON text cut out of the content. *)
Inductive loaded :=
| Decoded (data : value)
| DecodeError.

(** What the request yields, up to the content of the first choice:
    a [RequestException]; any other exception raised on lines 50 to 55;
    a response that fails the test of line 54; or the content (before
    [.strip()]) with what [json.loads] makes of it. *)
Inductive http_reply :=
| RequestFailed (req_err : string)
| Failed (e : exn)
| NoContent
| Content (content : string) (j : loaded).

Definition error_result (text : string) : lookup_result :=
  {| lookup_status := error; price := None; details := text; url := PNone |}.

Section Answer.

(** [str()] of a value that is not a str, as f-strings use it. *)
Variable str_of : value -> string.

Definition text_of (v : value) : string :=
  match v with
  | PStr s => s
  | _ => str_of v
  end.

(** Lines 81 to 106: the answer in the JSON object [data]. *)
Definition interpret_data (data : value) : result lookup_result :=
  match data with
  | PDict d =>
      let price_str := dict_get_default "price" (PStr "N/A") d in
      let retailer := dict_get_default "retailer" (PStr "Unknown") d in
      let product_url := dict_get_none "url" d in
      if negb (ne_str price_str "Not Found") then
        Ok {| lookup_status := not_found; price := None;
              details := "Not Found via Online Retailers"; url := PNone |}
      else if negb (ne_str price_str "Price Varies") then
        Ok {| lookup_status := varies; price := None;
              details := "Price Varies"; url := product_url |}
      else
        let text := text_of price_str ++ " at " ++ text_of retailer in
        let no_price :=
          {| lookup_status := found; price := None;
             details := text; url := product_url |} in
        match price_str with
        | PStr s =>
            match search_price s with
            | Some g =>
                match float_of_str g with
                | Ok p =>
                    Ok {| lookup_status := found; price := Some p;
                          details := text; url := product_url |}
                | Raise e =>
                    match exn_cls e with
                    | ValueError => Ok no_price
                    | _ => Raise e
                    end
                end
            | None => Ok no_price
            end
        | _ =>
            Raise (Exn TypeError
                     ("expected string or bytes-like object, got '"
                      ++ type_name price_str ++ "'"))
        end
  | _ =>
      Raise (Exn AttributeError
               ("'" ++ type_name data ++ "' object has no attribute 'get'"))
  end.

(** Lines 108 to 126: the content is not JSON. *)
Definition fallback (content : string) : result lookup_result :=
  match search_offer content with
  | Some (g, retailer) =>
      bind (float_of_str g) (fun p =>
      Ok {| lookup_status := found; price := Some p;
            details := "$" ++ str_of (PFloat p) ++ " at " ++ retailer;
            url := match search_url content with
                   | Some u => PStr u
                   | None => PNone
                   end |})
  | None =>
      if Text.contains "Not Found" content then
        Ok {| lookup_status := not_found; price := None;
              details := "Not Found via Online Retailers"; url := PNone |}
      else if Text.contains "Price Varies" content then
        Ok {| lookup_status := varies; price := None;
              details := "Price Varies"; url := PNone |}
      else Ok (error_result ("Could not parse price from: " ++ content))
  end.

(** Lines 49 to 137: the answer to one request. *)
Definition answer (r : http_reply) : lookup_result :=
  match r with
  | RequestFailed req_err =>
      error_result ("Error connecting to Perplexity API: " ++ req_err)
  | Failed e => error_result ("Unexpected error checking price: " ++ exn_msg e)
  | NoContent => error_result "Could not parse Perplexity response."
  | Content raw j =>
      if Text.is_empty raw then
        error_result "Could not parse Perplexity response."
      else
        let content := Text.strip raw in
        if Text.is_empty content then
          error_result "Perplexity returned empty response."
        else
          match
            match j with
            | Decoded data => interpret_data data
            | DecodeError => fallback content
            end
          with
          | Ok res => res
          | Raise e =>
              error_result ("Unexpected error checking price: " ++ exn_msg e)
          end
  end.

(** The service behind the adapter: the request for a cleaned name, and
    the reading of its reply. *)
Definition service (http : string -> http_reply) : web :=
  fun cleaned_item_name => answer (http cleaned_item_name).

End Answer.

End PerplexityReply.

(* ------------------------------------------------------------------ *)
(** ** src/app.py: the three buttons *)

Module App.

Import Logic Pandas.

(** The values of the components the event listeners read and write. *)
Record screen := {
  receipt_input : option image;
  inventory_state : list dict;
  inventory_output_df : DataFrame;
  latest_total_output : value;
  download_button : option string;
  comparison_summary_output : Utils.html
}.

(** What the user does: put a picture in the upload area (or remove it),
    or click one of the three buttons; a click on "Process Receipt"
    happens in some state [E] of the world. *)
Inductive action :=
| Upload (picture : option image)
| ProcessReceipt (E : env)
| ClearAll
| AddAnotherReceipt.

(** [submit_button.click]: the outputs are the table, the total, the file,
    the state and the summary. *)
Definition on_submit (E : env) (s : screen) : screen :=
  let out := fst (process_receipt E (receipt_input s) (inventory_state s)) in
  {| receipt_input := receipt_input s;
     inventory_state := Logic.inventory_state out;
     inventory_output_df := table out;
     latest_total_output := total_text out;
     download_button := file_output out;
     comparison_summary_output := summary out |}.

(** [clear_button.click]: no input; the outputs are the state, the table,
    the file, the total and the summary. *)
Definition on_clear (s : screen) : screen :=
  let '(state, df, file, total, html) := clear_inventory in
  {| receipt_input := receipt_input s;
     inventory_state := state;
     inventory_output_df := df;
     latest_total_output := total;
     download_button := file;
     comparison_summary_output := html |}.

(** [add_receipt_button.click]: the input is the state; the outputs are
    the picture, the state, the table, the total, the file and the summary. *)
Definition on_add_receipt (s : screen) : screen :=
  let '(picture, state, df, total, file, html) :=
    prepare_for_next_receipt (inventory_state s) in
  {| receipt_input := picture;
     inventory_state := state;
     inventory_output_df := df;
     latest_total_output := total;
     download_button := file;
     comparison_summary_output := html |}.

Definition step (s : screen) (a : action) : screen :=
  match a with
  | Upload picture =>
      {| receipt_input := picture;
         inventory_state := inventory_state s;
         inventory_output_df := inventory_output_df s;
         latest_total_output := latest_total_output s;
         download_button := download_button s;
         comparison_summary_output := comparison_summary_output s |}
  | ProcessReceipt E => on_submit E s
  | ClearAll => on_clear s
  | AddAnotherReceipt => on_add_receipt s
  end.

(** A session: the actions of the user, in order. *)
Definition run (s : screen) (actions : list action) : screen :=
  fold_left step actions s.

End App.

(* ------------------------------------------------------------------ *)
(** ** More vocabulary *)

Module Spec2.

Import Logic Perplexity Pandas.

(** The stored online price of the item, if any, is a float. *)
Definition well_stored (item : dict) : Prop :=
  match dict_get "online_price" item with
  | None | Some PNone | Some (PFloat _) => True
  | Some _ => False
  end.

(** The item has none of the three labels of the table among its keys. *)
Definition no_label_key (item : dict) : Prop :=
  dict_has "Item" item = false
  /\ dict_has "Price Paid" item = false
  /\ dict_has "Predicted Expiry Date" item = false.

(** The row of an item in the table: its name, its price, its expiry. *)
Definition shown_row (item : dict) : list cell :=
  [dict_get "item" item; dict_get "price_paid" item;
   dict_get "predicted_expiry" item].

(** A row of three empty cells. *)
Definition blank_row (item : dict) : list cell := [None; None; None].


(** The five fields [process_receipt] writes into a new item. *)
Definition written_key (k : string) : Prop :=
  k = "receipt_timestamp" \/ k = "online_price" \/ k = "is_assumed_price"
  \/ k = "online_details" \/ k = "url".

(** An extracted item and the item stored for it: the five fields are
    set, the batch identifier is [ts], every other field is as extracted. *)
Definition stored_from (ts : string) (item stored : dict) : Prop :=
  tagged ts stored
  /\ dict_has "online_price" stored = true
  /\ dict_has "is_assumed_price" stored = true
  /\ dict_has "online_details" stored = true
  /\ dict_has "url" stored = true
  /\ forall k, ~ written_key k -> dict_get k stored = dict_get k item.

(** The text of the online details of an assumed item. *)
Definition row_color (text : string) : string :=
  if Text.contains "Not Found" text then "#999"
  else if Text.contains "Assumed same" text then "#666"
  else "".

(** A line result and its row in the summary. *)
Definition row_for (res : dict) (seg : Utils.segment) : Prop :=
  exists text,
    dict_get_default "online_details" (PStr "Not found") res = PStr text
    /\ seg = Utils.ItemRow
               (dict_get_default "item" (PStr "Unknown") res)
               (if truthy (dict_get_none "url" res)
                then Some (dict_get_none "url" res) else None)
               (dict_get_default "price_paid" (PStr "N/A") res)
               (row_color text) (PStr text).

Definition is_item_row_b (seg : Utils.segment) : bool :=
  match seg with
  | Utils.ItemRow _ _ _ _ _ => true
  | _ => false
  end.

End Spec2.

Export Spec2.

(* ------------------------------------------------------------------ *)
(** ** More scenarios *)

Module Scenarios.

Import Logic Perplexity Samples.

(** A picture on which the model finds no item. *)
Definition empty_receipt : env :=
  make_env keys_configured morning (json_receipt [] "$0.00")
    (fun _ _ => not_found_result) None.

(** An item that keeps for ten days, and one that keeps for ten thousand
    million days. *)
Definition ten_days_item : dict :=
  [("item", PStr "Milk"); ("days_until_expiry", PInt 10); ("price_paid", PStr "$4.00")].

Definition everlasting_item : dict :=
  [("item", PStr "Salt"); ("days_until_expiry", PInt 10000000000);
   ("price_paid", PStr "$1.00")].

(** A reply with Milk, and Salt after it. *)
Definition milk_and_salt : Gemini.reply :=
  json_receipt [PDict ten_days_item; PDict everlasting_item] "$5.00".

Definition salt_receipt : env :=
  make_env keys_configured morning milk_and_salt (fun _ _ => not_found_result) None.

(** No key for the vision model: the mock stands in. *)
Definition no_keys : config :=
  {| GOOGLE_API_KEY := false; GEMINI_CLIENT_INITIALIZED := false;
     PERPLEXITY_API_KEY := false |}.

Definition mock_run : env :=
  make_env no_keys morning (Gemini.NotJson "unused") (fun _ _ => not_found_result) None.

(** Draws of the mock that are all 2.675. *)
Definition odd_draws : Gemini.draws :=
  {| Gemini.draw_int := fun _ => 0;
     Gemini.draw_uniform := fun _ => S754_finite false 6023564501608038 (-51);
     Gemini.draw_total := Float64.zero |}.

(** A stand-in for [str()], which the properties do not depend on. *)
Definition type_in_brackets (v : value) : string := "<" ++ type_name v ++ ">".

(** Answers of the price service. *)
Definition thousands_answer : dict :=
  [("price", PStr "$1,234.56"); ("retailer", PStr "Walmart"); ("url", PNone)].

Definition whole_dollars_answer : dict :=
  [("price", PStr "$5"); ("retailer", PStr "Target");
   ("url", PStr "https://shop.example/p/2")].

(** The screen when the application starts, and a session: receipt A is
    uploaded and processed, the user asks for another receipt, uploads
    receipt B and processes it. *)
Definition start : App.screen :=
  {| App.receipt_input := None;
     App.inventory_state := [];
     App.inventory_output_df := Pandas.from_records_columns [] COLUMNS_ORDER;
     App.latest_total_output := PStr "";
     App.download_button := None;
     App.comparison_summary_output := [] |}.

Definition two_receipts : list App.action :=
  [App.Upload (Some Picture); App.ProcessReceipt receipt_A;
   App.AddAnotherReceipt;
   App.Upload (Some Picture); App.ProcessReceipt receipt_B].

End Scenarios.

(* ------------------------------------------------------------------ *)
(** ** Vocabulary of the further properties *)

Module Vocabulary.

Import Logic Perplexity Pandas.

(** The counts of an aggregate are not negative and count no more items
    than it has line results. *)
Definition counts_ok (a : aggregate) : Prop :=
  0 <= found_count a /\ 0 <= assumed_count a
  /\ found_count a + assumed_count a <= Z.of_nat (List.length (results a)).


(** The objects of a response that have the three required keys. *)
Definition accepted (items : list value) : list dict :=
  flat_map (fun item =>
              match item with
              | PDict d => if Gemini.has_required_keys d then [d] else []
              | _ => []
              end) items.

(** [v] is [d] with a predicted expiry date. *)
Definition dated (d v : dict) : Prop :=
  exists expiry_date, v = Gemini.with_expiry expiry_date d.

(** A reply the adapter cannot use: the call failed, the text is not
    JSON, or the validation of the parsed value raises. *)
Definition failed_reply (today : Z) (r : Gemini.reply) : Prop :=
  match r with
  | Gemini.ApiFailure _ | Gemini.NotJson _ => True
  | Gemini.Json data => exists e, Gemini.validate_response today data = Raise e
  end.

(** A number of days the calendar cannot take: an infinite float, or an
    integer that is too large or leads out of the years 1 to 9999. *)
Definition beyond_calendar (today : Z) (days : value) : Prop :=
  (exists s, days = PFloat (S754_infinity s))
  \/ exists n, int days = Ok n
               /\ ~ (Z.abs n <= 999999999
                     /\ 1 <= today + n <= Datetime.MAXORDINAL).

(** An entry of the mock catalog and the item made of it. *)
Definition mock_item_of (today : Z) (entry : string * Z * Z) (item : dict) : Prop :=
  let '(name, lo, hi) := entry in
  exists days price,
    lo <= days <= hi
    /\ item = [("item", PStr name); ("price_paid", PStr price);
               ("predicted_expiry",
                PStr (Datetime.date_isoformat (today + days)))].

(** What holds of every inventory of a session. *)
Definition well_formed_inventory (inventory : list dict) : Prop :=
  Forall has_batch_id inventory
  /\ Forall has_item_fields inventory
  /\ Forall well_stored inventory.


(** The last of the characters is a decimal digit. *)
Fixpoint last_is_decimal (l : list string) : bool :=
  match l with
  | [] => false
  | [t] => Text.is_decimal_char t
  | _ :: r => last_is_decimal r
  end.

(** The last character of [s] is a decimal digit, of any script. *)
Definition ends_in_digit (s : string) : bool := last_is_decimal (Text.chars s).

(** The three fields the table shows are texts. *)
Definition text_fields (item : dict) : Prop :=
  exists name price_paid expiry,
    dict_get "item" item = Some (PStr name)
    /\ dict_get "price_paid" item = Some (PStr price_paid)
    /\ dict_get "predicted_expiry" item = Some (PStr expiry).

Definition not_point (c : ascii) : bool := negb (Ascii.eqb c ".").

End Vocabulary.
Export Vocabulary.

(* ================================================================== *)
(** * Properties *)

Import Utils Perplexity Pandas Logic.
Local Open Scope monad_scope.

(* ------------------------------------------------------------------ *)
(** ** Dictionaries *)

Section DictFacts.

Variables (k k' : string) (v : value).

Lemma dict_get_set_same (d : dict) :
  dict_get k (dict_set k v d) = Some v.
Proof.
  induction d as [|[k0 v0] d IH]; simpl.
  - now rewrite String.eqb_refl.
  - destruct (String.eqb k k0) eqn:Hk; simpl.
    + now rewrite String.eqb_refl.
    + now rewrite Hk.
Qed.

Lemma dict_get_set_other (d : dict) :
  k' <> k -> dict_get k' (dict_set k v d) = dict_get k' d.
Proof.
  intros Hne. apply String.eqb_neq in Hne.
  induction d as [|[k0 v0] d IH]; simpl.
  - now rewrite Hne.
  - destruct (String.eqb k k0) eqn:Hk; simpl.
    + apply String.eqb_eq in Hk. subst k0. now rewrite Hne.
    + now rewrite IH.
Qed.

Lemma dict_has_set_other (d : dict) :
  k' <> k -> dict_has k' (dict_set k v d) = dict_has k' d.
Proof.
  intros Hne. unfold dict_has. now rewrite dict_get_set_other.
Qed.

End DictFacts.

Lemma dict_get_default_set_other (k k' : string) (v dflt : value) (d : dict) :
  k' <> k -> dict_get_default k' dflt (dict_set k v d) = dict_get_default k' dflt d.
Proof.
  intros Hne. unfold dict_get_default. now rewrite dict_get_set_other.
Qed.

Lemma dict_get_default_set_same (k : string) (v dflt : value) (d : dict) :
  dict_get_default k dflt (dict_set k v d) = v.
Proof. unfold dict_get_default. now rewrite dict_get_set_same. Qed.

(** Rewriting a lookup through any stack of updates. *)
Ltac dict_simpl :=
  repeat first
    [ rewrite dict_get_set_same
    | rewrite dict_get_default_set_same
    | rewrite dict_get_set_other by discriminate
    | rewrite dict_get_default_set_other by discriminate
    | rewrite dict_has_set_other by discriminate ].

(* ------------------------------------------------------------------ *)
(** ** [parse_price] *)

Lemma float_of_str_raises_value_error (s : string) (e : exn) :
  float_of_str s = Raise e -> exn_cls e = ValueError.
Proof.
  unfold float_of_str.
  destruct (drop_underscores _ _) as [t|].
  - destruct (parse_floatvalue _); [discriminate|].
    intros H; injection H as <-; reflexivity.
  - intros H; injection H as <-; reflexivity.
Qed.

(** [parse_price] returns on every value: it never raises. *)
Lemma parse_price_total (v : value) :
  exists r, parse_price v = Ok r.
Proof.
  destruct v; simpl; eauto.
  destruct (float_of_str _) as [f|e] eqn:Hf; eauto.
  apply float_of_str_raises_value_error in Hf. rewrite Hf. eauto.
Qed.

(** C10.  On every value that is not a str (a number, [None], a list, ...)
    [parse_price] returns [None] and does not raise; in particular a price
    that is already a float is not handed back. *)
Theorem parse_price_non_str (v : value) :
  (forall s, v <> PStr s) -> parse_price v = Ok None.
Proof.
  intros Hv. destruct v; try reflexivity.
  now contradiction (Hv s).
Qed.

Lemma parse_price_non_str_witness :
  (forall s, PFloat (Float64.of_decimal false 399 (-2)) <> PStr s)
  /\ parse_price (PFloat (Float64.of_decimal false 399 (-2))) = Ok None
  /\ parse_price PNone = Ok None
  /\ parse_price (PList [PInt 3]) = Ok None.
Proof.
  split; [discriminate|].
  split; [|split].
  - apply (parse_price_non_str (PFloat (Float64.of_decimal false 399 (-2)))).
    discriminate.
  - apply (parse_price_non_str PNone). discriminate.
  - apply (parse_price_non_str (PList [PInt 3])). discriminate.
Defined.

(* ------------------------------------------------------------------ *)
(** ** The loop over the new items *)

Lemma bindM_ok {A B : Type} (m : M A) (k : A -> M B) (st st' : store) (a : A) :
  m st = (Ok a, st') -> bindM m k st = k a st'.
Proof. intros H. unfold bindM. now rewrite H. Qed.

Lemma bindM_raise {A B : Type} (m : M A) (k : A -> M B) (st st' : store) (e : exn) :
  m st = (Raise e, st') -> bindM m k st = (Raise e, st').
Proof. intros H. unfold bindM. now rewrite H. Qed.

(** What one turn of the loop computes once the price has been parsed and
    the lookup has answered. *)
Lemma process_item_ok (E : env) (ts : string) (cur : aggregate) (item : dict)
  (st : store) (paid : option float) (info : lookup_result) :
  parse_price (price_text_of item) = Ok paid ->
  get_online_grocery_price_perplexity (cfg E)
    (perplexity E (List.length (lookups st))) (name_of item) = Ok info ->
  process_item E ts cur item st =
    (let '(online, nfound, nassumed, text, item1) :=
       fold_lookup info paid cur item in
     Ok ({| paid_total := add_paid (paid_total cur) paid;
            online_total := online;
            found_count := nfound;
            assumed_count := nassumed;
            results := (results cur
                        ++ [line_result (name_of item) (price_text_of item)
                              (PStr text) (url info) (PStr ts)])%list |},
         dict_set "url" (url info) (dict_set "online_details" (PStr text) item1)),
     log_lookup (name_of item) st).
Proof.
  intros Hp Hl. unfold process_item, bindM, lift, lookup, ret.
  rewrite Hp, Hl.
  destruct (fold_lookup info paid cur item) as [[[[o f] a] t] i].
  reflexivity.
Qed.

Lemma process_item_raise (E : env) (ts : string) (cur : aggregate) (item : dict)
  (st : store) (e : exn) :
  get_online_grocery_price_perplexity (cfg E)
    (perplexity E (List.length (lookups st))) (name_of item) = Raise e ->
  process_item E ts cur item st = (Raise e, log_lookup (name_of item) st).
Proof.
  intros Hl. destruct (parse_price_total (price_text_of item)) as [paid Hp].
  unfold process_item, bindM, lift, lookup.
  now rewrite Hp, Hl.
Qed.

(** The loop, one more item at the end. *)
Lemma process_items_snoc (E : env) (ts : string) (pre : list dict) (item : dict) :
  forall (cur : aggregate) (st : store),
  process_items E ts cur (pre ++ [item]) st =
    match process_items E ts cur pre st with
    | (Ok (cur1, pre1), st1) =>
        match process_item E ts cur1 item st1 with
        | (Ok (cur2, item'), st2) => (Ok (cur2, (pre1 ++ [item'])%list), st2)
        | (Raise e, st2) => (Raise e, st2)
        end
    | (Raise e, st1) => (Raise e, st1)
    end.
Proof.
  induction pre as [|it pre IH]; intros cur st; simpl.
  - unfold bindM, ret.
    destruct (process_item E ts cur item st) as [[[c i]|e] s]; reflexivity.
  - unfold bindM at 1 3.
    destruct (process_item E ts cur it st) as [[[c i]|e] s]; [|reflexivity].
    unfold bindM at 1 2. rewrite IH.
    destruct (process_items E ts c pre s) as [[[c1 p1]|e1] s1]; [|reflexivity].
    unfold bindM, ret.
    destruct (process_item E ts c1 item s1) as [[[c2 i2]|e2] s2]; reflexivity.
Qed.

(** C1.  Every item the loop of [process_receipt] reaches is folded by the
    decision table.  After the items [pre], when the lookup of [item]
    answers [info], the loop goes on; the paid price, if it parses, is
    added to the paid total; and
    - status [found] with a numeric price: that price is added to the
      online total, the item counts as found and is marked not assumed;
    - otherwise ([found] without a price, [varies], [not_found], [error])
      with a paid price that parses: the paid price is added to the online
      total, the item counts as assumed and is marked assumed;
    - otherwise, with no paid price: neither total and neither count
      changes. *)
Theorem lookup_folding_table (E : env) (ts : string) (pre : list dict) (item : dict)
  (cur0 cur : aggregate) (pre' : list dict) (st0 st : store) (info : lookup_result) :
  process_items E ts cur0 pre st0 = (Ok (cur, pre'), st) ->
  get_online_grocery_price_perplexity (cfg E)
    (perplexity E (List.length (lookups st))) (name_of item) = Ok info ->
  exists (paid : option float) (cur' : aggregate) (item' : dict) (st' : store),
    parse_price (price_text_of item) = Ok paid
    /\ process_items E ts cur0 (pre ++ [item]) st0
        = (Ok (cur', (pre' ++ [item'])%list), st')
    /\ paid_total cur' = add_paid (paid_total cur) paid
    /\ follows_decision_table info paid cur cur' item'.
Proof.
  intros Hpre Hl.
  destruct (parse_price_total (price_text_of item)) as [paid Hp].
  pose proof (process_item_ok E ts cur item st paid info Hp Hl) as Hitem.
  destruct (fold_lookup info paid cur item) as [[[[o f] a] t] i] eqn:Hfold.
  eexists paid, _, _, _.
  split; [exact Hp|].
  split; [rewrite process_items_snoc, Hpre, Hitem; reflexivity|].
  simpl. split; [reflexivity|].
  unfold fold_lookup in Hfold.
  split; [|split].
  - intros p Hs Hpr. rewrite Hs, Hpr in Hfold.
    injection Hfold as <- <- <- <- <-. dict_simpl. repeat split.
  - intros q Hnf ->.
    assert (Hfold' :
      (Float64.add (online_total cur) q, found_count cur, assumed_count cur + 1,
       assumed_details q,
       dict_set "is_assumed_price" (PBool true)
         (dict_set "online_price" (PFloat q) item)) = (o, f, a, t, i)).
    { destruct Hnf as [Hnf|Hnf].
      - destruct (lookup_status info); try exact Hfold; now contradiction Hnf.
      - rewrite Hnf in Hfold. destruct (lookup_status info); exact Hfold. }
    injection Hfold' as <- <- <- <- <-. dict_simpl. repeat split.
  - intros Hnf ->.
    assert (Hfold' :
      (online_total cur, found_count cur, assumed_count cur, details info,
       dict_set "is_assumed_price" (PBool false)
         (dict_set "online_price" PNone item)) = (o, f, a, t, i)).
    { destruct Hnf as [Hnf|Hnf].
      - destruct (lookup_status info); try exact Hfold; now contradiction Hnf.
      - rewrite Hnf in Hfold. destruct (lookup_status info); exact Hfold. }
    injection Hfold' as <- <- <- <- <-. dict_simpl. repeat split.
Qed.

(** Receipt A of the specification: after no item, Milk paid $4.00 and
    found online at 3.50. *)
Lemma lookup_folding_table_witness :
  let st := initial_store [] in
  let ts := Datetime.isoformat Samples.morning in
  let info := Samples.found_at 350 "$3.50 at Walmart" in
  process_items Samples.receipt_A ts empty_aggregate [] st
    = (Ok (empty_aggregate, []), st)
  /\ get_online_grocery_price_perplexity (cfg Samples.receipt_A)
       (perplexity Samples.receipt_A (List.length (lookups st)))
       (name_of Samples.milk) = Ok info
  /\ exists paid cur' item' st',
       parse_price (price_text_of Samples.milk) = Ok paid
       /\ process_items Samples.receipt_A ts empty_aggregate ([] ++ [Samples.milk]) st
           = (Ok (cur', ([] ++ [item'])%list), st')
       /\ paid_total cur' = add_paid (paid_total empty_aggregate) paid
       /\ follows_decision_table info paid empty_aggregate cur' item'.
Proof.
  intros st ts info.
  split; [reflexivity|].
  split; [reflexivity|].
  apply (lookup_folding_table Samples.receipt_A ts [] Samples.milk
           empty_aggregate empty_aggregate [] st st info); reflexivity.
Defined.

(* ------------------------------------------------------------------ *)
(** ** The paths of [process_receipt] *)

(** C5.  When the extraction yields no item and a total text that carries
    the error sentinel, [process_receipt] returns that text as it is and
    the inventory as it is; no lookup is made and the summary is empty. *)
Theorem error_total_is_propagated (E : env) (picture : image) (inventory : list dict)
  (text : string) :
  extract E = Ok ([], PStr text) ->
  Text.contains "Error:" text = true ->
  process_receipt E (Some picture) inventory
  = ({| table := from_records_columns inventory COLUMNS_ORDER;
        total_text := PStr text;
        file_output := None;
        inventory_state := inventory;
        summary := [] |}, []).
Proof.
  intros Hx Herr.
  unfold process_receipt, process_receipt_try, bindM, lift.
  rewrite Hx. simpl. now rewrite Herr.
Qed.

(** The scenario of the specification: empty inventory, no item, total
    text "Error: bad json". *)
Lemma error_total_is_propagated_witness :
  extract Samples.bad_json = Ok ([], PStr "Error: bad json")
  /\ Text.contains "Error:" "Error: bad json" = true
  /\ inventory_state (fst (process_receipt Samples.bad_json (Some Picture) [])) = []
  /\ total_text (fst (process_receipt Samples.bad_json (Some Picture) []))
     = PStr "Error: bad json".
Proof.
  split; [reflexivity|].
  split; [reflexivity|].
  rewrite (error_total_is_propagated Samples.bad_json Picture [] "Error: bad json");
    [split; reflexivity | reflexivity | reflexivity].
Defined.

(** *** What the loop does to the store and to the items *)

Lemma process_item_store (E : env) (ts : string) (cur : aggregate) (item : dict)
  (st st' : store) (r : result (aggregate * dict)) :
  process_item E ts cur item st = (r, st') ->
  st' = log_lookup (name_of item) st.
Proof.
  destruct (parse_price_total (price_text_of item)) as [paid Hp].
  destruct (get_online_grocery_price_perplexity (cfg E)
              (perplexity E (List.length (lookups st))) (name_of item))
    as [info|e] eqn:Hl.
  - rewrite (process_item_ok E ts cur item st paid info Hp Hl).
    destruct (fold_lookup info paid cur item) as [[[[o f] a] t] i].
    now intros [= _ <-].
  - rewrite (process_item_raise E ts cur item st e Hl). now intros [= _ <-].
Qed.

(** The loop leaves the inventory and the summary alone, and looks up
    the items it reaches, in order, and nothing else. *)
Lemma process_items_store (E : env) (ts : string) (items : list dict) :
  forall (cur : aggregate) (st st' : store) (r : result (aggregate * list dict)),
  process_items E ts cur items st = (r, st') ->
  current_inventory_state st' = current_inventory_state st
  /\ comparison_summary st' = comparison_summary st
  /\ exists done rest,
       items = (done ++ rest)%list
       /\ lookups st' = (lookups st ++ map name_of done)%list
       /\ (forall x, r = Ok x -> rest = []).
Proof.
  induction items as [|item items IH]; intros cur st st' r; simpl.
  - unfold ret. intros [= <- <-]. repeat split.
    exists [], []. simpl. rewrite app_nil_r. repeat split.
  - unfold bindM at 1.
    destruct (process_item E ts cur item st) as [[[c i]|e] s] eqn:Hitem;
      apply process_item_store in Hitem; subst s.
    + unfold bindM.
      destruct (process_items E ts c items (log_lookup (name_of item) st))
        as [[[c1 p1]|e1] s1] eqn:Hrest;
        apply IH in Hrest; destruct Hrest as (Hi & Hs & done & rest & -> & Hl & Hr);
        unfold ret; intros [= <- <-]; (split; [exact Hi|split; [exact Hs|]]);
        exists (item :: done), rest; simpl; rewrite Hl; simpl;
        rewrite <- app_assoc; simpl; repeat split.
      * intros x _. now apply (Hr (c1, p1)).
      * discriminate.
    + intros [= <- <-]. repeat split.
      exists [item], items. simpl. repeat split. discriminate.
Qed.

(** The fields an item keeps through the loop: all but the four the
    lookup result is stored in. *)
Lemma process_item_fields (E : env) (ts : string) (cur cur' : aggregate)
  (item item' : dict) (st st' : store) (k : string) :
  process_item E ts cur item st = (Ok (cur', item'), st') ->
  k <> "online_price" -> k <> "is_assumed_price" ->
  k <> "online_details" -> k <> "url" ->
  dict_get k item' = dict_get k item.
Proof.
  intros Hitem H1 H2 H3 H4.
  destruct (parse_price_total (price_text_of item)) as [paid Hp].
  destruct (get_online_grocery_price_perplexity (cfg E)
              (perplexity E (List.length (lookups st))) (name_of item))
    as [info|e] eqn:Hl.
  - rewrite (process_item_ok E ts cur item st paid info Hp Hl) in Hitem.
    unfold fold_lookup in Hitem.
    destruct (lookup_status info), (price info), paid;
      injection Hitem as <- <- <-;
      now rewrite !dict_get_set_other by assumption.
  - rewrite (process_item_raise E ts cur item st e Hl) in Hitem. discriminate.
Qed.

Lemma process_items_tagged (E : env) (ts ts' : string) (items : list dict) :
  forall (cur cur' : aggregate) (items' : list dict) (st st' : store),
  process_items E ts cur items st = (Ok (cur', items'), st') ->
  Forall (tagged ts') items -> Forall (tagged ts') items'.
Proof.
  induction items as [|item items IH]; intros cur cur' items' st st'; simpl.
  - unfold ret. intros [= <- <- <-]. auto.
  - unfold bindM at 1.
    destruct (process_item E ts cur item st) as [[[c i]|e] s] eqn:Hitem;
      [|discriminate].
    unfold bindM.
    destruct (process_items E ts c items s) as [[[c1 p1]|e1] s1] eqn:Hrest;
      [|discriminate].
    unfold ret. intros [= <- <- <-] Htag.
    inversion Htag as [|? ? Hh Ht]; subst. constructor.
    + unfold tagged.
      rewrite (process_item_fields E ts cur c item i st s "receipt_timestamp" Hitem);
        [exact Hh | discriminate..].
    + eapply IH; eauto.
Qed.

Lemma tag_items_tagged (ts : string) (items : list dict) :
  Forall (tagged ts) (tag_items ts items).
Proof.
  unfold tag_items. apply Forall_forall. intros x Hx.
  apply in_map_iff in Hx. destruct Hx as (d & <- & _).
  unfold tagged. apply dict_get_set_same.
Qed.

(** The aggregation never touches the inventory; when it fails the
    summary is still the one it started with. *)
Lemma aggregate_receipt_store (E : env) (ts : string) (items : list dict)
  (total : value) (st st' : store) (r : result (list dict)) :
  aggregate_receipt E ts items total st = (r, st') ->
  current_inventory_state st' = current_inventory_state st
  /\ (forall e, r = Raise e -> comparison_summary st' = comparison_summary st)
  /\ (forall new_items, r = Ok new_items ->
        Forall (tagged ts) items -> Forall (tagged ts) new_items).
Proof.
  unfold aggregate_receipt. unfold bindM at 1.
  destruct (process_items E ts empty_aggregate items st) as [[[cur new]|e] s] eqn:Hloop.
  - pose proof (process_items_tagged E ts ts items _ _ _ _ _ Hloop) as Htag.
    apply process_items_store in Hloop. destruct Hloop as (Hi & Hs & _).
    unfold bindM, get_inventory, lift, set_summary, ret.
    destruct (cumulative ts cur (current_inventory_state s)) as [all|e];
      [|intros [= <- <-]; repeat split; auto; discriminate].
    destruct (format_comparison_summary _ _ _ _ _ _ _ _ _ _ _) as [h|e];
      intros [= <- <-]; simpl; repeat split; auto; try discriminate.
    intros new_items [= <-]. exact Htag.
  - apply process_items_store in Hloop. destruct Hloop as (Hi & Hs & _).
    intros [= <- <-]. repeat split; auto. discriminate.
Qed.

(** On every path the [try] block leaves the inventory it was given,
    followed by new items that carry the call's batch identifier; what it
    returns as the inventory is the list in the store. *)
Lemma process_receipt_try_store (E : env) (ts : string) (st st' : store)
  (r : result outputs) :
  process_receipt_try E ts st = (r, st') ->
  exists new_items,
    current_inventory_state st'
    = (current_inventory_state st ++ new_items)%list
    /\ Forall (tagged ts) new_items
    /\ (forall out, r = Ok out ->
          inventory_state out = current_inventory_state st').
Proof.
  unfold process_receipt_try. unfold bindM at 1. unfold lift at 1.
  destruct (extract E) as [[items total]|e].
  - unfold bindM at 1. unfold get_inventory at 1.
    destruct items as [|item items].
    + unfold ret. intros [= <- <-]. exists []. rewrite app_nil_r.
      repeat split; auto. now intros out [= <-].
    + unfold bindM at 1.
      destruct (aggregate_receipt E ts (tag_items ts (item :: items)) total st)
        as [[new_items|e] s] eqn:Hagg;
        apply aggregate_receipt_store in Hagg; destruct Hagg as (Hi & _ & Htag).
      * specialize (Htag new_items eq_refl (tag_items_tagged ts _)).
        unfold bindM, extend_inventory, prepare_outputs, bindM, lift.
        destruct (output_failure E) as [e|]; intros [= <- <-]; simpl;
          exists new_items; rewrite Hi; repeat split; auto; try discriminate.
        now intros out [= <-].
      * intros [= <- <-]. exists []. rewrite app_nil_r, Hi.
        repeat split; auto. discriminate.
  - intros [= <- <-]. exists []. rewrite app_nil_r. repeat split; auto. discriminate.
Qed.

(** [process_receipt] returns the list the store holds at the end. *)
Lemma process_receipt_inventory (E : env) (picture : image) (inventory : list dict) :
  exists new_items,
    inventory_state (fst (process_receipt E (Some picture) inventory))
    = (inventory ++ new_items)%list
    /\ Forall (tagged (Datetime.isoformat (now E))) new_items.
Proof.
  unfold process_receipt.
  destruct (process_receipt_try E (Datetime.isoformat (now E))
              (initial_store inventory)) as [r st] eqn:Htry.
  apply process_receipt_try_store in Htry.
  destruct Htry as (new_items & Hinv & Htag & Hout).
  exists new_items. split; [|exact Htag].
  destruct r as [out|e]; simpl.
  - now rewrite (Hout out eq_refl).
  - exact Hinv.
Qed.

Lemma append_char_nonempty (a b : string) (c : ascii) :
  (a ++ String c b)%string <> "".
Proof. destruct a; discriminate. Qed.

(** A timestamp is never the empty string. *)
Lemma isoformat_nonempty (t : Datetime.datetime) : Datetime.isoformat t <> "".
Proof. unfold Datetime.isoformat. apply append_char_nonempty. Qed.

(** C8.  The three operations on the inventory keep the invariant that
    every item has a non-empty batch identifier: [process_receipt] returns
    the inventory it was given, unchanged, followed (possibly) by new items,
    each tagged with the timestamp of the call, which is never empty;
    [clear_inventory] returns the empty inventory and
    [prepare_for_next_receipt] the inventory it was given. *)
Theorem batch_id_invariant (E : env) (receipt_image : option image)
  (inventory : list dict) :
  Forall has_batch_id inventory ->
  let after := inventory_state (fst (process_receipt E receipt_image inventory)) in
  (exists new_items,
      after = (inventory ++ new_items)%list
      /\ Forall (tagged (Datetime.isoformat (now E))) new_items)
  /\ Datetime.isoformat (now E) <> ""
  /\ Forall has_batch_id after
  /\ (let '(cleared, _, _, _, _) := clear_inventory in Forall has_batch_id cleared)
  /\ (let '(_, kept, _, _, _, _) := prepare_for_next_receipt inventory in
      kept = inventory /\ Forall has_batch_id kept).
Proof.
  intros Hinv after.
  assert (Hshape : exists new_items,
             after = (inventory ++ new_items)%list
             /\ Forall (tagged (Datetime.isoformat (now E))) new_items).
  { subst after. destruct receipt_image as [picture|].
    - apply process_receipt_inventory.
    - exists []. simpl. now rewrite app_nil_r. }
  split; [exact Hshape|].
  split; [apply isoformat_nonempty|].
  split.
  - destruct Hshape as (new_items & -> & Htag).
    apply Forall_app. split; [exact Hinv|].
    eapply Forall_impl; [|exact Htag].
    intros item Hitem. exists (Datetime.isoformat (now E)).
    split; [exact Hitem | apply isoformat_nonempty].
  - simpl. auto.
Qed.

(** Receipt A processed on an inventory that already holds an item. *)
Lemma batch_id_invariant_witness :
  Forall has_batch_id [Samples.milk]
  /\ Forall has_batch_id
       (inventory_state
          (fst (process_receipt Samples.receipt_A (Some Picture) [Samples.milk]))).
Proof.
  assert (H : Forall has_batch_id [Samples.milk]).
  { constructor; [|constructor].
    exists "2026-11-03T09:05:00.000123". split; [reflexivity | discriminate]. }
  split; [exact H|].
  apply (batch_id_invariant Samples.receipt_A (Some Picture) [Samples.milk] H).
Defined.

(** *** Failures *)

Lemma process_receipt_try_items (E : env) (ts : string) (st : store)
  (item : dict) (items : list dict) (total : value) :
  extract E = Ok (item :: items, total) ->
  process_receipt_try E ts st =
    bindM (aggregate_receipt E ts (tag_items ts (item :: items)) total)
      (fun new_items =>
         bindM (extend_inventory new_items) (fun _ => prepare_outputs E total)) st.
Proof.
  intros Hx. unfold process_receipt_try.
  unfold bindM at 1. unfold lift at 1. rewrite Hx.
  unfold bindM at 1. unfold get_inventory at 1.
  reflexivity.
Qed.

(** C3, as the code has it.  An exception raised in the [try] block is
    caught and reported as the total text.  When it is raised by the
    extraction, by a lookup, by the totals or by the formatting of the
    summary, the inventory returned is the inventory passed in.  When it
    is raised while the outputs are prepared, the new items have already
    been appended: the inventory returned is the inventory passed in
    followed by the new items. *)
Theorem failure_is_caught (E : env) (picture : image) (inventory : list dict) :
  let ts := Datetime.isoformat (now E) in
  let out := fst (process_receipt E (Some picture) inventory) in
  (forall e,
      extract E = Raise e ->
      total_text out = PStr (unexpected_error e)
      /\ inventory_state out = inventory)
  /\ (forall items total e st,
        extract E = Ok (items, total) -> items <> [] ->
        aggregate_receipt E ts (tag_items ts items) total (initial_store inventory)
        = (Raise e, st) ->
        total_text out = PStr (unexpected_error e)
        /\ inventory_state out = inventory)
  /\ (forall items total new_items st e,
        extract E = Ok (items, total) -> items <> [] ->
        aggregate_receipt E ts (tag_items ts items) total (initial_store inventory)
        = (Ok new_items, st) ->
        output_failure E = Some e ->
        total_text out = PStr (unexpected_error e)
        /\ inventory_state out = (inventory ++ new_items)%list).
Proof.
  intros ts out. subst out. unfold process_receipt. fold ts.
  split; [|split].
  - intros e Hx.
    assert (Htry : process_receipt_try E ts (initial_store inventory)
                   = (Raise e, initial_store inventory)).
    { unfold process_receipt_try, bindM, lift. now rewrite Hx. }
    rewrite Htry. simpl. auto.
  - intros items total e st Hx Hne Hagg.
    destruct items as [|item items]; [now contradiction Hne|].
    assert (Htry : process_receipt_try E ts (initial_store inventory) = (Raise e, st)).
    { rewrite (process_receipt_try_items E ts _ item items total Hx).
      unfold bindM at 1. now rewrite Hagg. }
    rewrite Htry. simpl.
    apply aggregate_receipt_store in Hagg. destruct Hagg as (Hi & _).
    split; [reflexivity | exact Hi].
  - intros items total new_items st e Hx Hne Hagg Hfail.
    destruct items as [|item items]; [now contradiction Hne|].
    assert (Htry : process_receipt_try E ts (initial_store inventory)
                   = (Raise e,
                      {| current_inventory_state :=
                           (current_inventory_state st ++ new_items)%list;
                         comparison_summary := comparison_summary st;
                         lookups := lookups st |})).
    { rewrite (process_receipt_try_items E ts _ item items total Hx).
      unfold bindM at 1. rewrite Hagg.
      unfold bindM, extend_inventory, prepare_outputs, bindM, lift.
      now rewrite Hfail. }
    rewrite Htry. simpl.
    apply aggregate_receipt_store in Hagg. destruct Hagg as (Hi & _).
    split; [reflexivity | now rewrite Hi].
Qed.

(** The three kinds of failure on sample receipts: the vision client is
    not initialised; an item has a number for a name, so that the lookup
    adapter raises; building the table fails after the lookups. *)
Lemma failure_is_caught_witness :
  inventory_state
    (fst (process_receipt Samples.client_not_initialized (Some Picture)
            [Samples.stored_milk])) = [Samples.stored_milk]
  /\ inventory_state
       (fst (process_receipt Samples.numeric_name (Some Picture)
               [Samples.stored_milk])) = [Samples.stored_milk]
  /\ inventory_state
       (fst (process_receipt Samples.receipt_A_table_failure (Some Picture) []))
     = ([] ++ [Samples.stored_milk])%list.
Proof.
  split; [|split].
  - apply (proj1 (failure_is_caught Samples.client_not_initialized Picture
                    [Samples.stored_milk])
             (Exn ValueError
                "Google API Key not configured or client initialization failed.")).
    reflexivity.
  - eapply (proj1 (proj2 (failure_is_caught Samples.numeric_name Picture
                            [Samples.stored_milk]))); [reflexivity|discriminate|].
    vm_compute. reflexivity.
  - eapply (proj2 (proj2 (failure_is_caught Samples.receipt_A_table_failure Picture
                            []))); [reflexivity|discriminate| |reflexivity].
    vm_compute. reflexivity.
Defined.

(** C3, as stated, fails: an exception raised after the new items were
    appended is caught and reported, and the inventory returned is not the
    (empty) inventory that was passed in. *)
Lemma late_failure_keeps_new_items :
  (exists e st,
      process_receipt_try Samples.receipt_A_table_failure
        (Datetime.isoformat (now Samples.receipt_A_table_failure))
        (initial_store []) = (Raise e, st))
  /\ total_text (fst (process_receipt Samples.receipt_A_table_failure (Some Picture) []))
     = PStr (unexpected_error (Exn OtherException "out of memory"))
  /\ inventory_state
       (fst (process_receipt Samples.receipt_A_table_failure (Some Picture) []))
     = [Samples.stored_milk]
  /\ inventory_state
       (fst (process_receipt Samples.receipt_A_table_failure (Some Picture) []))
     <> [].
Proof.
  split; [|split; [|split]].
  - eexists _, _. vm_compute. reflexivity.
  - vm_compute. reflexivity.
  - vm_compute. reflexivity.
  - vm_compute. discriminate.
Qed.

(* ------------------------------------------------------------------ *)
(** ** The table of the inventory *)

Lemma mem_true_iff (c : string) (l : list string) :
  mem c l = true <-> In c l.
Proof.
  unfold mem. rewrite existsb_exists. split.
  - intros (x & Hx & Heq). apply String.eqb_eq in Heq. now subst.
  - intros H. exists c. split; [exact H | apply String.eqb_refl].
Qed.

Lemma add_keys_keeps (ks : list string) :
  forall seen c, In c seen -> In c (add_keys seen ks).
Proof.
  induction ks as [|k ks IH]; intros seen c Hc; simpl; [exact Hc|].
  apply IH. destruct (mem k seen); [exact Hc | apply in_or_app; now left].
Qed.

Lemma add_keys_adds (ks : list string) :
  forall seen c, In c ks -> In c (add_keys seen ks).
Proof.
  induction ks as [|k ks IH]; intros seen c Hc; simpl; [contradiction|].
  destruct Hc as [<-|Hc]; [|now apply IH].
  apply add_keys_keeps.
  destruct (mem k seen) eqn:Hm; [now apply mem_true_iff|].
  apply in_or_app. right. now left.
Qed.

Lemma union_keys_keeps (records : list dict) :
  forall seen c, In c seen -> In c (union_keys seen records).
Proof.
  induction records as [|d records IH]; intros seen c Hc; simpl; [exact Hc|].
  apply IH. now apply add_keys_keeps.
Qed.

Lemma dict_has_key (k : string) (d : dict) :
  dict_has k d = true -> In k (dict_keys d).
Proof.
  unfold dict_has, dict_keys.
  induction d as [|[k0 v0] d IH]; simpl; [discriminate|].
  destruct (String.eqb k k0) eqn:Hk.
  - apply String.eqb_eq in Hk. subst. now left.
  - intros H. right. now apply IH.
Qed.

(** A key of the first record is a column of the frame. *)
Lemma from_records_has_column (k : string) (d : dict) (records : list dict) :
  dict_has k d = true -> has_column k (from_records (d :: records)) = true.
Proof.
  intros Hk. unfold has_column, from_records. simpl.
  apply mem_true_iff, union_keys_keeps, add_keys_adds. now apply dict_has_key.
Qed.

Lemma rename_has_column (m : list (string * string)) (c : string) (df : DataFrame) :
  has_column c df = true -> has_column (rename_label m c) (rename m df) = true.
Proof.
  unfold has_column. simpl. rewrite !mem_true_iff. apply in_map.
Qed.

Lemma dict_has_set_mono (k k' : string) (v : value) (d : dict) :
  dict_has k d = true -> dict_has k (dict_set k' v d) = true.
Proof.
  intros H. destruct (String.eqb_spec k k') as [->|Hne].
  - unfold dict_has. now rewrite dict_get_set_same.
  - now rewrite dict_has_set_other.
Qed.

Lemma has_item_fields_set (k : string) (v : value) (d : dict) :
  has_item_fields d -> has_item_fields (dict_set k v d).
Proof.
  intros (H1 & H2 & H3). repeat split; now apply dict_has_set_mono.
Qed.

(** The items the vision adapter validates have the three fields. *)
Lemma validate_item_fields (today : Z) (item : value) (d : dict) :
  Gemini.validate_item today item = Ok (Some d) -> has_item_fields d.
Proof.
  unfold Gemini.validate_item. destruct item; try discriminate.
  destruct (Gemini.has_required_keys d0) eqn:Hreq; [|discriminate].
  unfold Gemini.has_required_keys in Hreq.
  apply andb_prop in Hreq. destruct Hreq as [Hreq Hp].
  apply andb_prop in Hreq. destruct Hreq as [Hi _].
  assert (Hset : forall n, has_item_fields (Gemini.with_expiry n d0)).
  { intros n. unfold Gemini.with_expiry. repeat split.
    - now apply dict_has_set_mono.
    - now apply dict_has_set_mono.
    - unfold dict_has. now rewrite dict_get_set_same. }
  unfold Gemini.expiry_from_days, bind.
  destruct (int _) as [days|e].
  - destruct (Datetime.add_days today days) as [n|e].
    + intros [= <-]. apply Hset.
    + destruct (exn_cls e); try discriminate;
        destruct (Datetime.add_days today 7); try discriminate;
        intros [= <-]; apply Hset.
  - destruct (exn_cls e); try discriminate;
      destruct (Datetime.add_days today 7); try discriminate;
      intros [= <-]; apply Hset.
Qed.

Lemma validate_items_fields (today : Z) (items : list value) :
  forall out, Gemini.validate_items today items = Ok out -> Forall has_item_fields out.
Proof.
  induction items as [|item items IH]; simpl; intros out.
  - intros [= <-]. constructor.
  - unfold bind.
    destruct (Gemini.validate_item today item) as [[d|]|e] eqn:Hitem; try discriminate;
      destruct (Gemini.validate_items today items) as [rest|e]; try discriminate;
      intros [= <-]; auto.
    constructor; [now apply validate_item_fields in Hitem | now apply IH].
Qed.

Lemma mock_items_fields (r : Gemini.draws) (today : Z)
  (catalog : list (string * Z * Z)) :
  forall k out, Gemini.mock_items r today k catalog = Ok out ->
                Forall has_item_fields out.
Proof.
  induction catalog as [|[[name lo] hi] catalog IH]; simpl; intros k out.
  - intros [= <-]. constructor.
  - unfold bind. destruct (Datetime.add_days _ _); [|discriminate].
    destruct (Gemini.mock_items r today (S k) catalog) eqn:Hrest; [|discriminate].
    intros [= <-]. constructor; [repeat split | now apply (IH (S k))].
Qed.

(** Every extracted item has the three fields. *)
Lemma extract_fields (E : env) (items : list dict) (total : value) :
  extract E = Ok (items, total) -> Forall has_item_fields items.
Proof.
  unfold extract. destruct (GOOGLE_API_KEY (cfg E)).
  - unfold Gemini.call_gemini_vision_api.
    destruct (_ || _); [discriminate|].
    destruct (gemini_reply E) as [e|msg|data]; try (intros [= <- _]; constructor).
    unfold Gemini.validate_response.
    destruct data; try (intros [= <- _]; constructor).
    destruct (dict_get_default "items" _ _); try (intros [= <- _]; constructor).
    unfold bind.
    destruct (Gemini.validate_items (today E) l) eqn:Hv;
      intros [= <- _]; [now apply validate_items_fields in Hv | constructor].
  - unfold Gemini.mock_gemini_vision_processor, bind.
    destruct (Gemini.mock_items _ _ _ _) as [out|e] eqn:Hm; [|discriminate].
    apply mock_items_fields in Hm.
    destruct (negb _); intros [= <- _]; [|exact Hm].
    apply Forall_forall. intros x Hx. apply in_map_iff in Hx.
    destruct Hx as ([k d] & <- & Hin). apply in_combine_r in Hin.
    apply has_item_fields_set. revert d Hin. now apply Forall_forall.
Qed.

Lemma process_items_fields (E : env) (ts : string) (items : list dict) :
  forall (cur cur' : aggregate) (items' : list dict) (st st' : store),
  process_items E ts cur items st = (Ok (cur', items'), st') ->
  Forall has_item_fields items -> Forall has_item_fields items'.
Proof.
  induction items as [|item items IH]; intros cur cur' items' st st'; simpl.
  - unfold ret. intros [= <- <- <-]. auto.
  - unfold bindM at 1.
    destruct (process_item E ts cur item st) as [[[c i]|e] s] eqn:Hitem;
      [|discriminate].
    unfold bindM.
    destruct (process_items E ts c items s) as [[[c1 p1]|e1] s1] eqn:Hrest;
      [|discriminate].
    unfold ret. intros [= <- <- <-] Hf.
    inversion Hf as [|? ? Hh Ht]; subst. constructor; [|eapply IH; eauto].
    destruct Hh as (H1 & H2 & H3). unfold has_item_fields, dict_has.
    rewrite !(process_item_fields E ts cur c item i st s _ Hitem) by discriminate.
    repeat split; assumption.
Qed.

(** The inventory only ever holds items with the three fields. *)
Lemma item_fields_invariant (E : env) (receipt_image : option image)
  (inventory : list dict) :
  Forall has_item_fields inventory ->
  Forall has_item_fields
    (inventory_state (fst (process_receipt E receipt_image inventory))).
Proof.
  intros Hinv. destruct receipt_image as [picture|]; [|exact Hinv].
  unfold process_receipt.
  set (ts := Datetime.isoformat (now E)).
  destruct (extract E) as [[items total]|e] eqn:Hx.
  - destruct items as [|item items].
    + unfold process_receipt_try, bindM, lift. rewrite Hx. simpl. exact Hinv.
    + rewrite (process_receipt_try_items E ts _ item items total Hx).
      unfold bindM at 1.
      destruct (aggregate_receipt E ts (tag_items ts (item :: items)) total
                  (initial_store inventory)) as [[new_items|e] st] eqn:Hagg.
      * assert (Hnew : Forall has_item_fields new_items
                       /\ current_inventory_state st = inventory).
        { revert Hagg. unfold aggregate_receipt. unfold bindM at 1.
          destruct (process_items E ts empty_aggregate
                      (tag_items ts (item :: items)) (initial_store inventory))
            as [[[cur new]|e] s] eqn:Hloop; [|discriminate].
          pose proof (process_items_fields E ts _ _ _ _ _ _ Hloop) as Hf.
          apply process_items_store in Hloop. destruct Hloop as (Hi & _).
          unfold bindM, get_inventory, lift, set_summary, ret.
          destruct (cumulative _ _ _); [|discriminate].
          destruct (format_comparison_summary _ _ _ _ _ _ _ _ _ _ _);
            [|discriminate].
          intros [= <- <-]. simpl. split; [|exact Hi].
          apply Hf. apply extract_fields in Hx.
          unfold tag_items. apply Forall_forall. intros x Hin.
          apply in_map_iff in Hin. destruct Hin as (d & <- & Hd).
          apply has_item_fields_set. revert d Hd. now apply Forall_forall. }
        destruct Hnew as (Hnew & Hi).
        unfold bindM, extend_inventory, prepare_outputs, bindM, lift.
        destruct (output_failure E); simpl; rewrite Hi;
          apply Forall_app; split; assumption.
      * simpl. apply aggregate_receipt_store in Hagg.
        destruct Hagg as (Hi & _). rewrite Hi. exact Hinv.
  - unfold process_receipt_try, bindM, lift. rewrite Hx. simpl. exact Hinv.
Qed.

Lemma add_missing_present (c : string) (v : value) (df : DataFrame) :
  has_column c df = true -> add_missing c v df = df.
Proof. intros H. unfold add_missing. now rewrite H. Qed.

(** For an inventory whose items have the three fields, the two ways of
    building the table agree. *)
Lemma inventory_table_full_table (inventory : list dict) :
  Forall has_item_fields inventory ->
  inventory_table inventory = full_table inventory.
Proof.
  destruct inventory as [|d records]; [reflexivity|].
  intros Hf. inversion Hf as [|? ? (Hi & Hp & He) _]; subst.
  unfold inventory_table, full_table.
  pose proof (from_records_has_column "item" d records Hi) as Ci.
  pose proof (from_records_has_column "price_paid" d records Hp) as Cp.
  pose proof (from_records_has_column "predicted_expiry" d records He) as Ce.
  assert (Hrows : exists r rs, rows (from_records (d :: records)) = r :: rs).
  { unfold from_records. simpl. eauto. }
  set (df := from_records (d :: records)) in *. clearbody df.
  rewrite (add_missing_present "item") by exact Ci.
  rewrite (add_missing_present "price_paid") by exact Cp.
  rewrite (add_missing_present "predicted_expiry") by exact Ce.
  rewrite Ci.
  assert (Hne : empty (rename rename_map df) = false).
  { destruct Hrows as (r & rs & Hrows). unfold empty. simpl. rewrite Hrows.
    destruct (columns df) as [|c cs] eqn:Hc.
    - unfold has_column in Ci. rewrite Hc in Ci. discriminate.
    - reflexivity. }
  rewrite Hne.
  apply (rename_has_column rename_map) in Ci, Cp, Ce.
  change (rename_label rename_map "item") with "Item" in Ci.
  change (rename_label rename_map "price_paid") with "Price Paid" in Cp.
  change (rename_label rename_map "predicted_expiry")
    with "Predicted Expiry Date" in Ce.
  unfold COLUMNS_ORDER, negb. cbn [fold_left].
  rewrite (add_missing_present "Item") by exact Ci.
  rewrite (add_missing_present "Price Paid") by exact Cp.
  rewrite (add_missing_present "Predicted Expiry Date") by exact Ce.
  reflexivity.
Qed.

(** C9.  [prepare_for_next_receipt] returns the inventory it was given and
    the table of that inventory, with the same rows as the table
    [process_receipt] builds for it; the image input, the total text, the
    file and the summary are cleared; calling it again changes nothing.
    It is a function of the inventory alone: no adapter and no
    aggregation is involved.  The inventories the
    application builds hold items with the three fields of the table;
    [process_receipt] keeps it so. *)
Theorem prepare_keeps_inventory_and_table (inventory : list dict) :
  Forall has_item_fields inventory ->
  prepare_for_next_receipt inventory
  = (None, inventory, full_table inventory, PStr "", None, [])
  /\ (let '(_, kept, _, _, _, _) := prepare_for_next_receipt inventory in
      prepare_for_next_receipt kept = prepare_for_next_receipt inventory)
  /\ (forall E receipt_image,
        Forall has_item_fields
          (inventory_state (fst (process_receipt E receipt_image inventory)))).
Proof.
  intros Hf. split; [|split].
  - unfold prepare_for_next_receipt. now rewrite inventory_table_full_table.
  - reflexivity.
  - intros E receipt_image. now apply item_fields_invariant.
Qed.

(** After receipt A: the table shown by [prepare_for_next_receipt] is the
    one [process_receipt] returned. *)
Lemma prepare_keeps_inventory_and_table_witness :
  let out := fst (process_receipt Samples.receipt_A (Some Picture) []) in
  Forall has_item_fields (inventory_state out)
  /\ prepare_for_next_receipt (inventory_state out)
     = (None, inventory_state out, table out, PStr "", None, []).
Proof.
  intros out.
  assert (H : Forall has_item_fields (inventory_state out)).
  { constructor; [repeat split | constructor]. }
  split; [exact H|].
  exact (proj1 (prepare_keeps_inventory_and_table (inventory_state out) H)).
Defined.

(* ------------------------------------------------------------------ *)
(** ** The vision adapter *)

Lemma add_days_in_range (today days : Z) :
  Z.abs days <= 999999999 ->
  1 <= today + days <= Datetime.MAXORDINAL ->
  Datetime.add_days today days = Ok (today + days).
Proof.
  intros Hd Hr. unfold Datetime.add_days.
  destruct (Z.ltb_spec days (- 2147483648)); [lia|].
  destruct (Z.ltb_spec 2147483647 days); [lia|]. cbn [orb].
  destruct (Z.ltb_spec 999999999 (Z.abs days)); [lia|].
  destruct (Z.leb_spec 1 (today + days)); [|lia].
  destruct (Z.leb_spec (today + days) Datetime.MAXORDINAL); [|lia].
  reflexivity.
Qed.







(* ------------------------------------------------------------------ *)
(** ** The summary *)

Lemma item_row_ok (res : dict) :
  details_is_text res ->
  exists seg, item_row res = Ok seg /\ is_item_row seg.
Proof.
  intros (text & Ht). unfold item_row. rewrite Ht. simpl.
  destruct (Text.contains "Not Found" text); simpl; eexists; split;
    try reflexivity; exact I.
Qed.

Lemma item_rows_ok (current_items : list dict) :
  Forall details_is_text current_items ->
  exists rows, item_rows current_items = Ok rows /\ Forall is_item_row rows.
Proof.
  induction 1 as [|res rest Hres _ IH]; simpl.
  - exists []. split; [reflexivity | constructor].
  - destruct (item_row_ok res Hres) as (seg & -> & Hseg).
    destruct IH as (rows & -> & Hrows). simpl.
    exists (seg :: rows). split; [reflexivity | now constructor].
Qed.

(** The blocks of the summary, in order. *)
Lemma format_comparison_summary_shape
  (current_items : list dict) (total_str : value)
  (cur_paid cur_online : float) (cur_found cur_assumed : Z)
  (all_items : list dict) (all_paid all_online : float)
  (all_found all_assumed : Z) :
  Forall details_is_text current_items ->
  exists rows,
    Forall is_item_row rows
    /\ format_comparison_summary current_items total_str cur_paid cur_online
         cur_found cur_assumed all_items all_paid all_online all_found all_assumed
       = Ok ([LatestReceipt cur_paid;
              if (0 <? cur_found) || (0 <? cur_assumed) then
                OnlineTotal (cur_found + cur_assumed) (List.length current_items)
                  (assumption_note cur_assumed) cur_online
                  (diff_color (Float64.sub cur_paid cur_online))
                  (Float64.abs (Float64.sub cur_paid cur_online))
                  (diff_status (Float64.sub cur_paid cur_online))
              else OnlineTotalNA]
             ++ (if shows_cumulative all_items current_items all_paid cur_paid then
                   [AllReceipts all_paid;
                    if (0 <? all_found) || (0 <? all_assumed) then
                      AllOnlineTotal (all_found + all_assumed) (List.length all_items)
                        (assumption_note all_assumed) all_online
                        (diff_color (Float64.sub all_paid all_online))
                        (Float64.abs (Float64.sub all_paid all_online))
                        (diff_status (Float64.sub all_paid all_online))
                    else AllOnlineTotalNA;
                    CloseDiv]
                 else [CloseDiv])
             ++ (match current_items with
                 | [] => []
                 | _ => CurrentItems (List.length current_items) :: rows ++ [CloseDiv]
                 end)
             ++ [CloseDiv])%list.
Proof.
  intros Hd. destruct (item_rows_ok current_items Hd) as (rows & Hrows & Hall).
  exists rows. split; [exact Hall|].
  unfold format_comparison_summary.
  destruct current_items as [|res rest].
  - destruct ((0 <? cur_found) || (0 <? cur_assumed)),
      (shows_cumulative all_items [] all_paid cur_paid),
      ((0 <? all_found) || (0 <? all_assumed)); reflexivity.
  - rewrite Hrows.
    destruct ((0 <? cur_found) || (0 <? cur_assumed)),
      (shows_cumulative all_items (res :: rest) all_paid cur_paid),
      ((0 <? all_found) || (0 <? all_assumed)); simpl;
      rewrite <- ?app_assoc; reflexivity.
Qed.

Lemma item_row_not_block (rows : list segment) (seg : segment) :
  Forall is_item_row rows -> In seg rows -> is_item_row seg.
Proof. intros H Hin. revert seg Hin. now apply Forall_forall. Qed.



(* ------------------------------------------------------------------ *)
(** ** Cumulative totals *)

Lemma price_text_of_set (k : string) (v : value) (d : dict) :
  k <> "price_paid" -> price_text_of (dict_set k v d) = price_text_of d.
Proof.
  intros Hne. unfold price_text_of. apply dict_get_default_set_other.
  congruence.
Qed.

Lemma name_of_set (k : string) (v : value) (d : dict) :
  k <> "item" -> name_of (dict_set k v d) = name_of d.
Proof.
  intros Hne. unfold name_of. apply dict_get_default_set_other. congruence.
Qed.

(** What a turn of the first loop stores in the item is what a turn of the
    second loop reads back: the same addends, the same count. *)
Lemma process_item_stored (E : env) (ts : string) (cur cur' : aggregate)
  (item item' : dict) (st st' : store) :
  process_item E ts cur item st = (Ok (cur', item'), st') ->
  paid_total cur' = add_paid (paid_total cur) (paid_addend item')
  /\ online_total cur' = add_paid (online_total cur) (online_addend item')
  /\ forall all, exists all',
       add_previous_item all item' = Ok all'
       /\ paid_total all' = add_paid (paid_total all) (paid_addend item')
       /\ online_total all' = add_paid (online_total all) (online_addend item')
       /\ found_count all' = found_count all + (found_count cur' - found_count cur)
       /\ assumed_count all'
          = assumed_count all + (assumed_count cur' - assumed_count cur).
Proof.
  intros Hitem.
  destruct (parse_price_total (price_text_of item)) as [paid Hp].
  destruct (get_online_grocery_price_perplexity (cfg E)
              (perplexity E (List.length (lookups st))) (name_of item))
    as [info|e] eqn:Hl;
    [|rewrite (process_item_raise E ts cur item st e Hl) in Hitem; discriminate].
  rewrite (process_item_ok E ts cur item st paid info Hp Hl) in Hitem.
  assert (Hprice : forall text v1 v2,
             price_text_of
               (dict_set "url" (url info)
                  (dict_set "online_details" text
                     (dict_set "is_assumed_price" v1
                        (dict_set "online_price" v2 item))))
             = price_text_of item).
  { intros. now rewrite !price_text_of_set by discriminate. }
  unfold fold_lookup in Hitem.
  destruct (lookup_status info), (price info) as [p|], paid as [q|];
    injection Hitem as <- <- <-;
    unfold paid_addend, online_addend, add_previous_item;
    rewrite Hprice, Hp; dict_simpl; simpl;
    (split; [reflexivity|]); (split; [reflexivity|]);
    intros all; unfold dict_has, dict_get_none; dict_simpl; simpl;
    eexists; (split; [reflexivity|]); simpl; repeat split; lia.
Qed.

Lemma cumulative_loop_after_first_loop (E : env) (ts : string) (items : list dict) :
  forall (cur cur' : aggregate) (stored : list dict) (st st' : store),
  process_items E ts cur items st = (Ok (cur', stored), st') ->
  paid_total cur' = sum_from (paid_total cur) (map paid_addend stored)
  /\ online_total cur' = sum_from (online_total cur) (map online_addend stored)
  /\ forall all, exists all',
       add_previous_items all stored = Ok all'
       /\ paid_total all' = sum_from (paid_total all) (map paid_addend stored)
       /\ online_total all' = sum_from (online_total all) (map online_addend stored)
       /\ found_count all' = found_count all + (found_count cur' - found_count cur)
       /\ assumed_count all'
          = assumed_count all + (assumed_count cur' - assumed_count cur).
Proof.
  induction items as [|item items IH]; intros cur cur' stored st st'; simpl.
  - unfold ret. intros [= <- <- <-]. simpl. repeat split.
    intros all. exists all. repeat split; lia.
  - unfold bindM at 1.
    destruct (process_item E ts cur item st) as [[[c i]|e] s] eqn:Hitem;
      [|discriminate].
    unfold bindM.
    destruct (process_items E ts c items s) as [[[c1 p1]|e1] s1] eqn:Hrest;
      [|discriminate].
    unfold ret. intros [= <- <- <-].
    apply process_item_stored in Hitem. destruct Hitem as (Hp & Ho & Hprev).
    apply IH in Hrest. destruct Hrest as (Hp1 & Ho1 & Hprev1).
    unfold sum_from in *. simpl.
    rewrite <- Hp, <- Ho. split; [exact Hp1|]. split; [exact Ho1|].
    intros all. destruct (Hprev all) as (a1 & -> & Ha & Hb & Hc & Hd).
    destruct (Hprev1 a1) as (a2 & Ha2 & Hq & Hr & Hs & Ht).
    exists a2. simpl. rewrite <- Ha, <- Hb.
    repeat split; try assumption; lia.
Qed.

(** Items of another batch all pass the filter of line 125. *)
Lemma previous_items_of_other_batch (ts1 ts2 : string) (stored : list dict) :
  ts1 <> ts2 -> Forall (tagged ts1) stored ->
  existing_items_from_previous_receipts ts2 stored = stored.
Proof.
  intros Hne Htag. unfold existing_items_from_previous_receipts.
  induction Htag as [|item rest Hitem _ IH]; simpl; [reflexivity|].
  unfold dict_get_default at 1. rewrite Hitem. simpl.
  apply String.eqb_neq in Hne. rewrite Hne. simpl. now rewrite IH.
Qed.

Lemma cumulative_is_second_loop (ts1 ts2 : string) (cur : aggregate)
  (stored : list dict) :
  ts1 <> ts2 -> Forall (tagged ts1) stored ->
  cumulative ts2 cur stored = add_previous_items cur stored.
Proof.
  intros Hne Htag. unfold cumulative. destruct stored; [reflexivity|].
  now rewrite (previous_items_of_other_batch ts1 ts2).
Qed.

(** *** The lookups of a call *)

Lemma tag_items_split (ts : string) (items : list dict) (done' rest' : list dict) :
  tag_items ts items = (done' ++ rest')%list ->
  exists done rest,
    items = (done ++ rest)%list /\ map name_of done' = map name_of done.
Proof.
  unfold tag_items. intros H. apply map_eq_app in H.
  destruct H as (done & rest & -> & <- & _). exists done, rest.
  split; [reflexivity|]. rewrite map_map. apply map_ext.
  intros d. apply name_of_set. discriminate.
Qed.

(** A call looks up the items it extracted, in order, up to the point
    where it stops; the inventory it was given plays no part. *)
Lemma lookups_of_call (E : env) (receipt_image : option image)
  (inventory : list dict) :
  exists done rest,
    extracted_items E = (done ++ rest)%list
    /\ snd (process_receipt E receipt_image inventory) = map name_of done.
Proof.
  destruct receipt_image as [picture|];
    [|exists [], (extracted_items E); split; reflexivity].
  unfold process_receipt, extracted_items.
  set (ts := Datetime.isoformat (now E)).
  destruct (extract E) as [[items total]|e] eqn:Hx.
  - destruct items as [|item items].
    + exists [], []. split; [reflexivity|].
      unfold process_receipt_try, bindM, lift. now rewrite Hx.
    + rewrite (process_receipt_try_items E ts _ item items total Hx).
      unfold bindM at 1. unfold aggregate_receipt. unfold bindM at 1.
      destruct (process_items E ts empty_aggregate (tag_items ts (item :: items))
                  (initial_store inventory)) as [[[cur new]|e] s] eqn:Hloop;
        apply process_items_store in Hloop;
        destruct Hloop as (_ & _ & done' & rest' & Hsplit & Hlook & _);
        apply tag_items_split in Hsplit;
        destruct Hsplit as (done & rest & Hitems & Hnames);
        exists done, rest; (split; [exact Hitems|]);
        rewrite <- Hnames; simpl in Hlook.
      * unfold bindM, get_inventory, lift, set_summary, ret, extend_inventory,
          prepare_outputs, bindM, lift.
        destruct (cumulative _ _ _); [|exact Hlook].
        destruct (format_comparison_summary _ _ _ _ _ _ _ _ _ _ _); [|exact Hlook].
        destruct (output_failure E); exact Hlook.
      * exact Hlook.
  - exists [], []. split; [reflexivity|].
    unfold process_receipt_try, bindM, lift. now rewrite Hx.
Qed.

(** *** A call that goes through *)

Lemma process_items_results (E : env) (ts : string) (items : list dict) :
  forall (cur cur' : aggregate) (stored : list dict) (st st' : store),
  process_items E ts cur items st = (Ok (cur', stored), st') ->
  Forall details_is_text (results cur) ->
  Forall details_is_text (results cur').
Proof.
  induction items as [|item items IH]; intros cur cur' stored st st'; simpl.
  - unfold ret. now intros [= <- <- <-].
  - unfold bindM at 1.
    destruct (process_item E ts cur item st) as [[[c i]|e] s] eqn:Hitem;
      [|discriminate].
    unfold bindM.
    destruct (process_items E ts c items s) as [[[c1 p1]|e1] s1] eqn:Hrest;
      [|discriminate].
    unfold ret. intros [= <- <- <-] Hres.
    apply (IH _ _ _ _ _ Hrest).
    destruct (parse_price_total (price_text_of item)) as [paid Hp].
    destruct (get_online_grocery_price_perplexity (cfg E)
                (perplexity E (List.length (lookups st))) (name_of item))
      as [info|e] eqn:Hl;
      [|rewrite (process_item_raise E ts cur item st e Hl) in Hitem; discriminate].
    rewrite (process_item_ok E ts cur item st paid info Hp Hl) in Hitem.
    destruct (fold_lookup info paid cur item) as [[[[o f] a] t] i'].
    injection Hitem as <- _ _. simpl.
    apply Forall_app. split; [exact Hres|].
    constructor; [|constructor]. exists t. reflexivity.
Qed.

(** When the extraction yields items, every lookup answers, the totals
    are computed and the outputs are built, [process_receipt] returns the
    summary of the two aggregates and the inventory followed by the new
    items, and has looked up each new item once. *)
Lemma process_receipt_success (E : env) (picture : image) (inventory : list dict)
  (item : dict) (items : list dict) (total : value)
  (cur all : aggregate) (stored : list dict) (st : store) :
  let ts := Datetime.isoformat (now E) in
  extract E = Ok (item :: items, total) ->
  process_items E ts empty_aggregate (tag_items ts (item :: items))
    (initial_store inventory) = (Ok (cur, stored), st) ->
  cumulative ts cur inventory = Ok all ->
  output_failure E = None ->
  exists h,
    format_comparison_summary (results cur) total
      (paid_total cur) (online_total cur) (found_count cur) (assumed_count cur)
      (results all) (paid_total all) (online_total all)
      (found_count all) (assumed_count all) = Ok h
    /\ process_receipt E (Some picture) inventory
       = ({| table := full_table (inventory ++ stored);
             total_text := total;
             file_output := if empty (full_table (inventory ++ stored))
                            then None else temp_csv E;
             inventory_state := (inventory ++ stored)%list;
             summary := h |},
          map name_of (item :: items)).
Proof.
  intros ts Hx Hloop Hcum Hout.
  assert (Hd : Forall details_is_text (results cur)).
  { apply (process_items_results E ts _ _ _ _ _ _ Hloop). constructor. }
  destruct (format_comparison_summary_shape (results cur) total
              (paid_total cur) (online_total cur) (found_count cur)
              (assumed_count cur) (results all) (paid_total all)
              (online_total all) (found_count all) (assumed_count all) Hd)
    as (rows & _ & Hfmt).
  eexists. split; [exact Hfmt|].
  pose proof (process_items_store E ts _ _ _ _ _ Hloop)
    as (Hi & Hs & done & rest & Hsplit & Hlook & Hrest).
  specialize (Hrest _ eq_refl). subst rest. rewrite app_nil_r in Hsplit.
  subst done. simpl in Hi.
  assert (Hnames : map name_of (tag_items ts (item :: items))
                   = map name_of (item :: items)).
  { unfold tag_items. rewrite map_map. apply map_ext.
    intros d. apply name_of_set. discriminate. }
  rewrite Hnames in Hlook. change (lookups (initial_store inventory)) with (@nil value) in Hlook.
  rewrite app_nil_l in Hlook.
  unfold process_receipt. fold ts.
  rewrite (process_receipt_try_items E ts _ item items total Hx).
  unfold bindM at 1. unfold aggregate_receipt. unfold bindM at 1.
  rewrite Hloop.
  unfold bindM, get_inventory, lift, set_summary, ret, extend_inventory,
    prepare_outputs, bindM, lift.
  rewrite Hi, Hcum, Hfmt, Hout. cbn [fst snd lookups current_inventory_state comparison_summary].
  now rewrite Hlook.
Qed.

(** C2, as the code has it.  Receipt 1 is processed on an empty inventory
    and receipt 2 on the inventory that results, both going through, with
    different batch timestamps.  Then the cumulative counts after receipt 2
    are the sums of the counts of the two receipts.  The cumulative paid
    (online) total is the paid (online) total of receipt 2 to which the
    paid prices (the stored online prices) of the items of receipt 1 are
    added one at a time, in inventory order: the very addends whose sum from
    zero is the total of receipt 1, so that the cumulative total is the sum
    of the two totals up to the rounding of float additions.  The second
    call looks up the items of receipt 2, once each, and nothing else; and
    whatever the inventory and the outcome, a call only looks up items it
    extracted. *)
Theorem cumulative_totals_from_stored_items
  (E1 E2 : env) (picture : image)
  (item1 : dict) (items1 : list dict) (total1 : value)
  (item2 : dict) (items2 : list dict) (total2 : value)
  (cur1 cur2 : aggregate) (stored1 stored2 : list dict) (st1 st2 : store) :
  let ts1 := Datetime.isoformat (now E1) in
  let ts2 := Datetime.isoformat (now E2) in
  extract E1 = Ok (item1 :: items1, total1) ->
  process_items E1 ts1 empty_aggregate (tag_items ts1 (item1 :: items1))
    (initial_store []) = (Ok (cur1, stored1), st1) ->
  output_failure E1 = None ->
  extract E2 = Ok (item2 :: items2, total2) ->
  process_items E2 ts2 empty_aggregate (tag_items ts2 (item2 :: items2))
    (initial_store stored1) = (Ok (cur2, stored2), st2) ->
  output_failure E2 = None ->
  ts1 <> ts2 ->
  let call1 := process_receipt E1 (Some picture) [] in
  let call2 := process_receipt E2 (Some picture) (inventory_state (fst call1)) in
  exists all h1 h2,
    inventory_state (fst call1) = stored1
    /\ inventory_state (fst call2) = (stored1 ++ stored2)%list
    /\ format_comparison_summary (results cur1) total1
         (paid_total cur1) (online_total cur1) (found_count cur1) (assumed_count cur1)
         (results cur1) (paid_total cur1) (online_total cur1)
         (found_count cur1) (assumed_count cur1) = Ok h1
    /\ summary (fst call1) = h1
    /\ format_comparison_summary (results cur2) total2
         (paid_total cur2) (online_total cur2) (found_count cur2) (assumed_count cur2)
         (results all) (paid_total all) (online_total all)
         (found_count all) (assumed_count all) = Ok h2
    /\ summary (fst call2) = h2
    /\ paid_total cur1 = sum_from Float64.zero (map paid_addend stored1)
    /\ paid_total all = sum_from (paid_total cur2) (map paid_addend stored1)
    /\ online_total cur1 = sum_from Float64.zero (map online_addend stored1)
    /\ online_total all = sum_from (online_total cur2) (map online_addend stored1)
    /\ found_count all = found_count cur2 + found_count cur1
    /\ assumed_count all = assumed_count cur2 + assumed_count cur1
    /\ snd call2 = map name_of (item2 :: items2)
    /\ (forall E receipt_image inventory,
          exists done rest,
            extracted_items E = (done ++ rest)%list
            /\ snd (process_receipt E receipt_image inventory) = map name_of done).
Proof.
  intros ts1 ts2 Hx1 Hloop1 Hout1 Hx2 Hloop2 Hout2 Hne call1 call2.
  destruct (process_receipt_success E1 picture [] item1 items1 total1 cur1 cur1
              stored1 st1 Hx1 Hloop1 eq_refl Hout1) as (h1 & Hh1 & Hcall1).
  assert (Htag : Forall (tagged ts1) stored1).
  { apply (process_items_tagged E1 ts1 ts1 _ _ _ _ _ _ Hloop1).
    apply tag_items_tagged. }
  destruct (cumulative_loop_after_first_loop E1 ts1 _ _ _ _ _ _ Hloop1)
    as (Hp1 & Ho1 & Hprev).
  destruct (Hprev cur2) as (all & Hall & Hpa & Hoa & Hfa & Haa).
  assert (Hcum : cumulative ts2 cur2 stored1 = Ok all).
  { now rewrite (cumulative_is_second_loop ts1 ts2). }
  assert (Hinv1 : inventory_state (fst call1) = stored1).
  { subst call1. now rewrite Hcall1. }
  destruct (process_receipt_success E2 picture stored1 item2 items2 total2 cur2 all
              stored2 st2 Hx2 Hloop2 Hcum Hout2) as (h2 & Hh2 & Hcall2).
  assert (Hc2 : call2 = process_receipt E2 (Some picture) stored1).
  { subst call2. now rewrite Hinv1. }
  exists all, h1, h2.
  split; [exact Hinv1|].
  split; [now rewrite Hc2, Hcall2|].
  split; [exact Hh1|].
  split; [subst call1; now rewrite Hcall1|].
  split; [exact Hh2|].
  split; [now rewrite Hc2, Hcall2|].
  split; [exact Hp1|]. split; [exact Hpa|].
  split; [exact Ho1|]. split; [exact Hoa|].
  split; [simpl in Hfa; lia|]. split; [simpl in Haa; lia|].
  split; [now rewrite Hc2, Hcall2|].
  intros E receipt_image inventory. apply lookups_of_call.
Qed.

(** Receipts A and B of the specification: the cumulative paid total is
    6.00, the cumulative online total 3.50 + 2.00 = 5.50, one item found
    and one assumed; the second call looks up Bread only. *)
Lemma cumulative_totals_from_stored_items_witness :
  let call1 := process_receipt Samples.receipt_A (Some Picture) [] in
  let call2 :=
    process_receipt Samples.receipt_B (Some Picture) (inventory_state (fst call1)) in
  Datetime.isoformat (now Samples.receipt_A)
  <> Datetime.isoformat (now Samples.receipt_B)
  /\ exists all,
       paid_total all = Samples.dollars 600
       /\ online_total all = Samples.dollars 550
       /\ found_count all = 1
       /\ assumed_count all = 1
       /\ In (AllReceipts (paid_total all)) (summary (fst call2))
       /\ snd call2 = [PStr "Bread"].
Proof.
  intros call1 call2.
  assert (Hne : Datetime.isoformat (now Samples.receipt_A)
                <> Datetime.isoformat (now Samples.receipt_B))
    by (vm_compute; discriminate).
  split; [exact Hne|].
  edestruct (cumulative_totals_from_stored_items
               Samples.receipt_A Samples.receipt_B Picture)
    as (all & h1 & h2 & _ & _ & _ & _ & Hh2 & Hs2 & _ & Hp & _ & Ho & Hf & Ha & Hl & _);
    [vm_compute; reflexivity | vm_compute; reflexivity | reflexivity
    | vm_compute; reflexivity | vm_compute; reflexivity | reflexivity
    | exact Hne | ].
  exists all.
  split; [rewrite Hp; vm_compute; reflexivity|].
  split; [rewrite Ho; vm_compute; reflexivity|].
  split; [rewrite Hf; reflexivity|].
  split; [rewrite Ha; reflexivity|].
  split; [|exact Hl].
  fold call1 call2 in Hs2. rewrite Hp. vm_compute. tauto.
Defined.

(** C2, as stated, fails.  Two items at $0.10, then a receipt of one item
    at $1.10, no price service: the totals of the two receipts are 0.2 and
    1.1, whose sum is the float 1.3, and the cumulative paid and online
    totals reported after the second receipt are (1.1 + 0.1) + 0.1, the
    float 1.3000000000000003. *)
Lemma cumulative_total_is_not_the_sum_of_totals :
  let call1 := process_receipt Samples.two_dimes (Some Picture) [] in
  let call2 :=
    process_receipt Samples.one_dollar_ten (Some Picture)
      (inventory_state (fst call1)) in
  let total1 := Float64.of_decimal false 2 (-1) in
  let total2 := Float64.of_decimal false 11 (-1) in
  let reported := Float64.of_decimal false 13000000000000003 (-16) in
  In (LatestReceipt total1) (summary (fst call1))
  /\ In (OnlineTotal 2 2 (Some 2) total1 "black" Float64.zero "same price")
       (summary (fst call1))
  /\ In (LatestReceipt total2) (summary (fst call2))
  /\ In (OnlineTotal 1 1 (Some 1) total2 "black" Float64.zero "same price")
       (summary (fst call2))
  /\ In (AllReceipts reported) (summary (fst call2))
  /\ In (AllOnlineTotal 3 3 (Some 3) reported "black" Float64.zero "same price")
       (summary (fst call2))
  /\ Float64.add total1 total2 = Float64.of_decimal false 13 (-1)
  /\ reported <> Float64.add total1 total2
  /\ Float64.eqb reported (Float64.add total1 total2) = false.
Proof.
  vm_compute. repeat split; try tauto; discriminate.
Qed.

(** The difference can show in the two decimals that are displayed: with
    $1.11 and $2.165, then $0.15, the totals of the receipts add up to
    3.4250000000000003, displayed 3.43, and the cumulative total reported
    is 3.425, displayed 3.42. *)
Lemma cumulative_total_differs_in_cents :
  let call1 := process_receipt Samples.two_odd_prices (Some Picture) [] in
  let call2 :=
    process_receipt Samples.fifteen_cents (Some Picture)
      (inventory_state (fst call1)) in
  exists total1 total2 reported,
    In (LatestReceipt total1) (summary (fst call1))
    /\ In (LatestReceipt total2) (summary (fst call2))
    /\ In (AllReceipts reported) (summary (fst call2))
    /\ Float64.format_2f reported = "3.42"
    /\ Float64.format_2f (Float64.add total1 total2) = "3.43".
Proof.
  eexists _, _, _. vm_compute.
  split; [left; reflexivity|].
  split; [left; reflexivity|].
  split; [right; right; left; reflexivity|].
  split; reflexivity.
Qed.

(* ------------------------------------------------------------------ *)
(** ** The texts [parse_price] accepts *)

Section Characters.

Import Text.

Lemma all_chars_app (p : ascii -> bool) (a b : string) :
  all_chars p (a ++ b) = all_chars p a && all_chars p b.
Proof.
  induction a as [|c a IH]; simpl; [reflexivity|].
  now rewrite IH, andb_assoc.
Qed.

Lemma all_chars_impl (p q : ascii -> bool) (s : string) :
  (forall c, p c = true -> q c = true) ->
  all_chars p s = true -> all_chars q s = true.
Proof.
  intros Hpq. induction s as [|c s IH]; simpl; [reflexivity|].
  intros H. apply andb_prop in H. destruct H as [Hc Hs].
  now rewrite (Hpq c Hc), IH.
Qed.

Lemma remove_char_app (c : ascii) (a b : string) :
  remove_char c (a ++ b) = (remove_char c a ++ remove_char c b)%string.
Proof.
  induction a as [|x a IH]; simpl; [reflexivity|].
  destruct (Ascii.eqb x c); simpl; now rewrite IH.
Qed.

Lemma remove_char_absent (c : ascii) (s : string) :
  all_chars (fun a => negb (Ascii.eqb a c)) s = true -> remove_char c s = s.
Proof.
  induction s as [|x s IH]; simpl; [reflexivity|].
  intros H. apply andb_prop in H. destruct H as [Hx Hs].
  apply negb_true_iff in Hx. rewrite Hx. now rewrite IH.
Qed.

Lemma remove_char_keeps (p : ascii -> bool) (c : ascii) (s : string) :
  all_chars p s = true -> all_chars p (remove_char c s) = true.
Proof.
  induction s as [|x s IH]; simpl; [reflexivity|].
  intros H. apply andb_prop in H. destruct H as [Hx Hs].
  destruct (Ascii.eqb x c); simpl; [now apply IH|].
  now rewrite Hx, IH.
Qed.

Lemma rstrip_no_space (sp : ascii -> bool) (s : string) :
  all_chars (fun a => negb (sp a)) s = true -> rstrip_with sp s = s.
Proof.
  induction s as [|x s IH]; simpl; [reflexivity|].
  intros H. apply andb_prop in H. destruct H as [Hx Hs].
  rewrite (IH Hs). apply negb_true_iff in Hx. rewrite Hx.
  now destruct s.
Qed.

Lemma strip_no_space (sp : ascii -> bool) (s : string) :
  all_chars (fun a => negb (sp a)) s = true -> strip_with sp s = s.
Proof.
  intros H. unfold strip_with.
  assert (Hl : lstrip_with sp s = s).
  { destruct s as [|x s]; simpl in *; [reflexivity|].
    apply andb_prop in H. destruct H as [Hx _].
    apply negb_true_iff in Hx. now rewrite Hx. }
  rewrite Hl. now apply rstrip_no_space.
Qed.

Lemma span_digits_app (d t : string) :
  all_chars is_digit d = true ->
  match t with
  | EmptyString => True
  | String c _ => is_digit c = false
  end ->
  span_digits (d ++ t) = (d, t).
Proof.
  intros Hd Ht. induction d as [|x d IH]; simpl.
  - destruct t as [|c t]; [reflexivity|]. simpl. now rewrite Ht.
  - simpl in Hd. apply andb_prop in Hd. destruct Hd as [Hx Hd].
    rewrite Hx, (IH Hd). reflexivity.
Qed.

(** *** Characters *)

(** A byte below 128 is a character of its own. *)
Lemma chars_cons_ascii (c : ascii) (r : string) :
  (code c <? 128)%N = true ->
  chars (String c r) = String c "" :: chars r.
Proof.
  intros Hc. simpl.
  assert (H : (128 <=? code c)%N = false).
  { apply N.leb_gt. now apply N.ltb_lt. }
  rewrite H. now destruct (chars r).
Qed.

(** The characters of a str make up the str. *)
Lemma join_chars (s : string) : join (chars s) = s.
Proof.
  induction s as [|c r IH]; [reflexivity|]. simpl.
  destruct (chars r) as [|t l]; simpl in *.
  - now rewrite <- IH.
  - destruct ((128 <=? code c)%N && starts_with_continuation t); simpl;
      now rewrite IH.
Qed.

Lemma chars_nil (s : string) : Text.chars s = [] -> s = "".
Proof.
  destruct s as [|c r]; [reflexivity|]. simpl.
  destruct (Text.chars r) as [|t l]; [discriminate|].
  destruct ((128 <=? Text.code c)%N && Text.starts_with_continuation t);
    discriminate.
Qed.

(** The first character starts with the first byte. *)
Lemma chars_head (s : string) :
  match Text.chars s with
  | t :: _ => Text.starts_with_continuation t = Text.starts_with_continuation s
  | [] => s = ""
  end.
Proof.
  destruct s as [|c r]; [reflexivity|]. simpl.
  destruct (Text.chars r) as [|t l]; [reflexivity|].
  now destruct ((128 <=? Text.code c)%N && Text.starts_with_continuation t).
Qed.

(** The characters of two texts put together, the second of which does
    not start in the middle of a character. *)
Lemma chars_app (p q : string) :
  Text.starts_with_continuation q = false ->
  Text.chars (p ++ q) = (Text.chars p ++ Text.chars q)%list.
Proof.
  intros Hq. induction p as [|c p IH]; [reflexivity|].
  cbn [append Text.chars]. rewrite IH.
  destruct (Text.chars p) as [|t l] eqn:Hp.
  - cbn [app]. pose proof (chars_head q) as Hhead.
    destruct (Text.chars q) as [|t l]; [reflexivity|].
    rewrite Hhead, Hq, andb_false_r. reflexivity.
  - cbn [app].
    now destruct ((128 <=? Text.code c)%N && Text.starts_with_continuation t).
Qed.

(** After bytes below 128 any text can follow. *)
Lemma chars_app_ascii (d q : string) :
  Text.all_chars (fun c => (Text.code c <? 128)%N) d = true ->
  Text.chars (d ++ q) = (Text.chars d ++ Text.chars q)%list.
Proof.
  induction d as [|c d IH]; [reflexivity|]. simpl Text.all_chars.
  intros H. apply andb_prop in H. destruct H as [Hc Hd].
  cbn [append]. rewrite !(chars_cons_ascii c _ Hc), (IH Hd). reflexivity.
Qed.

(** What holds of every byte holds of the bytes of every character. *)
Lemma chars_bytes (q : ascii -> bool) (s : string) :
  Text.all_chars q s = true ->
  Forall (fun t => Text.all_chars q t = true) (Text.chars s).
Proof.
  induction s as [|c r IH]; [constructor|]. simpl Text.all_chars.
  intros H. apply andb_prop in H. destruct H as [Hc Hr].
  specialize (IH Hr). cbn [Text.chars].
  destruct (Text.chars r) as [|t l].
  - constructor; [simpl; now rewrite Hc | constructor].
  - inversion IH as [|? ? Ht Hl]; subst.
    destruct ((128 <=? Text.code c)%N && Text.starts_with_continuation t).
    + constructor; [simpl; now rewrite Hc, Ht | exact Hl].
    + constructor; [simpl; now rewrite Hc | exact IH].
Qed.

Lemma drop_leading_none (sp : string -> bool) (l : list string) :
  Forall (fun t => sp t = false) l -> drop_leading sp l = l.
Proof. destruct 1 as [|t l Ht _]; simpl; [reflexivity | now rewrite Ht]. Qed.

Lemma drop_trailing_none (sp : string -> bool) (l : list string) :
  Forall (fun t => sp t = false) l -> drop_trailing sp l = l.
Proof.
  induction 1 as [|t l Ht _ IH]; simpl; [reflexivity|].
  rewrite IH, Ht. now destruct l.
Qed.

(** A text of bytes below 128, none of them whitespace, is its own
    [strip()]. *)
Lemma strip_ascii_no_space (s : string) :
  all_chars (fun c => (code c <? 128)%N
                      && negb (Unicode.is_space (code c))) s = true ->
  strip s = s.
Proof.
  intros H.
  assert (Hall : Forall (fun t => is_space_char t = false) (chars s)).
  { induction s as [|c r IH]; [constructor|].
    simpl in H. apply andb_prop in H. destruct H as [Hc Hr].
    apply andb_prop in Hc. destruct Hc as [Hc Hsp].
    rewrite (chars_cons_ascii c r Hc). constructor; [|now apply IH].
    unfold is_space_char, code_point. simpl.
    assert (H192 : (code c <? 192)%N = true).
    { apply N.ltb_lt. apply N.ltb_lt in Hc. lia. }
    rewrite H192. now apply negb_true_iff. }
  unfold strip. rewrite (drop_leading_none _ _ Hall), (drop_trailing_none _ _ Hall).
  apply join_chars.
Qed.

(** [float()] reads a text of code points below 127 as it is. *)
Lemma to_ascii_text_ascii (s : string) :
  all_chars (fun c => (code c <? 127)%N) s = true -> to_ascii_text s = s.
Proof.
  unfold to_ascii_text.
  induction s as [|x s IH]; [reflexivity|].
  intros H. simpl in H. apply andb_prop in H. destruct H as [Hx Hs].
  assert (H128 : (code x <? 128)%N = true).
  { apply N.ltb_lt. apply N.ltb_lt in Hx. lia. }
  assert (H192 : (code x <? 192)%N = true).
  { apply N.ltb_lt. apply N.ltb_lt in Hx. lia. }
  rewrite (chars_cons_ascii x s H128). cbn [to_ascii_chars].
  unfold code_point. cbn [continuation_value]. rewrite H192, Hx.
  unfold code. rewrite ascii_N_embedding. now rewrite (IH Hs).
Qed.

Lemma drop_underscores_none (s : string) :
  forall prev,
  Ascii.eqb prev "_" = false ->
  all_chars (fun c => negb (Ascii.eqb c "_")) s = true ->
  drop_underscores prev s = Some s.
Proof.
  induction s as [|x s IH]; intros prev Hprev; simpl.
  - now rewrite Hprev.
  - intros H. apply andb_prop in H. destruct H as [Hx Hs].
    apply negb_true_iff in Hx. rewrite Hx, Hprev. simpl.
    now rewrite (IH x Hx Hs).
Qed.

(** What holds of a digit and of the point. *)
Lemma digit_or_point_facts (c : ascii) :
  is_digit c || Ascii.eqb c "." = true ->
  (code c <? 128)%N && negb (Unicode.is_space (code c)) = true
  /\ is_c_space c = false
  /\ (code c <? 127)%N = true /\ Ascii.eqb c "_" = false
  /\ Ascii.eqb c "$" = false /\ Ascii.eqb c "," = false.
Proof.
  destruct c as [[] [] [] [] [] [] [] []]; vm_compute; intros H;
    try discriminate H; repeat split.
Qed.

Lemma digit_facts (c : ascii) :
  is_digit c = true ->
  to_lower c = c /\ Ascii.eqb c "-" = false /\ Ascii.eqb c "+" = false
  /\ Ascii.eqb c "i" = false /\ Ascii.eqb c "n" = false.
Proof.
  destruct c as [[] [] [] [] [] [] [] []]; vm_compute; intros H;
    try discriminate H; repeat split.
Qed.

Lemma digit_or_comma_no_dollar (c : ascii) :
  digit_or_comma c = true -> negb (Ascii.eqb c "$") = true.
Proof.
  destruct c as [[] [] [] [] [] [] [] []]; vm_compute; intros H;
    try discriminate H; reflexivity.
Qed.

End Characters.

Section Encoding.

Import Text.

(** Quotients and remainders by constants, for [lia]. *)
Local Ltac Zify.zify_post_hook ::= Z.to_euclidean_division_equations.

Lemma code_byte (k : N) : (k < 256)%N -> code (ascii_of_N k) = k.
Proof. intros H. unfold code. now apply N_ascii_embedding. Qed.

(** The code point of a character is read back from its bytes. *)
Lemma code_point_encode (n : N) :
  (n < 1114112)%N -> code_point (encode n) = n.
Proof.
  intros Hn. unfold encode.
  destruct (N.ltb_spec n 128).
  { unfold code_point. rewrite code_byte by lia. cbn [continuation_value].
    destruct (N.ltb_spec n 192); [reflexivity | lia]. }
  destruct (N.ltb_spec n 2048).
  { unfold code_point. rewrite code_byte by lia.
    cbn [continuation_value]. rewrite code_byte by lia.
    destruct (N.ltb_spec (192 + n / 64) 192); [lia|].
    destruct (N.ltb_spec (192 + n / 64) 224); lia. }
  destruct (N.ltb_spec n 65536).
  { unfold code_point. rewrite code_byte by lia.
    cbn [continuation_value]. rewrite !code_byte by lia.
    destruct (N.ltb_spec (224 + n / 4096) 192); [lia|].
    destruct (N.ltb_spec (224 + n / 4096) 224); [lia|].
    destruct (N.ltb_spec (224 + n / 4096) 240); lia. }
  unfold code_point. rewrite code_byte by lia.
  cbn [continuation_value]. rewrite !code_byte by lia.
  destruct (N.ltb_spec (240 + n / 262144) 192); [lia|].
  destruct (N.ltb_spec (240 + n / 262144) 224); [lia|].
  destruct (N.ltb_spec (240 + n / 262144) 240); lia.
Qed.

(** A byte before a text that does not start with a continuation byte is
    a character of its own. *)
Lemma chars_cons_alone (c : ascii) (r : string) :
  starts_with_continuation r = false ->
  chars (String c r) = String c "" :: chars r.
Proof.
  intros Hr. cbn [chars]. pose proof (chars_head r) as Hhead.
  destruct (chars r) as [|t l]; [reflexivity|].
  now rewrite Hhead, Hr, andb_false_r.
Qed.

(** A byte from 128 on joins the character made of the continuation bytes
    that follow it. *)
Lemma chars_cons_joins (c : ascii) (t : string) (l : list string) (r : string) :
  (128 <= code c)%N -> chars r = t :: l ->
  starts_with_continuation r = true ->
  chars (String c r) = String c t :: l.
Proof.
  intros Hc Hr Hcont. cbn [chars]. pose proof (chars_head r) as Hhead.
  rewrite Hr in *. rewrite Hhead, Hcont.
  destruct (N.leb_spec 128 (code c)); [reflexivity | lia].
Qed.

Lemma continuation_byte (k : N) :
  (k < 64)%N ->
  is_continuation (ascii_of_N (128 + k)) = true
  /\ (128 <= code (ascii_of_N (128 + k)))%N.
Proof.
  intros Hk. unfold is_continuation. rewrite code_byte by lia.
  split; [|lia].
  destruct (N.leb_spec 128 (128 + k)); [|lia].
  destruct (N.ltb_spec (128 + k) 192); [reflexivity | lia].
Qed.

Lemma lead_byte (k : N) :
  (k < 128 \/ 192 <= k < 256)%N ->
  is_continuation (ascii_of_N k) = false.
Proof.
  intros Hk. unfold is_continuation. rewrite code_byte by lia.
  destruct (N.leb_spec 128 k); [|reflexivity].
  destruct (N.ltb_spec k 192); [lia | reflexivity].
Qed.

(** The encoding of a code point does not start with a continuation
    byte. *)
Lemma encode_head (n : N) (s : string) :
  (n < 1114112)%N -> starts_with_continuation (encode n ++ s) = false.
Proof.
  intros Hn. unfold encode.
  destruct (N.ltb_spec n 128); [apply lead_byte; lia|].
  destruct (N.ltb_spec n 2048); [apply lead_byte; lia|].
  destruct (N.ltb_spec n 65536); apply lead_byte; lia.
Qed.

(** The encoding of a code point is one character. *)
Lemma chars_encode (n : N) (s : string) :
  (n < 1114112)%N -> starts_with_continuation s = false ->
  chars (encode n ++ s) = encode n :: chars s.
Proof.
  intros Hn Hs. unfold encode.
  assert (H0 : (n mod 64 < 64)%N) by lia.
  assert (H1 : ((n / 64) mod 64 < 64)%N) by lia.
  assert (H2 : ((n / 4096) mod 64 < 64)%N) by lia.
  destruct (continuation_byte _ H0) as [C0 L0].
  destruct (continuation_byte _ H1) as [C1 L1].
  destruct (continuation_byte _ H2) as [C2 L2].
  destruct (N.ltb_spec n 128); [now apply chars_cons_alone|].
  destruct (N.ltb_spec n 2048).
  { cbn [append].
    apply chars_cons_joins;
      [rewrite code_byte by lia; lia | now apply chars_cons_alone | exact C0]. }
  destruct (N.ltb_spec n 65536).
  { cbn [append].
    apply chars_cons_joins; [rewrite code_byte by lia; lia | | exact C1].
    apply chars_cons_joins; [exact L1 | now apply chars_cons_alone | exact C0]. }
  cbn [append].
  apply chars_cons_joins; [rewrite code_byte by lia; lia | | exact C2].
  apply chars_cons_joins; [exact L2 | | exact C1].
  apply chars_cons_joins; [exact L1 | now apply chars_cons_alone | exact C0].
Qed.

(** The characters of a str are the encodings of its code points. *)
Lemma chars_of_code_points (l : list N) :
  Forall (fun n => (n < 1114112)%N) l ->
  chars (of_code_points l) = map encode l.
Proof.
  unfold of_code_points.
  induction 1 as [|n l Hn Hl IH]; [reflexivity|].
  cbn [map join]. rewrite chars_encode, IH; [reflexivity | exact Hn |].
  destruct Hl as [|m l' Hm _]; [reflexivity|].
  cbn [map join]. now apply encode_head.
Qed.

End Encoding.

Section PricePattern.

Import Text.

Lemma comma_free_digits (ip : string) :
  all_chars digit_or_comma ip = true ->
  all_chars is_digit (remove_char "," ip) = true.
Proof.
  induction ip as [|c ip IH]; simpl; [reflexivity|].
  intros H. apply andb_prop in H. destruct H as [Hc Hs].
  destruct (Ascii.eqb c ",") eqn:Hcomma; [now apply IH|].
  unfold digit_or_comma in Hc. rewrite Hcomma, orb_false_r in Hc.
  simpl. now rewrite Hc, IH.
Qed.

Lemma after_integer_chars (fp : option string) :
  match fp with
  | Some f => all_chars is_digit f = true /\ f <> ""
  | None => True
  end ->
  all_chars (fun c => is_digit c || Ascii.eqb c ".") (after_integer fp) = true.
Proof.
  destruct fp as [f|]; [|reflexivity]. intros [Hf _]. simpl.
  apply (all_chars_impl is_digit); [|exact Hf].
  intros c Hc. now rewrite Hc.
Qed.

(** What is left of a well-formed price after the dollar sign, the commas
    and the surrounding whitespace are removed. *)
Lemma cleaned_price_text (dollar : bool) (ip : string) (fp : option string) :
  well_formed_price ip fp ->
  strip (remove_char "," (remove_char "$" (price_text dollar ip fp)))
  = (remove_char "," ip ++ after_integer fp)%string.
Proof.
  intros (Hip & _ & Hfp).
  pose proof (after_integer_chars fp Hfp) as Hrest.
  unfold price_text.
  rewrite !remove_char_app.
  assert (H1 : remove_char "$" (if dollar then "$" else "") = "")
    by now destruct dollar.
  assert (H2 : remove_char "$" ip = ip).
  { apply remove_char_absent.
    apply (all_chars_impl digit_or_comma); [|exact Hip].
    apply digit_or_comma_no_dollar. }
  assert (H3 : remove_char "$" (after_integer fp) = after_integer fp).
  { apply remove_char_absent.
    apply (all_chars_impl _ _ _ (fun c H => f_equal negb
             (proj1 (proj2 (proj2 (proj2 (proj2 (digit_or_point_facts c H)))))))).
    exact Hrest. }
  assert (H4 : remove_char "," (after_integer fp) = after_integer fp).
  { apply remove_char_absent.
    apply (all_chars_impl _ _ _ (fun c H => f_equal negb
             (proj2 (proj2 (proj2 (proj2 (proj2 (digit_or_point_facts c H)))))))).
    exact Hrest. }
  rewrite H1, H2, H3, H4. simpl.
  apply strip_ascii_no_space. rewrite all_chars_app.
  apply andb_true_intro. split.
  - apply (all_chars_impl is_digit); [|now apply comma_free_digits].
    intros c Hc.
    assert (Hc' : is_digit c || Ascii.eqb c "." = true) by now rewrite Hc.
    exact (proj1 (digit_or_point_facts c Hc')).
  - apply (all_chars_impl _ _ _ (fun c H => proj1 (digit_or_point_facts c H))).
    exact Hrest.
Qed.

Lemma split_sign_digit (c : ascii) (r : string) :
  is_digit c = true -> split_sign (String c r) = (false, String c r).
Proof.
  destruct c as [[] [] [] [] [] [] [] []]; vm_compute; intros H;
    try discriminate H; reflexivity.
Qed.

(** [float()] on digits, possibly followed by a point and digits. *)
Lemma float_of_digits (d : string) (fp : option string) :
  all_chars is_digit d = true -> d <> "" ->
  match fp with
  | Some f => all_chars is_digit f = true /\ f <> ""
  | None => True
  end ->
  float_of_str (d ++ after_integer fp)
  = Ok (Float64.of_decimal false
          (digits_value (d ++ fraction_digits fp))
          (- Z.of_nat (String.length (fraction_digits fp)))).
Proof.
  intros Hd Hne Hfp.
  pose proof (after_integer_chars fp Hfp) as Hrest.
  assert (Hall : all_chars (fun c => is_digit c || Ascii.eqb c ".")
                   (d ++ after_integer fp) = true).
  { rewrite all_chars_app, Hrest, andb_true_r.
    apply (all_chars_impl is_digit); [|exact Hd].
    intros c Hc. now rewrite Hc. }
  unfold float_of_str.
  rewrite to_ascii_text_ascii
    by (apply (all_chars_impl _ _ _ (fun c H =>
                 proj1 (proj2 (proj2 (digit_or_point_facts c H))))); exact Hall).
  rewrite drop_underscores_none;
    [|reflexivity
     |apply (all_chars_impl _ _ _ (fun c H => f_equal negb
                (proj1 (proj2 (proj2 (proj2 (digit_or_point_facts c H)))))));
      exact Hall].
  rewrite strip_no_space
    by (apply (all_chars_impl _ _ _ (fun c H => f_equal negb
                 (proj1 (proj2 (digit_or_point_facts c H))))); exact Hall).
  destruct d as [|x d]; [now contradiction Hne|].
  assert (Hx : is_digit x = true) by (simpl in Hd; now apply andb_prop in Hd).
  destruct (digit_facts x Hx) as (Hlow & _ & _ & Hi & Hn).
  unfold parse_floatvalue.
  change (String x d ++ after_integer fp)%string
    with (String x (d ++ after_integer fp)).
  rewrite (split_sign_digit x _ Hx).
  cbn [lower String.eqb]. rewrite Hlow, Hi, Hn. cbn [andb orb].
  unfold parse_floatnumber.
  change (String x (d ++ after_integer fp))
    with (String x d ++ after_integer fp)%string.
  rewrite (span_digits_app (String x d) (after_integer fp) Hd)
    by (destruct fp; [reflexivity | exact I]).
  destruct fp as [f|]; simpl after_integer; simpl fraction_digits.
  - destruct Hfp as [Hf _].
    change ("." ++ f)%string with (String "." f).
    cbv iota beta.
    pose proof (span_digits_app f "" Hf I) as Hspan.
    assert (Hnil : forall s : string, (s ++ "")%string = s).
    { induction s; simpl; congruence. }
    rewrite Hnil in Hspan. rewrite Hspan. simpl. reflexivity.
  - simpl. reflexivity.
Qed.

(** On a well-formed price [parse_price] returns the float nearest to the
    number the digits denote. *)
Lemma parse_price_of_pattern (dollar : bool) (ip : string) (fp : option string) :
  well_formed_price ip fp ->
  parse_price (PStr (price_text dollar ip fp)) = Ok (Some (denoted_price ip fp)).
Proof.
  intros Hwf. unfold parse_price.
  rewrite (cleaned_price_text dollar ip fp Hwf).
  destruct Hwf as (Hip & Hne & Hfp).
  rewrite (float_of_digits _ fp (comma_free_digits ip Hip) Hne Hfp).
  reflexivity.
Qed.

End PricePattern.

Section FloatLiterals.

Import Text.

Lemma append_empty (s : string) : s ++ "" = s.
Proof. induction s as [|c r IH]; simpl; congruence. Qed.

Lemma append_assoc (a b c : string) : (a ++ b) ++ c = a ++ (b ++ c).
Proof. induction a as [|x a IH]; simpl; congruence. Qed.

Lemma span_digits_spec (s : string) :
  forall d t, span_digits s = (d, t) ->
              s = (d ++ t)%string /\ all_chars is_digit d = true.
Proof.
  induction s as [|c s IH]; simpl; intros d t.
  - intros [= <- <-]. split; reflexivity.
  - destruct (is_digit c) eqn:Hc.
    + destruct (span_digits s) as [d' t'].
      destruct (IH d' t' eq_refl) as [-> Hd'].
      intros [= <- <-]. simpl. now rewrite Hc, Hd'.
    + intros [= <- <-]. split; reflexivity.
Qed.

Lemma span_digits_rest (s d t : string) (x : ascii) :
  span_digits s = (d, String x t) -> is_digit x = false.
Proof.
  revert d. induction s as [|c r IH]; intros d; simpl; [discriminate|].
  destruct (is_digit c) eqn:Hc.
  - destruct (span_digits r) as [d' t'] eqn:Hr. intros [= <- ->].
    now apply (IH d').
  - intros [= <- <- <-]. exact Hc.
Qed.

Lemma split_sign_spec (s r : string) (neg : bool) :
  split_sign s = (neg, r) ->
  s = r \/ s = String "-" r \/ s = String "+" r.
Proof.
  destruct s as [|c s]; simpl; [intros [= _ <-]; now left|].
  destruct c as [[] [] [] [] [] [] [] []]; intros [= _ <-]; auto.
Qed.

(** *** From the parser to the grammar *)

Lemma split_sign_text (s r : string) (neg : bool) :
  split_sign s = (neg, r) ->
  exists sg, sign_text sg neg /\ s = sg ++ r.
Proof.
  destruct s as [|c s]; simpl.
  - intros [= <- <-]. exists "". split; [constructor | reflexivity].
  - destruct c as [[] [] [] [] [] [] [] []]; intros [= <- <-];
      try (exists ""; split; [constructor | reflexivity]).
    + exists "+". split; [constructor | reflexivity].
    + exists "-". split; [constructor | reflexivity].
Qed.

Lemma lower_e (c : ascii) :
  Ascii.eqb (to_lower c) "e" = true -> c = "e"%char \/ c = "E"%char.
Proof.
  destruct c as [[] [] [] [] [] [] [] []]; vm_compute; intros H;
    try discriminate H; auto.
Qed.

Lemma is_empty_false (s : string) : is_empty s = false -> s <> "".
Proof. destruct s; [discriminate | discriminate]. Qed.

Lemma is_empty_true (s : string) : is_empty s = true -> s = "".
Proof. destruct s; [reflexivity | discriminate]. Qed.

Lemma parse_exponent_literal (s : string) (k : Z) :
  parse_exponent s = Some k -> exponent_text s k.
Proof.
  destruct s as [|c s]; simpl.
  - intros [= <-]. constructor.
  - destruct (Ascii.eqb (to_lower c) "e") eqn:Hc; [|discriminate].
    destruct (split_sign s) as [neg r1] eqn:Hsign.
    destruct (span_digits r1) as [ed r2] eqn:Hspan.
    destruct (is_empty ed) eqn:Hed; [discriminate|].
    destruct (is_empty r2) eqn:Hr2; [|discriminate].
    simpl. intros [= <-].
    apply is_empty_true in Hr2. subst r2.
    destruct (span_digits_spec _ _ _ Hspan) as [-> Hd].
    rewrite append_empty in *.
    destruct (split_sign_text _ _ _ Hsign) as (sg & Hsg & ->).
    apply some_exponent; [now apply lower_e | exact Hsg | exact Hd
                         | now apply is_empty_false].
Qed.

(** The fraction, if the digits are followed by a point. *)
Lemma fraction_split (r1 : string) :
  match r1 with
  | String "." r => span_digits r
  | _ => (EmptyString, r1)
  end
  = match r1 with
    | String c r => if Ascii.eqb c "." then span_digits r else (EmptyString, r1)
    | EmptyString => (EmptyString, EmptyString)
    end.
Proof.
  destruct r1 as [|c r]; [reflexivity|].
  destruct c as [[] [] [] [] [] [] [] []]; reflexivity.
Qed.

Lemma parse_floatnumber_literal (r : string) (m e : Z) :
  parse_floatnumber r = Some (m, e) ->
  exists n ip fp ex k,
    r = n ++ ex /\ number_text n ip fp /\ exponent_text ex k
    /\ m = digits_value (ip ++ fp)
    /\ e = k - Z.of_nat (String.length fp).
Proof.
  unfold parse_floatnumber.
  destruct (span_digits r) as [ip r1] eqn:Hip.
  destruct (span_digits_spec _ _ _ Hip) as [-> Hd].
  rewrite fraction_split.
  destruct r1 as [|c r1].
  - rewrite andb_true_r.
    destruct (is_empty ip) eqn:Hne; [discriminate|]. simpl.
    intros [= <- <-].
    exists ip, ip, "", "", 0. rewrite append_empty.
    split; [reflexivity|].
    split; [apply whole_number; [exact Hd | now apply is_empty_false]|].
    split; [apply no_exponent | now split].
  - destruct (Ascii.eqb c ".") eqn:Hc.
    + apply Ascii.eqb_eq in Hc. subst c.
      destruct (span_digits r1) as [fp r2] eqn:Hfp.
      destruct (span_digits_spec _ _ _ Hfp) as [-> Hf].
      destruct (is_empty ip && is_empty fp) eqn:Hne; [discriminate|].
      destruct (parse_exponent r2) as [k|] eqn:Hk; [|discriminate].
      intros [= <- <-].
      exists (ip ++ "." ++ fp), ip, fp, r2, k.
      split; [now rewrite !append_assoc|].
      split; [|split; [now apply parse_exponent_literal | now split]].
      apply pointed_number; [exact Hd | exact Hf |].
      intros Hemp. destruct ip; [|discriminate]. destruct fp; discriminate.
    + rewrite andb_true_r.
      destruct (is_empty ip) eqn:Hne; [discriminate|].
      destruct (parse_exponent (String c r1)) as [k|] eqn:Hk; [|discriminate].
      intros [= <- <-].
      exists ip, ip, "", (String c r1), k.
      split; [reflexivity|].
      split; [apply whole_number; [exact Hd | now apply is_empty_false]|].
      split; [now apply parse_exponent_literal | now split].
Qed.

(** What the parser accepts is a literal of the grammar, with the float
    it denotes. *)
Lemma parse_floatvalue_literal (t : string) (f : float) :
  parse_floatvalue t = Some f -> float_literal t f.
Proof.
  unfold parse_floatvalue.
  destruct (split_sign t) as [neg r] eqn:Hsign.
  destruct (split_sign_text _ _ _ Hsign) as (sg & Hsg & ->).
  destruct (String.eqb (lower r) "inf") eqn:H1.
  { intros [= <-]. apply String.eqb_eq in H1.
    apply infinity_literal; [exact Hsg | now left]. }
  destruct (String.eqb (lower r) "infinity") eqn:H2.
  { intros [= <-]. apply String.eqb_eq in H2.
    apply infinity_literal; [exact Hsg | now right]. }
  destruct (String.eqb (lower r) "nan") eqn:H3.
  { intros [= <-]. apply String.eqb_eq in H3.
    apply (nan_literal sg neg); [exact Hsg | exact H3]. }
  simpl.
  destruct (parse_floatnumber r) as [[m e]|] eqn:Hn; [|discriminate].
  intros [= <-].
  destruct (parse_floatnumber_literal _ _ _ Hn)
    as (n & ip & fp & ex & k & -> & Hnum & Hex & -> & ->).
  now apply number_literal.
Qed.

(** *** From the grammar to the parser *)

(** A number starts with a digit or with the point. *)
Lemma number_text_head (n ip fp : string) :
  number_text n ip fp ->
  exists c r, n = String c r /\ is_digit c || Ascii.eqb c "." = true.
Proof.
  intros [ip' Hd Hne | ip' fp' Hd Hf Hne].
  - destruct ip' as [|c r]; [now contradiction Hne|].
    exists c, r. split; [reflexivity|].
    unfold digits in Hd. simpl in Hd. apply andb_prop in Hd.
    destruct Hd as [-> _]. reflexivity.
  - destruct ip' as [|c r].
    + exists "."%char, fp'. split; reflexivity.
    + exists c, (r ++ "." ++ fp'). split; [reflexivity|].
      unfold digits in Hd. simpl in Hd. apply andb_prop in Hd.
      destruct Hd as [-> _]. reflexivity.
Qed.

Lemma head_facts (c : ascii) :
  is_digit c || Ascii.eqb c "." = true ->
  (forall r, split_sign (String c r) = (false, String c r))
  /\ Ascii.eqb (to_lower c) "i" = false
  /\ Ascii.eqb (to_lower c) "n" = false.
Proof.
  destruct c as [[] [] [] [] [] [] [] []]; vm_compute; intros H;
    try discriminate H; repeat split.
Qed.

Lemma letter_facts (c : ascii) :
  Ascii.eqb (to_lower c) "i" = true \/ Ascii.eqb (to_lower c) "n" = true ->
  forall r, split_sign (String c r) = (false, String c r).
Proof.
  destruct c as [[] [] [] [] [] [] [] []]; vm_compute; intros [H|H];
    try discriminate H; reflexivity.
Qed.

Lemma exponent_letter_facts (c : ascii) :
  c = "e"%char \/ c = "E"%char ->
  Ascii.eqb (to_lower c) "e" = true /\ is_digit c = false
  /\ Ascii.eqb c "." = false.
Proof. intros [-> | ->]; repeat split. Qed.

Lemma sign_text_split (sg r : string) (neg : bool) :
  sign_text sg neg ->
  split_sign r = (false, r) ->
  split_sign (sg ++ r) = (neg, r).
Proof. intros [] Hr; [exact Hr | reflexivity | reflexivity]. Qed.

Lemma exponent_text_parse (e : string) (k : Z) :
  exponent_text e k -> parse_exponent e = Some k.
Proof.
  intros [|c sg neg ed Hc Hsg Hd Hne]; [reflexivity|].
  destruct (exponent_letter_facts c Hc) as (He & _ & _).
  cbn [parse_exponent]. rewrite He.
  assert (Hhead : split_sign ed = (false, ed)).
  { destruct ed as [|x ed]; [now contradiction Hne|].
    apply split_sign_digit. unfold digits in Hd. simpl in Hd.
    now apply andb_prop in Hd. }
  rewrite (sign_text_split sg ed neg Hsg Hhead).
  pose proof (span_digits_app ed "" Hd I) as Hspan.
  rewrite append_empty in Hspan. rewrite Hspan.
  destruct ed; [now contradiction Hne | reflexivity].
Qed.

(** An exponent does not start with a digit nor with the point. *)
Lemma exponent_text_head (e : string) (k : Z) :
  exponent_text e k ->
  match e with
  | EmptyString => True
  | String c _ => is_digit c = false /\ Ascii.eqb c "." = false
  end.
Proof.
  intros [|c sg neg ed Hc _ _ _]; [exact I|].
  now destruct (exponent_letter_facts c Hc) as (_ & H1 & H2).
Qed.

Lemma number_text_parse (n ip fp e : string) (k : Z) :
  number_text n ip fp -> exponent_text e k ->
  parse_floatnumber (n ++ e)
  = Some (digits_value (ip ++ fp), k - Z.of_nat (String.length fp)).
Proof.
  intros Hn He.
  pose proof (exponent_text_head e k He) as Hhead.
  pose proof (exponent_text_parse e k He) as Hparse.
  unfold parse_floatnumber.
  destruct Hn as [ip' Hd Hne | ip' fp' Hd Hf Hne].
  - rewrite (span_digits_app ip' e Hd)
      by (destruct e; [exact I | exact (proj1 Hhead)]).
    rewrite fraction_split.
    assert (Hfrac : match e with
                    | String c r =>
                        if Ascii.eqb c "." then span_digits r else ("", e)
                    | EmptyString => ("", "")
                    end = ("", e)).
    { destruct e as [|c r]; [reflexivity|]. now rewrite (proj2 Hhead). }
    rewrite Hfrac, Hparse.
    destruct ip'; [now contradiction Hne | reflexivity].
  - rewrite !append_assoc.
    rewrite (span_digits_app ip' _ Hd) by reflexivity.
    rewrite fraction_split. cbn [append Ascii.eqb Bool.eqb].
    rewrite (span_digits_app fp' e Hf)
      by (destruct e; [exact I | exact (proj1 Hhead)]).
    rewrite Hparse.
    destruct ip'; [|reflexivity]. destruct fp'; [|reflexivity].
    now contradiction Hne.
Qed.

Lemma lower_head (c : ascii) (r : string) (w : string) :
  lower (String c r) = w ->
  match w with
  | String x _ => to_lower c = x
  | EmptyString => False
  end.
Proof. intros <-. reflexivity. Qed.

(** A literal of the grammar is accepted by the parser, with the float it
    denotes. *)
Lemma float_literal_parse (t : string) (f : float) :
  float_literal t f -> parse_floatvalue t = Some f.
Proof.
  intros [sg neg n ip fp e k Hsg Hn He | sg neg w Hsg Hw | sg neg w Hsg Hw];
    unfold parse_floatvalue.
  - destruct (number_text_head n ip fp Hn) as (c & r & -> & Hc).
    destruct (head_facts c Hc) as (Hsplit & Hi & Hnn).
    rewrite (sign_text_split sg (String c r ++ e) neg Hsg (Hsplit _)).
    cbn [append lower String.eqb]. rewrite Hi, Hnn. cbn [orb].
    change (String c (r ++ e)) with (String c r ++ e).
    now rewrite (number_text_parse _ ip fp e k Hn He).
  - assert (Hsplit : split_sign w = (false, w)).
    { destruct w as [|c r]; [destruct Hw; discriminate|].
      apply letter_facts. left.
      destruct Hw as [Hw|Hw]; apply lower_head in Hw; rewrite Hw; reflexivity. }
    rewrite (sign_text_split sg w neg Hsg Hsplit).
    destruct Hw as [-> | ->]; reflexivity.
  - assert (Hsplit : split_sign w = (false, w)).
    { destruct w as [|c r]; [discriminate|].
      apply letter_facts. right.
      apply lower_head in Hw; rewrite Hw; reflexivity. }
    rewrite (sign_text_split sg w neg Hsg Hsplit).
    now rewrite Hw.
Qed.

(** [parse_price] on a str: the float of the literal, or [None]. *)
Lemma parse_price_text (s : string) :
  parse_price (PStr s)
  = Ok (match float_text s with
        | Some t => parse_floatvalue t
        | None => None
        end).
Proof.
  unfold parse_price, float_text, float_of_str.
  destruct (drop_underscores _ _) as [u|]; simpl; [|reflexivity].
  now destruct (parse_floatvalue _).
Qed.

End FloatLiterals.

Lemma price_pattern_chars (s : string) :
  price_pattern s ->
  Text.all_chars
    (fun c => digit_or_comma c || Ascii.eqb c "$" || Ascii.eqb c ".") s = true.
Proof.
  intros (dollar & ip & fp & (Hip & _ & Hfp) & ->).
  unfold price_text. rewrite !all_chars_app.
  apply andb_true_intro. split; [now destruct dollar|].
  apply andb_true_intro. split.
  - revert Hip. apply all_chars_impl. intros c Hc. now rewrite Hc.
  - destruct fp as [f|]; [|reflexivity]. destruct Hfp as [Hf _]. simpl.
    revert Hf. apply all_chars_impl. intros c Hc.
    unfold digit_or_comma. now rewrite Hc.
Qed.

(** C4, as the code has it.  For every text of the form
    [\$?\d+(\.\d+)?] in ASCII digits, with or without commas among the
    digits before the point, [parse_price] returns the float nearest to
    the number the digits denote.  In general it returns a float for a
    str exactly when the text [float()] reads from it (see [float_text])
    is a float literal: an optional sign, then digits with an optional
    fraction and an optional exponent, or inf, infinity or nan; the float
    is the one the literal denotes.  It returns [None] for every other
    str.  It never raises, whatever value it is given. *)
Theorem parse_price_of_text :
  (forall dollar ip fp,
      well_formed_price ip fp ->
      parse_price (PStr (price_text dollar ip fp)) = Ok (Some (denoted_price ip fp)))
  /\ (forall s f,
        parse_price (PStr s) = Ok (Some f)
        <-> exists t, float_text s = Some t /\ float_literal t f)
  /\ (forall s,
        parse_price (PStr s) = Ok None
        <-> forall t f, float_text s = Some t -> ~ float_literal t f)
  /\ (forall v, exists r, parse_price v = Ok r).
Proof.
  split; [exact parse_price_of_pattern|].
  split; [|split; [|exact parse_price_total]].
  - intros s f. rewrite parse_price_text. split.
    + destruct (float_text s) as [t|]; [|discriminate].
      intros [= H]. exists t. split; [reflexivity|].
      now apply parse_floatvalue_literal.
    + intros (t & -> & H). now rewrite (float_literal_parse t f H).
  - intros s. rewrite parse_price_text. split.
    + destruct (float_text s) as [t|].
      * intros [= H] t' f [= <-] Hlit.
        rewrite (float_literal_parse t f Hlit) in H. discriminate.
      * intros _ t f Ht. discriminate.
    + intros H. destruct (float_text s) as [t|]; [|reflexivity].
      destruct (parse_floatvalue t) as [f|] eqn:Hf; [|reflexivity].
      exfalso. apply (H t f eq_refl). now apply parse_floatvalue_literal.
Qed.

(** "$1,234.56" is 1234.56 and "4.50" is 4.5.  The text "1e3" is read as
    the literal 1e3, and the price "１２.５０" in fullwidth digits as the
    literal 12.50.  The texts "N/A", "1.2.3" and the empty text are no
    literals, and have no price. *)
Lemma parse_price_of_text_witness :
  well_formed_price "1,234" (Some "56")
  /\ parse_price (PStr "$1,234.56")
     = Ok (Some (Float64.of_decimal false 123456 (-2)))
  /\ well_formed_price "4" (Some "50")
  /\ parse_price (PStr "4.50") = Ok (Some (S754_finite false 5066549580791808 (-50)))
  /\ (float_text "1e3" = Some "1e3"
      /\ float_literal "1e3" (Float64.of_decimal false 1000 0))
  /\ (float_text "$１２.５０" = Some "12.50"
      /\ float_literal "12.50" (Float64.of_decimal false 125 (-1)))
  /\ parse_price (PStr "N/A") = Ok None
  /\ parse_price (PStr "1.2.3") = Ok None
  /\ parse_price (PStr "") = Ok None
  /\ forall f, ~ float_literal "1.2.3" f.
Proof.
  assert (H1 : well_formed_price "1,234" (Some "56")).
  { repeat split; try reflexivity; discriminate. }
  assert (H2 : well_formed_price "4" (Some "50")).
  { repeat split; try reflexivity; discriminate. }
  destruct parse_price_of_text as (Hpattern & Hsome & Hnone & _).
  split; [exact H1|].
  split; [exact (Hpattern true "1,234" (Some "56") H1)|].
  split; [exact H2|].
  split; [exact (Hpattern false "4" (Some "50") H2)|].
  split.
  { destruct (proj1 (Hsome "1e3" (Float64.of_decimal false 1000 0)) eq_refl)
      as (t & Ht & Hlit).
    vm_compute in Ht. injection Ht as <-. split; [reflexivity | exact Hlit]. }
  split.
  { destruct (proj1 (Hsome "$１２.５０" (Float64.of_decimal false 125 (-1)))
                eq_refl) as (t & Ht & Hlit).
    vm_compute in Ht. injection Ht as <-. split; [reflexivity | exact Hlit]. }
  split; [reflexivity|]. split; [reflexivity|]. split; [reflexivity|].
  intros f. exact (proj1 (Hnone "1.2.3") eq_refl "1.2.3" f eq_refl).
Defined.

(** C4, as stated, fails.  The texts "1e3", "-5" and "nan" are not of the
    form [\$?\d+(\.\d+)?] and [parse_price] returns a float for each of
    them: 1000.0, -5.0 and NaN.  And the float returned for "0.1" is
    7205759403792794 / 2^56, which is not one tenth. *)
Lemma parse_price_accepts_more_than_the_pattern :
  ~ price_pattern "1e3"
  /\ parse_price (PStr "1e3") = Ok (Some (Float64.of_decimal false 1000 0))
  /\ ~ price_pattern "-5"
  /\ parse_price (PStr "-5") = Ok (Some (Float64.of_decimal true 5 0))
  /\ ~ price_pattern "nan"
  /\ parse_price (PStr "nan") = Ok (Some Float64.nan)
  /\ price_pattern "0.1"
  /\ parse_price (PStr "0.1") = Ok (Some (S754_finite false 7205759403792794 (-56)))
  /\ 7205759403792794 * 10 <> 2 ^ 56.
Proof.
  assert (Hno : forall s,
             Text.all_chars
               (fun c => digit_or_comma c || Ascii.eqb c "$" || Ascii.eqb c ".") s
             = false -> ~ price_pattern s).
  { intros s Hs Hp. apply price_pattern_chars in Hp. rewrite Hp in Hs. discriminate. }
  split; [now apply Hno|]. split; [reflexivity|].
  split; [now apply Hno|]. split; [reflexivity|].
  split; [now apply Hno|]. split; [reflexivity|].
  split.
  - exists false, "0", (Some "1"). split; [|reflexivity].
    repeat split; try reflexivity; discriminate.
  - split; [reflexivity | discriminate].
Qed.

(* ------------------------------------------------------------------ *)
(** ** Float differences *)

Lemma sub_self (x : float) :
  Float64.sub x x = S754_nan \/ exists s, Float64.sub x x = S754_zero s.
Proof.
  destruct x as [s| s | |s m e]; unfold Float64.sub; simpl.
  - right. destruct s; simpl; eauto.
  - left. now destruct s.
  - now left.
  - right. exists false. rewrite Z.min_id.
    rewrite Z.sub_diag. reflexivity.
Qed.

Lemma diff_of_equal_totals (x : float) :
  diff_status (Float64.sub x x) = "same price"
  /\ diff_color (Float64.sub x x) = "black"
  /\ Float64.ltb tolerance (Float64.abs (Float64.sub x x)) = false.
Proof.
  destruct (sub_self x) as [->|[s ->]]; [|destruct s]; repeat split; reflexivity.
Qed.

(* ------------------------------------------------------------------ *)
(** ** The loops, the store and the table *)




Lemma well_stored_set (k : string) (v : value) (d : dict) :
  k <> "online_price" -> well_stored d -> well_stored (dict_set k v d).
Proof.
  intros Hk. unfold well_stored. rewrite dict_get_set_other; auto.
Qed.

(** What one turn of the loop writes into the item. *)
Lemma process_item_written (E : env) (ts : string) (cur cur' : aggregate)
  (item item' : dict) (st st' : store) :
  process_item E ts cur item st = (Ok (cur', item'), st') ->
  dict_has "online_price" item' = true
  /\ dict_has "is_assumed_price" item' = true
  /\ dict_has "online_details" item' = true
  /\ dict_has "url" item' = true
  /\ well_stored item'.
Proof.
  intros Hitem.
  destruct (parse_price_total (price_text_of item)) as [paid Hp].
  destruct (get_online_grocery_price_perplexity (cfg E)
              (perplexity E (List.length (lookups st))) (name_of item))
    as [info|e] eqn:Hl.
  - rewrite (process_item_ok E ts cur item st paid info Hp Hl) in Hitem.
    unfold fold_lookup in Hitem.
    destruct (lookup_status info), (price info), paid;
      injection Hitem as <- <- <-; unfold dict_has, well_stored;
      dict_simpl; repeat split; reflexivity.
  - rewrite (process_item_raise E ts cur item st e Hl) in Hitem. discriminate.
Qed.

(** Each extracted item and the item stored for it. *)
Lemma process_items_stored_from (E : env) (ts : string) (items : list dict) :
  forall (cur cur' : aggregate) (stored : list dict) (st st' : store),
  process_items E ts cur (tag_items ts items) st = (Ok (cur', stored), st') ->
  Forall2 (stored_from ts) items stored /\ Forall well_stored stored.
Proof.
  induction items as [|item items IH]; intros cur cur' stored st st'; simpl.
  - unfold ret. intros [= <- <- <-]. split; constructor.
  - unfold bindM at 1.
    destruct (process_item E ts cur _ st) as [[[c i]|e] s] eqn:Hitem; [|discriminate].
    unfold bindM.
    destruct (process_items E ts c (tag_items ts items) s)
      as [[[c1 p1]|e1] s1] eqn:Hrest; [|discriminate].
    unfold ret. intros [= <- <- <-].
    destruct (IH _ _ _ _ _ Hrest) as [IH1 IH2].
    destruct (process_item_written _ _ _ _ _ _ _ _ Hitem) as (H1 & H2 & H3 & H4 & H5).
    split; constructor; auto.
    unfold stored_from. repeat split; auto.
    + unfold tagged.
      rewrite (process_item_fields E ts cur c _ i st s "receipt_timestamp" Hitem);
        [apply dict_get_set_same | discriminate..].
    + intros k Hk.
      rewrite (process_item_fields E ts cur c _ i st s k Hitem).
      * apply dict_get_set_other. intros ->. apply Hk. now left.
      * intros ->. apply Hk. right. now left.
      * intros ->. apply Hk. right. right. now left.
      * intros ->. apply Hk. right. right. right. now left.
      * intros ->. apply Hk. right. right. right. now right.
Qed.

Lemma Forall2_length_eq {A B : Type} (R : A -> B -> Prop) (l : list A) (l' : list B) :
  Forall2 R l l' -> List.length l = List.length l'.
Proof. induction 1; simpl; congruence. Qed.

(** The second loop goes through on items whose stored online price is a
    float, [None] or absent. *)
Lemma add_previous_item_total (all : aggregate) (item : dict) :
  well_stored item -> exists all', add_previous_item all item = Ok all'.
Proof.
  unfold well_stored, add_previous_item. intros Hw.
  destruct (parse_price_total (price_text_of item)) as [paid ->]. simpl.
  unfold dict_has, dict_get_none, dict_get_default.
  destruct (dict_get "online_price" item) as [[| | |f| | |]|]; try contradiction; simpl.
  - destruct paid; simpl; eauto.
  - destruct (truthy _); simpl; eauto.
  - destruct paid; simpl; eauto.
Qed.

Lemma add_previous_items_total (items : list dict) :
  forall all, Forall well_stored items ->
  exists all', add_previous_items all items = Ok all'.
Proof.
  induction items as [|item items IH]; intros all Hall; simpl; [eauto|].
  inversion Hall as [|? ? Hitem Hrest]; subst.
  destruct (add_previous_item_total all item Hitem) as [all1 ->]. simpl.
  now apply IH.
Qed.

Lemma existing_items_Forall (P : dict -> Prop) (ts : string) (inventory : list dict) :
  Forall P inventory ->
  Forall P (existing_items_from_previous_receipts ts inventory).
Proof.
  unfold existing_items_from_previous_receipts. rewrite !Forall_forall.
  intros H x Hx. apply filter_In in Hx. now apply H.
Qed.

Lemma cumulative_total (ts : string) (cur : aggregate) (inventory : list dict) :
  Forall well_stored inventory -> exists all, cumulative ts cur inventory = Ok all.
Proof.
  intros H. unfold cumulative. destruct inventory; [eauto|].
  apply add_previous_items_total. now apply existing_items_Forall.
Qed.

(** *** The table is never empty when the inventory is not *)






(** The aggregation either raises and leaves the store's summary as it
    was, or both loops and the formatter went through. *)
Lemma aggregate_receipt_cases (E : env) (ts : string) (items : list dict)
  (total : value) (st st' : store) (r : result (list dict)) :
  aggregate_receipt E ts items total st = (r, st') ->
  current_inventory_state st' = current_inventory_state st
  /\ ((exists e, r = Raise e /\ comparison_summary st' = comparison_summary st)
      \/ exists cur stored st1 all h,
           process_items E ts empty_aggregate items st = (Ok (cur, stored), st1)
           /\ cumulative ts cur (current_inventory_state st) = Ok all
           /\ format_comparison_summary (results cur) total
                (paid_total cur) (online_total cur)
                (found_count cur) (assumed_count cur)
                (results all) (paid_total all) (online_total all)
                (found_count all) (assumed_count all) = Ok h
           /\ r = Ok stored
           /\ comparison_summary st' = h).
Proof.
  unfold aggregate_receipt. unfold bindM at 1.
  destruct (process_items E ts empty_aggregate items st) as [[[cur new]|e] s] eqn:Hloop.
  - pose proof (process_items_store _ _ _ _ _ _ _ Hloop) as (Hi & Hs & _).
    unfold bindM, get_inventory, lift, set_summary, ret. rewrite Hi.
    destruct (cumulative ts cur (current_inventory_state st)) as [all|e] eqn:Hall;
      [|intros [= <- <-]; split; [exact Hi | left; eauto]].
    destruct (format_comparison_summary _ _ _ _ _ _ _ _ _ _ _) as [h|e] eqn:Hh;
      intros [= <- <-]; simpl; (split; [reflexivity || exact Hi|]).
    + right. exists cur, new, s, all, h. repeat split; assumption.
    + left. eauto.
  - pose proof (process_items_store _ _ _ _ _ _ _ Hloop) as (Hi & Hs & _).
    intros [= <- <-]. split; [exact Hi | left; eauto].
Qed.

(** The two outcomes of a call, as far as the inventory and the summary
    go: nothing changes and the summary is empty, or both loops and the
    formatter went through and the new items are stored. *)
Lemma process_receipt_cases (E : env) (picture : image) (inventory : list dict) :
  let ts := Datetime.isoformat (now E) in
  let out := fst (process_receipt E (Some picture) inventory) in
  (inventory_state out = inventory /\ summary out = []
   /\ table out = from_records_columns inventory COLUMNS_ORDER)
  \/ exists item items total cur stored st all h,
       extract E = Ok (item :: items, total)
       /\ process_items E ts empty_aggregate (tag_items ts (item :: items))
            (initial_store inventory) = (Ok (cur, stored), st)
       /\ cumulative ts cur inventory = Ok all
       /\ format_comparison_summary (results cur) total
            (paid_total cur) (online_total cur) (found_count cur) (assumed_count cur)
            (results all) (paid_total all) (online_total all)
            (found_count all) (assumed_count all) = Ok h
       /\ inventory_state out = (inventory ++ stored)%list
       /\ summary out = h.
Proof.
  intros ts out. unfold out, process_receipt. fold ts.
  destruct (process_receipt_try E ts (initial_store inventory)) as [r s0] eqn:Htry.
  destruct (extract E) as [[items total]|e] eqn:Hx.
  - destruct items as [|item items].
    + left. revert Htry. unfold process_receipt_try, bindM, lift. rewrite Hx.
      simpl. unfold ret. intros [= <- <-]. now repeat split.
    + rewrite (process_receipt_try_items E ts _ item items total Hx) in Htry.
      unfold bindM at 1 in Htry.
      destruct (aggregate_receipt E ts (tag_items ts (item :: items)) total
                  (initial_store inventory)) as [r1 s] eqn:Hagg.
      apply aggregate_receipt_cases in Hagg.
      destruct Hagg as (Hi & [(e & -> & Hs)
                             |(cur & stored & st1 & all & h & H1 & H2 & H3 & -> & H4)]).
      * injection Htry as <- <-. simpl in Hi, Hs. left. simpl. rewrite Hi.
        repeat split; assumption.
      * simpl in Hi, H2. right. exists item, items, total, cur, stored, st1, all, h.
        repeat (split; [assumption|]).
        revert Htry. unfold bindM, extend_inventory, prepare_outputs, bindM, lift.
        destruct (output_failure E); intros [= <- <-]; simpl; rewrite Hi; now split.
  - left. revert Htry. unfold process_receipt_try, bindM, lift. rewrite Hx.
    intros [= <- <-]. now repeat split.
Qed.

(** *** Counts *)

Lemma counts_ok_step (found assumed found' assumed' : Z) (n : nat) :
  0 <= found /\ 0 <= assumed /\ found + assumed <= Z.of_nat n ->
  (found' = found /\ assumed' = assumed
   \/ found' = found + 1 /\ assumed' = assumed
   \/ found' = found /\ assumed' = assumed + 1) ->
  0 <= found' /\ 0 <= assumed' /\ found' + assumed' <= Z.of_nat (n + 1).
Proof. lia. Qed.

Lemma process_item_counts (E : env) (ts : string) (cur cur' : aggregate)
  (item item' : dict) (st st' : store) :
  process_item E ts cur item st = (Ok (cur', item'), st') ->
  counts_ok cur ->
  counts_ok cur' /\ List.length (results cur') = S (List.length (results cur)).
Proof.
  intros Hitem Hc.
  destruct (parse_price_total (price_text_of item)) as [paid Hp].
  destruct (get_online_grocery_price_perplexity (cfg E)
              (perplexity E (List.length (lookups st))) (name_of item))
    as [info|e] eqn:Hl.
  - rewrite (process_item_ok E ts cur item st paid info Hp Hl) in Hitem.
    unfold fold_lookup in Hitem. unfold counts_ok in *.
    destruct (lookup_status info), (price info), paid;
      injection Hitem as <- <- <-; simpl; rewrite length_app; simpl;
      (split; [apply (counts_ok_step (found_count cur) (assumed_count cur)); auto
              | lia]).
  - rewrite (process_item_raise E ts cur item st e Hl) in Hitem. discriminate.
Qed.

Lemma process_items_counts (E : env) (ts : string) (items : list dict) :
  forall (cur cur' : aggregate) (stored : list dict) (st st' : store),
  process_items E ts cur items st = (Ok (cur', stored), st') ->
  counts_ok cur ->
  counts_ok cur'
  /\ List.length (results cur') = (List.length (results cur) + List.length items)%nat.
Proof.
  induction items as [|item items IH]; intros cur cur' stored st st'; simpl.
  - unfold ret. intros [= <- <- <-] H. split; [exact H | lia].
  - unfold bindM at 1.
    destruct (process_item E ts cur item st) as [[[c i]|e] s] eqn:Hitem; [|discriminate].
    unfold bindM.
    destruct (process_items E ts c items s) as [[[c1 p1]|e1] s1] eqn:Hrest;
      [|discriminate].
    unfold ret. intros [= <- <- <-] H.
    destruct (process_item_counts _ _ _ _ _ _ _ _ Hitem H) as [H1 H2].
    destruct (IH _ _ _ _ _ Hrest H1) as [H3 H4].
    split; [exact H3 | lia].
Qed.

Lemma add_previous_item_counts (all all' : aggregate) (item : dict) :
  add_previous_item all item = Ok all' ->
  counts_ok all ->
  counts_ok all' /\ List.length (results all') = S (List.length (results all)).
Proof.
  unfold add_previous_item, counts_ok.
  destruct (parse_price_total (price_text_of item)) as [paid ->]. simpl.
  destruct (dict_has "online_price" item
            && negb (is_none (dict_get_none "online_price" item))).
  - destruct (float_add _ _) as [x|e]; [|discriminate]. simpl.
    destruct (truthy _); simpl; intros [= <-] H; simpl; rewrite length_app; simpl;
      (split; [apply (counts_ok_step (found_count all) (assumed_count all)); auto
              | lia]).
  - destruct paid; simpl; intros [= <-] H; simpl; rewrite length_app; simpl;
      (split; [apply (counts_ok_step (found_count all) (assumed_count all)); auto
              | lia]).
Qed.

Lemma add_previous_items_counts (items : list dict) :
  forall all all',
  add_previous_items all items = Ok all' ->
  counts_ok all ->
  counts_ok all'
  /\ List.length (results all') = (List.length (results all) + List.length items)%nat.
Proof.
  induction items as [|item items IH]; intros all all'; simpl.
  - intros [= <-] H. split; [exact H | lia].
  - destruct (add_previous_item all item) as [all1|e] eqn:H1; [|discriminate]. simpl.
    intros H2 H. destruct (add_previous_item_counts _ _ _ H1 H) as [H3 H4].
    destruct (IH _ _ H2 H3) as [H5 H6]. split; [exact H5 | lia].
Qed.

Lemma cumulative_counts (ts : string) (cur all : aggregate) (inventory : list dict) :
  cumulative ts cur inventory = Ok all ->
  counts_ok cur ->
  counts_ok all
  /\ List.length (results all)
     = (List.length (results cur)
        + List.length (existing_items_from_previous_receipts ts inventory))%nat.
Proof.
  unfold cumulative. destruct inventory as [|d l].
  - intros [= <-] H. split; [exact H | simpl; lia].
  - apply add_previous_items_counts.
Qed.

Lemma counts_ok_empty : counts_ok empty_aggregate.
Proof. unfold counts_ok. simpl. lia. Qed.

(** What a summary is made of. *)
Lemma summary_members
  (current_items : list dict) (total_str : value)
  (cur_paid cur_online : float) (cur_found cur_assumed : Z)
  (all_items : list dict) (all_paid all_online : float)
  (all_found all_assumed : Z) (h : html) (seg : segment) :
  Forall details_is_text current_items ->
  format_comparison_summary current_items total_str cur_paid cur_online
    cur_found cur_assumed all_items all_paid all_online all_found all_assumed = Ok h ->
  In seg h ->
  seg = LatestReceipt cur_paid
  \/ ((0 <? cur_found) || (0 <? cur_assumed) = true
      /\ seg = OnlineTotal (cur_found + cur_assumed) (List.length current_items)
                 (assumption_note cur_assumed) cur_online
                 (diff_color (Float64.sub cur_paid cur_online))
                 (Float64.abs (Float64.sub cur_paid cur_online))
                 (diff_status (Float64.sub cur_paid cur_online)))
  \/ ((0 <? cur_found) || (0 <? cur_assumed) = false /\ seg = OnlineTotalNA)
  \/ (shows_cumulative all_items current_items all_paid cur_paid = true
      /\ (seg = AllReceipts all_paid
          \/ ((0 <? all_found) || (0 <? all_assumed) = true
              /\ seg = AllOnlineTotal (all_found + all_assumed) (List.length all_items)
                         (assumption_note all_assumed) all_online
                         (diff_color (Float64.sub all_paid all_online))
                         (Float64.abs (Float64.sub all_paid all_online))
                         (diff_status (Float64.sub all_paid all_online)))
          \/ ((0 <? all_found) || (0 <? all_assumed) = false
              /\ seg = AllOnlineTotalNA)))
  \/ seg = CloseDiv
  \/ (current_items <> []
      /\ (seg = CurrentItems (List.length current_items) \/ is_item_row seg)).
Proof.
  intros Hd Hh Hin.
  destruct (format_comparison_summary_shape current_items total_str cur_paid
              cur_online cur_found cur_assumed all_items all_paid all_online
              all_found all_assumed Hd) as (rows & Hrows & Heq).
  rewrite Heq in Hh. injection Hh as <-. clear Heq.
  destruct Hin as [Hin|[Hin|Hin]]; [left; now rewrite Hin | |].
  - subst seg.
    destruct (_ || _); [right; left; now split | right; right; left; now split].
  - apply in_app_iff in Hin. destruct Hin as [Hin|Hin].
    + destruct (shows_cumulative _ _ _ _).
      * destruct Hin as [Hin|[Hin|[Hin|[]]]]; subst seg.
        -- right. right. right. left. split; [reflexivity|]. now left.
        -- right. right. right. left. split; [reflexivity|]. right.
           destruct (_ || _); [left; now split | right; now split].
        -- right. right. right. right. now left.
      * destruct Hin as [Hin|[]]. subst seg. right. right. right. right. now left.
    + apply in_app_iff in Hin. destruct Hin as [Hin|[Hin|[]]];
        [|subst seg; right; right; right; right; now left].
      destruct current_items as [|res rest]; [contradiction|].
      destruct Hin as [Hin|Hin].
      * subst seg. do 5 right. split; [discriminate | now left].
      * apply in_app_iff in Hin. destruct Hin as [Hin|[Hin|[]]].
        -- do 5 right. split; [discriminate|]. right.
           now apply (item_row_not_block rows).
        -- subst seg. right. right. right. right. now left.
Qed.

(* ------------------------------------------------------------------ *)
(** ** Further paths of [process_receipt] *)

(** X1.  When the extraction yields no item and its total is not an error
    text, [process_receipt] reports "No items found in receipt." in place
    of the total, returns the inventory as it is, looks nothing up and
    leaves the summary empty. *)
Theorem no_items_found_is_reported (E : env) (picture : image)
  (inventory : list dict) (total : value) :
  extract E = Ok ([], total) ->
  is_error_total total = false ->
  process_receipt E (Some picture) inventory
  = ({| table := from_records_columns inventory COLUMNS_ORDER;
        total_text := PStr "No items found in receipt.";
        file_output := None;
        inventory_state := inventory;
        summary := [] |}, []).
Proof.
  intros Hx Herr.
  unfold process_receipt, process_receipt_try, bindM, lift.
  rewrite Hx. simpl. now rewrite Herr.
Qed.

Lemma no_items_found_is_reported_witness :
  extract Scenarios.empty_receipt = Ok ([], PStr "$0.00")
  /\ is_error_total (PStr "$0.00") = false
  /\ total_text
       (fst (process_receipt Scenarios.empty_receipt (Some Picture)
               [Samples.stored_milk]))
     = PStr "No items found in receipt."
  /\ inventory_state
       (fst (process_receipt Scenarios.empty_receipt (Some Picture)
               [Samples.stored_milk]))
     = [Samples.stored_milk].
Proof.
  split; [reflexivity|]. split; [reflexivity|].
  rewrite (no_items_found_is_reported Scenarios.empty_receipt Picture
             [Samples.stored_milk] (PStr "$0.00") eq_refl eq_refl).
  split; reflexivity.
Defined.



Lemma extracted_items_of (E : env) (items : list dict) (total : value) :
  extract E = Ok (items, total) -> extracted_items E = items.
Proof. unfold extracted_items. now intros ->. Qed.

Lemma tag_items_length (ts : string) (items : list dict) :
  List.length (tag_items ts items) = List.length items.
Proof. apply length_map. Qed.

Lemma assumption_note_some (assumed a : Z) :
  assumption_note assumed = Some a -> a = assumed /\ 0 < a.
Proof.
  unfold assumption_note. destruct (0 <? assumed) eqn:H; [|discriminate].
  intros [= <-]. apply Z.ltb_lt in H. now split.
Qed.

Lemma shown_counts (found assumed : Z) (n : nat) :
  0 <= found /\ 0 <= assumed /\ found + assumed <= Z.of_nat n ->
  (0 <? found) || (0 <? assumed) = true ->
  0 < found + assumed <= Z.of_nat n
  /\ forall a, assumption_note assumed = Some a -> 0 < a <= found + assumed.
Proof.
  intros H Hs. apply orb_true_iff in Hs. rewrite !Z.ltb_lt in Hs.
  split; [lia|]. intros a Ha. apply assumption_note_some in Ha. lia.
Qed.

(** X3.  In every summary [process_receipt] returns, the number of items
    compared of a block (found online plus assumed) is positive and at
    most the number of items of the block, and the number in the note on
    assumed prices is positive and at most the number compared.  The items
    of the current block are the extracted items; those of the cumulative
    block are the extracted items and the stored items of other batches. *)
Theorem compared_items_are_counted (E : env) (receipt_image : option image)
  (inventory : list dict) :
  let ts := Datetime.isoformat (now E) in
  let h := summary (fst (process_receipt E receipt_image inventory)) in
  (forall c n note o col d s,
      In (OnlineTotal c n note o col d s) h ->
      0 < c <= Z.of_nat n
      /\ n = List.length (extracted_items E)
      /\ (forall a, note = Some a -> 0 < a <= c))
  /\ (forall c n note o col d s,
        In (AllOnlineTotal c n note o col d s) h ->
        0 < c <= Z.of_nat n
        /\ n = (List.length (extracted_items E)
                + List.length (existing_items_from_previous_receipts ts inventory))%nat
        /\ (forall a, note = Some a -> 0 < a <= c)).
Proof.
  intros ts h.
  destruct receipt_image as [picture|]; [|split; intros; contradiction].
  destruct (process_receipt_cases E picture inventory)
    as [(_ & Hs & _)|(item & items & total & cur & stored & st & all & h' & Hx & Hloop
                & Hall & Hh & _ & Hs)];
    unfold h; rewrite Hs; [split; intros; contradiction|].
  pose proof (process_items_results _ _ _ _ _ _ _ _ Hloop (Forall_nil _)) as Hd.
  destruct (process_items_counts _ _ _ _ _ _ _ _ Hloop counts_ok_empty) as [Hc Hn].
  destruct (cumulative_counts _ _ _ _ Hall Hc) as [Hc' Hn'].
  rewrite tag_items_length in Hn. simpl in Hn.
  rewrite (extracted_items_of E _ _ Hx).
  split; intros c n note o col d s Hin;
    apply (summary_members _ _ _ _ _ _ _ _ _ _ _ _ _ Hd Hh) in Hin;
    destruct Hin as [Hin|[[Hb Hin]|[[_ Hin]|[[_ [Hin|[[Hb Hin]|[_ Hin]]]]|[Hin|[_ [Hin|[]]]]]]]];
    try discriminate Hin; injection Hin as -> -> -> _ _ _ _.
  - destruct (shown_counts _ _ _ Hc Hb) as [H1 H2].
    split; [exact H1|]. split; [simpl; lia | exact H2].
  - destruct (shown_counts _ _ _ Hc' Hb) as [H1 H2].
    split; [exact H1|]. split; [simpl; unfold ts; lia | exact H2].
Qed.

Lemma compared_items_are_counted_witness :
  In (OnlineTotal 2 2 (Some 2) (Float64.of_decimal false 2 (-1)) "black"
        Float64.zero "same price")
    (summary (fst (process_receipt Samples.two_dimes (Some Picture) [])))
  /\ 0 < 2 <= Z.of_nat 2
  /\ 2%nat = List.length (extracted_items Samples.two_dimes).
Proof.
  assert (Hin : In (OnlineTotal 2 2 (Some 2) (Float64.of_decimal false 2 (-1)) "black"
                      Float64.zero "same price")
                  (summary (fst (process_receipt Samples.two_dimes (Some Picture) [])))).
  { vm_compute. tauto. }
  split; [exact Hin|].
  destruct (proj1 (compared_items_are_counted Samples.two_dimes (Some Picture) [])
              _ _ _ _ _ _ _ Hin) as (H1 & H2 & _).
  split; assumption.
Defined.

(** *** No price service *)

Lemma process_item_no_service (E : env) (ts : string) (cur cur' : aggregate)
  (item item' : dict) (st st' : store) :
  PERPLEXITY_API_KEY (cfg E) = false ->
  process_item E ts cur item st = (Ok (cur', item'), st') ->
  found_count cur = 0 -> online_total cur = paid_total cur ->
  found_count cur' = 0 /\ online_total cur' = paid_total cur'.
Proof.
  intros Hkey Hitem Hf Ho.
  destruct (parse_price_total (price_text_of item)) as [paid Hp].
  assert (Hl : get_online_grocery_price_perplexity (cfg E)
                 (perplexity E (List.length (lookups st))) (name_of item)
               = Ok {| lookup_status := error; price := None;
                       details := "Perplexity API Key not configured.";
                       url := PNone |}).
  { unfold get_online_grocery_price_perplexity. now rewrite Hkey. }
  rewrite (process_item_ok E ts cur item st paid _ Hp Hl) in Hitem.
  unfold fold_lookup in Hitem. simpl in Hitem.
  destruct paid; injection Hitem as <- <- <-; simpl; rewrite Ho; now split.
Qed.

Lemma process_items_no_service (E : env) (ts : string) (items : list dict) :
  PERPLEXITY_API_KEY (cfg E) = false ->
  forall (cur cur' : aggregate) (stored : list dict) (st st' : store),
  process_items E ts cur items st = (Ok (cur', stored), st') ->
  found_count cur = 0 -> online_total cur = paid_total cur ->
  found_count cur' = 0 /\ online_total cur' = paid_total cur'.
Proof.
  intros Hkey.
  induction items as [|item items IH]; intros cur cur' stored st st'; simpl.
  - unfold ret. intros [= <- <- <-] H1 H2. now split.
  - unfold bindM at 1.
    destruct (process_item E ts cur item st) as [[[c i]|e] s] eqn:Hitem; [|discriminate].
    unfold bindM.
    destruct (process_items E ts c items s) as [[[c1 p1]|e1] s1] eqn:Hrest;
      [|discriminate].
    unfold ret. intros [= <- <- <-] H1 H2.
    destruct (process_item_no_service _ _ _ _ _ _ _ _ Hkey Hitem H1 H2) as [H3 H4].
    exact (IH _ _ _ _ _ Hrest H3 H4).
Qed.

(** X4.  With no key for the price service, every item whose paid price can be
    read is assumed to cost online what was paid.  The summary of the
    current receipt then shows an online total equal to the receipt total,
    says that all the compared items were assumed, and labels the
    difference "same price", in black. *)
Theorem no_price_service_shows_same_price (E : env) (picture : image)
  (inventory : list dict) :
  PERPLEXITY_API_KEY (cfg E) = false ->
  let h := summary (fst (process_receipt E (Some picture) inventory)) in
  forall c n note o col d s,
    In (OnlineTotal c n note o col d s) h ->
    note = Some c /\ In (LatestReceipt o) h /\ col = "black" /\ s = "same price".
Proof.
  intros Hkey h.
  destruct (process_receipt_cases E picture inventory)
    as [(_ & Hs & _)|(item & items & total & cur & stored & st & all & h' & Hx & Hloop
                & Hall & Hh & _ & Hs)];
    unfold h; rewrite Hs; [intros; contradiction|].
  pose proof (process_items_results _ _ _ _ _ _ _ _ Hloop (Forall_nil _)) as Hd.
  destruct (process_items_no_service E _ _ Hkey _ _ _ _ _ Hloop eq_refl eq_refl)
    as [Hf Ho].
  assert (Hlatest : In (LatestReceipt (paid_total cur)) h').
  { destruct (format_comparison_summary_shape (results cur) total (paid_total cur)
                (online_total cur) (found_count cur) (assumed_count cur) (results all)
                (paid_total all) (online_total all) (found_count all)
                (assumed_count all) Hd) as (rows & _ & Heq).
    rewrite Heq in Hh. injection Hh as <-. now left. }
  intros c n note o col d s Hin.
  apply (summary_members _ _ _ _ _ _ _ _ _ _ _ _ _ Hd Hh) in Hin.
  destruct Hin as [Hin|[[Hb Hin]|[[_ Hin]|[[_ [Hin|[[_ Hin]|[_ Hin]]]]|[Hin|[_ [Hin|[]]]]]]]];
    try discriminate Hin. injection Hin as -> -> -> -> -> -> ->.
  rewrite Hf in Hb |- *. simpl in Hb. rewrite Ho.
  destruct (diff_of_equal_totals (paid_total cur)) as (H1 & H2 & _).
  split; [|split; [exact Hlatest | split; assumption]].
  unfold assumption_note. now rewrite Hb.
Qed.

Lemma no_price_service_shows_same_price_witness :
  PERPLEXITY_API_KEY (cfg Samples.two_dimes) = false
  /\ In (OnlineTotal 2 2 (Some 2) (Float64.of_decimal false 2 (-1)) "black"
           Float64.zero "same price")
       (summary (fst (process_receipt Samples.two_dimes (Some Picture) [])))
  /\ In (LatestReceipt (Float64.of_decimal false 2 (-1)))
       (summary (fst (process_receipt Samples.two_dimes (Some Picture) []))).
Proof.
  split; [reflexivity|].
  assert (Hin : In (OnlineTotal 2 2 (Some 2) (Float64.of_decimal false 2 (-1)) "black"
                      Float64.zero "same price")
                  (summary (fst (process_receipt Samples.two_dimes (Some Picture) [])))).
  { vm_compute. tauto. }
  split; [exact Hin|].
  exact (proj1 (proj2 (no_price_service_shows_same_price Samples.two_dimes Picture []
                         eq_refl _ _ _ _ _ _ _ Hin))).
Defined.

(** *** A name that is not a text *)








(** *** A single batch *)

Lemma cumulative_single_batch (ts : string) (cur : aggregate) (inventory : list dict) :
  existing_items_from_previous_receipts ts inventory = [] ->
  cumulative ts cur inventory = Ok cur.
Proof.
  unfold cumulative. intros H. destruct inventory; [reflexivity|]. now rewrite H.
Qed.

(** X6.  When the inventory holds no item of another batch (it is empty, on
    the first receipt of a session), the summary has no cumulative block:
    neither the paid total of all receipts nor an online total of all
    receipts is shown. *)
Theorem single_batch_hides_cumulative_block (E : env) (picture : image)
  (inventory : list dict) (seg : segment) :
  existing_items_from_previous_receipts (Datetime.isoformat (now E)) inventory = [] ->
  In seg (summary (fst (process_receipt E (Some picture) inventory))) ->
  (forall paid, seg <> AllReceipts paid)
  /\ (forall c n note o col d s, seg <> AllOnlineTotal c n note o col d s)
  /\ seg <> AllOnlineTotalNA.
Proof.
  intros Hprev.
  destruct (process_receipt_cases E picture inventory)
    as [(_ & Hs & _)|(item & items & total & cur & stored & st & all & h' & Hx & Hloop
                & Hall & Hh & _ & Hs)];
    rewrite Hs; [intros []|].
  pose proof (process_items_results _ _ _ _ _ _ _ _ Hloop (Forall_nil _)) as Hd.
  rewrite (cumulative_single_batch _ cur inventory Hprev) in Hall.
  injection Hall as <-.
  assert (Hshow : shows_cumulative (results cur) (results cur) (paid_total cur)
                    (paid_total cur) = false).
  { unfold shows_cumulative. rewrite Nat.ltb_irrefl.
    now destruct (diff_of_equal_totals (paid_total cur)) as (_ & _ & ->). }
  intros Hin.
  apply (summary_members _ _ _ _ _ _ _ _ _ _ _ _ _ Hd Hh) in Hin.
  rewrite Hshow in Hin.
  destruct Hin as [Hin|[[_ Hin]|[[_ Hin]|[[Hb _]|[Hin|[_ [Hin|Hin]]]]]]];
    try discriminate Hb; try (subst seg; repeat split; intros; discriminate).
  destruct seg; try contradiction. repeat split; intros; discriminate.
Qed.

Lemma single_batch_hides_cumulative_block_witness :
  existing_items_from_previous_receipts
    (Datetime.isoformat (now Samples.receipt_A)) [] = []
  /\ In (LatestReceipt (Samples.dollars 400))
       (summary (fst (process_receipt Samples.receipt_A (Some Picture) [])))
  /\ LatestReceipt (Samples.dollars 400) <> AllOnlineTotalNA.
Proof.
  split; [reflexivity|].
  assert (Hin : In (LatestReceipt (Samples.dollars 400))
                  (summary (fst (process_receipt Samples.receipt_A (Some Picture) [])))).
  { vm_compute. tauto. }
  split; [exact Hin|].
  exact (proj2 (proj2 (single_batch_hides_cumulative_block Samples.receipt_A Picture []
                         _ eq_refl Hin))).
Defined.

(** *** The rows of the tables *)

Lemma dict_has_false (k : string) (d : dict) :
  dict_has k d = false -> dict_get k d = None.
Proof. unfold dict_has. now destruct (dict_get k d). Qed.

Lemma blank_rows (inventory : list dict) :
  Forall no_label_key inventory ->
  from_records_columns inventory COLUMNS_ORDER
  = {| columns := COLUMNS_ORDER; rows := map blank_row inventory |}.
Proof.
  intros H. unfold from_records_columns. f_equal.
  apply map_ext_in. intros d Hd. rewrite Forall_forall in H.
  destruct (H d Hd) as (H1 & H2 & H3).
  unfold row_of, blank_row. simpl.
  now rewrite (dict_has_false _ _ H1), (dict_has_false _ _ H2), (dict_has_false _ _ H3).
Qed.

(** X7.  When a call with a picture returns an empty summary, it has stopped
    before the summary was computed: the extraction yielded no item or an
    error text, or an exception was raised by the extraction, a lookup,
    the totals or the formatter.  The table returned on these paths
    (lines 46, 49 and 201) is built from the stored items with the three
    capitalised labels as columns: as the stored items have no such keys,
    it has a row for each of them and every cell is empty.  The inventory
    itself is returned as it was. *)
Theorem stopped_call_shows_blank_rows (E : env) (picture : image)
  (inventory : list dict) :
  let out := fst (process_receipt E (Some picture) inventory) in
  Forall no_label_key inventory ->
  summary out = [] ->
  table out = {| columns := COLUMNS_ORDER; rows := map blank_row inventory |}
  /\ inventory_state out = inventory.
Proof.
  intros out Hkeys Hempty. unfold out in *.
  destruct (process_receipt_cases E picture inventory)
    as [(Hi & _ & Ht)|(item & items & total & cur & stored & st & all & h' & Hx & Hloop
                & Hall & Hh & _ & Hs)].
  - rewrite Ht, Hi. split; [now apply blank_rows | reflexivity].
  - exfalso.
    pose proof (process_items_results _ _ _ _ _ _ _ _ Hloop (Forall_nil _)) as Hd.
    destruct (format_comparison_summary_shape (results cur) total (paid_total cur)
                (online_total cur) (found_count cur) (assumed_count cur) (results all)
                (paid_total all) (online_total all) (found_count all)
                (assumed_count all) Hd) as (rows & _ & Heq).
    rewrite Heq in Hh. injection Hh as <-. rewrite Hs in Hempty. discriminate.
Qed.

Lemma stopped_call_shows_blank_rows_witness :
  Forall no_label_key [Samples.stored_milk]
  /\ summary (fst (process_receipt Samples.bad_json (Some Picture)
                     [Samples.stored_milk])) = []
  /\ table (fst (process_receipt Samples.bad_json (Some Picture)
                   [Samples.stored_milk]))
     = {| columns := ["Item"; "Price Paid"; "Predicted Expiry Date"];
          rows := [[None; None; None]] |}.
Proof.
  assert (H : Forall no_label_key [Samples.stored_milk]).
  { constructor; [repeat split | constructor]. }
  split; [exact H|]. split; [reflexivity|].
  exact (proj1 (stopped_call_shows_blank_rows Samples.bad_json Picture
                  [Samples.stored_milk] H eq_refl)).
Defined.

(** *** The table of a call that goes through *)

Lemma add_keys_In (ks : list string) :
  forall seen c, In c (add_keys seen ks) -> In c seen \/ In c ks.
Proof.
  induction ks as [|k ks IH]; intros seen c; simpl; [now left|].
  intros H. apply IH in H. destruct H as [H|H]; [|right; now right].
  destruct (mem k seen); [now left|].
  apply in_app_iff in H. destruct H as [H|[<-|[]]]; [now left | right; now left].
Qed.

Lemma union_keys_In (records : list dict) :
  forall seen c,
  In c (union_keys seen records) ->
  In c seen \/ exists d, In d records /\ In c (dict_keys d).
Proof.
  induction records as [|d records IH]; intros seen c; simpl; [now left|].
  intros H. apply IH in H. destruct H as [H|(d' & Hd & Hc)].
  - apply add_keys_In in H. destruct H as [H|H]; [now left|].
    right. exists d. split; [now left | exact H].
  - right. exists d'. split; [now right | exact Hc].
Qed.

Lemma add_keys_NoDup (ks : list string) :
  forall seen, NoDup seen -> NoDup (add_keys seen ks).
Proof.
  induction ks as [|k ks IH]; intros seen H; simpl; [exact H|].
  apply IH. destruct (mem k seen) eqn:Hm; [exact H|].
  apply NoDup_app; [exact H | repeat constructor; intros [] |].
  intros x Hx [<-|[]]. apply mem_true_iff in Hx. congruence.
Qed.

Lemma union_keys_NoDup (records : list dict) :
  forall seen, NoDup seen -> NoDup (union_keys seen records).
Proof.
  induction records as [|d records IH]; intros seen H; simpl; [exact H|].
  apply IH. now apply add_keys_NoDup.
Qed.

Lemma key_has (k : string) (d : dict) :
  In k (dict_keys d) -> dict_has k d = true.
Proof.
  unfold dict_has, dict_keys.
  induction d as [|[k0 v0] d IH]; simpl; [contradiction|].
  intros [<-|H]; [now rewrite String.eqb_refl|].
  destruct (String.eqb k k0); [reflexivity | now apply IH].
Qed.

Lemma pick_map {A : Type} (label : string) (rl : string -> string)
  (f : string -> A) (K : list string) :
  pick label (map rl K) (map f K)
  = map f (filter (fun c => String.eqb (rl c) label) K).
Proof.
  induction K as [|c K IH]; simpl; [reflexivity|].
  destruct (String.eqb (rl c) label); simpl; now rewrite IH.
Qed.

Lemma filter_none (p : string -> bool) (K : list string) :
  (forall c, In c K -> p c = false) -> filter p K = [].
Proof.
  induction K as [|c K IH]; intros H; simpl; [reflexivity|].
  rewrite (H c (or_introl eq_refl)). apply IH. intros c' Hc'. apply H. now right.
Qed.

Lemma filter_unique (p : string -> bool) (x : string) (K : list string) :
  NoDup K -> In x K -> p x = true ->
  (forall c, In c K -> p c = true -> c = x) ->
  filter p K = [x].
Proof.
  induction K as [|c K IH]; intros Hnd Hin Hx Huniq; [contradiction|].
  inversion Hnd as [|? ? Hc Hnd']; subst. simpl.
  destruct Hin as [->|Hin].
  - rewrite Hx. f_equal. apply filter_none. intros c Hin.
    destruct (p c) eqn:Hpc; [|reflexivity].
    exfalso. apply Hc. now rewrite <- (Huniq c (or_intror Hin) Hpc).
  - destruct (p c) eqn:Hpc.
    + exfalso. apply Hc. now rewrite (Huniq c (or_introl eq_refl) Hpc).
    + apply IH; auto. intros c' Hc' Hp. apply Huniq; [now right | exact Hp].
Qed.

Lemma rename_label_source (c label lower : string) :
  In (lower, label) rename_map ->
  String.eqb (rename_label rename_map c) label = true ->
  c = lower \/ c = label.
Proof.
  unfold rename_label, rename_map. cbn [find fst snd].
  intros Hin H.
  destruct (String.eqb_spec "item" c) as [<-|H1]; cbn [snd] in H.
  - apply String.eqb_eq in H. subst label.
    destruct Hin as [[= <-]|[[= <- ?]|[[= <- ?]|[]]]]; try discriminate. now left.
  - destruct (String.eqb_spec "price_paid" c) as [<-|H2]; cbn [snd] in H.
    + apply String.eqb_eq in H. subst label.
      destruct Hin as [[= ? ?]|[[= <-]|[[= <- ?]|[]]]]; try discriminate. now left.
    + destruct (String.eqb_spec "predicted_expiry" c) as [<-|H3]; cbn [snd] in H.
      * apply String.eqb_eq in H. subst label.
        destruct Hin as [[= ? ?]|[[= ? ?]|[[= <-]|[]]]]; try discriminate. now left.
      * apply String.eqb_eq in H. now right.
Qed.

Lemma pick_renamed {A : Type} (K : list string) (f : string -> A)
  (lower label : string) :
  In (lower, label) rename_map ->
  NoDup K -> In lower K -> ~ In label K ->
  pick label (map (rename_label rename_map) K) (map f K) = [f lower].
Proof.
  intros Hin Hnd Hl Hnot. rewrite pick_map.
  rewrite (filter_unique _ lower K Hnd Hl); [reflexivity| |].
  - destruct Hin as [[= <- <-]|[[= <- <-]|[[= <- <-]|[]]]]; reflexivity.
  - intros c Hc Hp.
    destruct (rename_label_source c label lower Hin Hp) as [->| ->];
      [reflexivity | contradiction].
Qed.

Lemma text_fields_present (item : dict) :
  text_fields item -> has_item_fields item.
Proof.
  intros (name & price_paid & expiry & H1 & H2 & H3).
  unfold has_item_fields, dict_has. now rewrite H1, H2, H3.
Qed.

(** X8.  The table of a call that goes through (lines 164 to 180) has the
    three columns Item, Price Paid and Predicted Expiry Date, and one row
    for each item of the inventory, in order, holding the item's name,
    its paid price as extracted and its predicted expiry date.  This holds
    for inventories whose items have a text in each of these three
    fields, so that pandas keeps the values of the three columns as they
    are, and none of the three labels as a key. *)
Theorem table_shows_the_inventory (inventory : list dict) :
  Forall text_fields inventory ->
  Forall no_label_key inventory ->
  full_table inventory
  = {| columns := COLUMNS_ORDER; rows := map shown_row inventory |}.
Proof.
  destruct inventory as [|d records]; [reflexivity|].
  intros Ht Hk.
  assert (Hf : Forall has_item_fields (d :: records)).
  { revert Ht. apply Forall_impl. exact text_fields_present. }
  inversion Hf as [|? ? (Hi & Hp & He) _]; subst.
  unfold full_table.
  rewrite (add_missing_present "item")
    by (now apply from_records_has_column).
  rewrite (add_missing_present "price_paid")
    by (now apply from_records_has_column).
  rewrite (add_missing_present "predicted_expiry")
    by (now apply from_records_has_column).
  unfold select, rename, from_records, from_records_columns.
  cbn [columns rows].
  set (K := union_keys [] (d :: records)).
  assert (Hnd : NoDup K) by (apply union_keys_NoDup; constructor).
  assert (Hin : forall k, dict_has k d = true -> In k K).
  { intros k Hkd. unfold K. simpl.
    apply union_keys_keeps, add_keys_adds. now apply dict_has_key. }
  assert (Hnot : forall k,
             (forall x, no_label_key x -> dict_has k x = false) -> ~ In k K).
  { intros k Hno Hk'. apply union_keys_In in Hk'.
    destruct Hk' as [[]|(x & Hx & Hkx)].
    rewrite Forall_forall in Hk. apply key_has in Hkx.
    rewrite (Hno x (Hk x Hx)) in Hkx. discriminate. }
  assert (N1 : ~ In "Item" K) by (apply Hnot; now intros x (H & _ & _)).
  assert (N2 : ~ In "Price Paid" K) by (apply Hnot; now intros x (_ & H & _)).
  assert (N3 : ~ In "Predicted Expiry Date" K)
    by (apply Hnot; now intros x (_ & _ & H)).
  assert (R1 : In ("item", "Item") rename_map) by (now left).
  assert (R2 : In ("price_paid", "Price Paid") rename_map) by (right; now left).
  assert (R3 : In ("predicted_expiry", "Predicted Expiry Date") rename_map)
    by (right; right; now left).
  f_equal.
  - unfold COLUMNS_ORDER. cbn [flat_map].
    rewrite (pick_renamed K _ _ _ R1 Hnd (Hin _ Hi) N1).
    rewrite (pick_renamed K _ _ _ R2 Hnd (Hin _ Hp) N2).
    rewrite (pick_renamed K _ _ _ R3 Hnd (Hin _ He) N3).
    reflexivity.
  - rewrite map_map. apply map_ext. intros x.
    unfold COLUMNS_ORDER, row_of. cbn [flat_map].
    rewrite (pick_renamed K _ _ _ R1 Hnd (Hin _ Hi) N1).
    rewrite (pick_renamed K _ _ _ R2 Hnd (Hin _ Hp) N2).
    rewrite (pick_renamed K _ _ _ R3 Hnd (Hin _ He) N3).
    reflexivity.
Qed.

Lemma table_shows_the_inventory_witness :
  Forall text_fields [Samples.stored_milk]
  /\ Forall no_label_key [Samples.stored_milk]
  /\ full_table [Samples.stored_milk]
     = {| columns := ["Item"; "Price Paid"; "Predicted Expiry Date"];
          rows := [[Some (PStr "Milk"); Some (PStr "$4.00");
                    Some (PStr "2026-11-13")]] |}.
Proof.
  assert (H1 : Forall text_fields [Samples.stored_milk]).
  { constructor; [|constructor].
    exists "Milk", "$4.00", "2026-11-13". repeat split. }
  assert (H2 : Forall no_label_key [Samples.stored_milk]).
  { constructor; [repeat split | constructor]. }
  split; [exact H1|]. split; [exact H2|].
  exact (table_shows_the_inventory [Samples.stored_milk] H1 H2).
Defined.

(* ------------------------------------------------------------------ *)
(** ** The summary formatter *)

(** *** The rows of the summary *)

Lemma item_row_for (res : dict) :
  details_is_text res -> exists seg, item_row res = Ok seg /\ row_for res seg.
Proof.
  intros (text & Ht). unfold item_row, row_for. rewrite Ht. simpl.
  eexists. split; [|exists text; split; reflexivity].
  unfold row_color. destruct (Text.contains "Not Found" text); reflexivity.
Qed.

Lemma item_rows_for (current_items : list dict) :
  Forall details_is_text current_items ->
  exists rows, item_rows current_items = Ok rows /\ Forall2 row_for current_items rows.
Proof.
  induction 1 as [|res rest Hres _ IH]; simpl.
  - exists []. split; [reflexivity | constructor].
  - destruct (item_row_for res Hres) as (seg & -> & Hseg).
    destruct IH as (rows & -> & Hrows). simpl.
    exists (seg :: rows). split; [reflexivity | now constructor].
Qed.

(** X9.  The summary lists the items of the current receipt, and only in the
    block that follows the totals: when there is no current item the
    summary has no item block at all; otherwise it ends with the heading
    of the block (with the number of items), one row for each item, in
    order, and the two closing tags.  A row shows the name, the paid price
    and the online details of its item, with a link when the item has a
    URL that is not empty; the details are coloured #999 when they contain
    "Not Found", #666 when they contain "Assumed same", and left uncoloured
    otherwise. *)
Theorem summary_lists_current_items
  (current_items : list dict) (total_str : value)
  (cur_paid cur_online : float) (cur_found cur_assumed : Z)
  (all_items : list dict) (all_paid all_online : float)
  (all_found all_assumed : Z) :
  Forall details_is_text current_items ->
  exists h,
    format_comparison_summary current_items total_str cur_paid cur_online
      cur_found cur_assumed all_items all_paid all_online all_found all_assumed
    = Ok h
    /\ (current_items = [] ->
        forall seg, In seg h ->
                    is_item_row_b seg = false /\ forall n, seg <> CurrentItems n)
    /\ (current_items <> [] ->
        exists totals rows,
          h = (totals ++ CurrentItems (List.length current_items)
                 :: rows ++ [CloseDiv; CloseDiv])%list
          /\ Forall2 row_for current_items rows
          /\ Forall (fun seg => is_item_row_b seg = false
                                /\ forall n, seg <> CurrentItems n) totals).
Proof.
  intros Hd.
  destruct (item_rows_for current_items Hd) as (rows & Hrows & Hfor).
  unfold format_comparison_summary.
  set (online_block :=
         if (0 <? cur_found) || (0 <? cur_assumed) then
           OnlineTotal (cur_found + cur_assumed) (List.length current_items)
             (assumption_note cur_assumed) cur_online
             (diff_color (Float64.sub cur_paid cur_online))
             (Float64.abs (Float64.sub cur_paid cur_online))
             (diff_status (Float64.sub cur_paid cur_online))
         else OnlineTotalNA).
  set (all_block :=
         if (0 <? all_found) || (0 <? all_assumed) then
           AllOnlineTotal (all_found + all_assumed) (List.length all_items)
             (assumption_note all_assumed) all_online
             (diff_color (Float64.sub all_paid all_online))
             (Float64.abs (Float64.sub all_paid all_online))
             (diff_status (Float64.sub all_paid all_online))
         else AllOnlineTotalNA).
  set (totals :=
         ([LatestReceipt cur_paid; online_block]
          ++ (if shows_cumulative all_items current_items all_paid cur_paid
              then [AllReceipts all_paid; all_block; CloseDiv]
              else [CloseDiv]))%list).
  assert (Htotals : Forall (fun seg => is_item_row_b seg = false
                                       /\ forall n, seg <> CurrentItems n) totals).
  { unfold totals, online_block, all_block.
    destruct ((0 <? cur_found) || (0 <? cur_assumed)),
      (shows_cumulative all_items current_items all_paid cur_paid),
      ((0 <? all_found) || (0 <? all_assumed)); simpl;
      repeat constructor; discriminate. }
  destruct current_items as [|res rest].
  - exists (totals ++ [CloseDiv])%list. split; [|split].
    + unfold totals, online_block, all_block.
      destruct ((0 <? cur_found) || (0 <? cur_assumed)),
        (shows_cumulative all_items [] all_paid cur_paid),
        ((0 <? all_found) || (0 <? all_assumed)); reflexivity.
    + intros _ seg Hin. apply in_app_iff in Hin.
      destruct Hin as [Hin|[<-|[]]]; [|split; [reflexivity | discriminate]].
      rewrite Forall_forall in Htotals. now apply Htotals.
    + intros H. now contradiction H.
  - rewrite Hrows.
    exists (totals ++ CurrentItems (List.length (res :: rest))
              :: rows ++ [CloseDiv; CloseDiv])%list.
    split; [|split].
    + unfold totals, online_block, all_block.
      destruct ((0 <? cur_found) || (0 <? cur_assumed)),
        (shows_cumulative all_items (res :: rest) all_paid cur_paid),
        ((0 <? all_found) || (0 <? all_assumed)); simpl;
        rewrite <- ?app_assoc; reflexivity.
    + discriminate.
    + intros _. exists totals, rows. repeat split; assumption.
Qed.

Lemma summary_lists_current_items_witness :
  Forall details_is_text [Samples.milk_line]
  /\ exists h totals rows,
       format_comparison_summary [Samples.milk_line] (PStr "$10.00")
         (Samples.dollars 1000) (Samples.dollars 950) 1 0
         [Samples.milk_line] (Samples.dollars 1000) (Samples.dollars 950) 1 0 = Ok h
       /\ h = (totals ++ CurrentItems 1 :: rows ++ [CloseDiv; CloseDiv])%list
       /\ Forall2 row_for [Samples.milk_line] rows.
Proof.
  assert (Hd : Forall details_is_text [Samples.milk_line]).
  { constructor; [|constructor]. eexists. reflexivity. }
  split; [exact Hd|].
  destruct (summary_lists_current_items [Samples.milk_line] (PStr "$10.00")
              (Samples.dollars 1000) (Samples.dollars 950) 1 0
              [Samples.milk_line] (Samples.dollars 1000) (Samples.dollars 950) 1 0 Hd)
    as (h & Hh & _ & Hrows).
  destruct Hrows as (totals & rows & H1 & H2 & _); [discriminate|].
  exists h, totals, rows. repeat split; assumption.
Defined.

(** *** What the formatter does not use *)

(** X10.  The formatter never shows the total text it is given, and of the
    line results of all receipts it uses only their number: two calls that
    differ in nothing else return the same summary.  The receipt total a
    summary opens with is the paid total computed from the items, whatever
    total was read off the receipt. *)
Theorem summary_uses_only_the_number_of_all_items
  (current_items : list dict) (total_str total_str' : value)
  (cur_paid cur_online : float) (cur_found cur_assumed : Z)
  (all_items all_items' : list dict) (all_paid all_online : float)
  (all_found all_assumed : Z) :
  List.length all_items = List.length all_items' ->
  format_comparison_summary current_items total_str cur_paid cur_online
    cur_found cur_assumed all_items all_paid all_online all_found all_assumed
  = format_comparison_summary current_items total_str' cur_paid cur_online
      cur_found cur_assumed all_items' all_paid all_online all_found all_assumed
  /\ forall h,
       format_comparison_summary current_items total_str cur_paid cur_online
         cur_found cur_assumed all_items all_paid all_online all_found all_assumed
       = Ok h ->
       exists rest, h = LatestReceipt cur_paid :: rest.
Proof.
  intros Hlen. split.
  - unfold format_comparison_summary, shows_cumulative. now rewrite Hlen.
  - intros h. unfold format_comparison_summary.
    destruct ((0 <? cur_found) || (0 <? cur_assumed)),
      (shows_cumulative all_items current_items all_paid cur_paid),
      ((0 <? all_found) || (0 <? all_assumed));
      (destruct current_items as [|res rest];
       [|destruct (item_rows (res :: rest)) as [rows|e]; [|discriminate]]);
      simpl; intros [= <-]; eexists; reflexivity.
Qed.

Lemma summary_uses_only_the_number_of_all_items_witness :
  List.length [Samples.milk_line; Samples.milk_line]
  = List.length [Samples.stored_milk; @nil (string * value)]
  /\ format_comparison_summary [Samples.milk_line] (PStr "$10.00")
       (Samples.dollars 1000) (Samples.dollars 950) 1 0
       [Samples.milk_line; Samples.milk_line]
       (Samples.dollars 1400) (Samples.dollars 1300) 2 0
     = format_comparison_summary [Samples.milk_line] PNone
         (Samples.dollars 1000) (Samples.dollars 950) 1 0
         [Samples.stored_milk; []]
         (Samples.dollars 1400) (Samples.dollars 1300) 2 0.
Proof.
  split; [reflexivity|].
  exact (proj1 (summary_uses_only_the_number_of_all_items [Samples.milk_line]
                  (PStr "$10.00") PNone (Samples.dollars 1000) (Samples.dollars 950)
                  1 0 [Samples.milk_line; Samples.milk_line]
                  [Samples.stored_milk; []]
                  (Samples.dollars 1400) (Samples.dollars 1300) 2 0 eq_refl)).
Defined.

(** *** The online totals *)

Lemma color_of_status (d : float) :
  (diff_color d = "green" <-> diff_status d = "cheaper online")
  /\ (diff_color d = "red" <-> diff_status d = "cheaper in store")
  /\ (diff_color d = "black" <-> diff_status d = "same price").
Proof.
  unfold diff_color, diff_status.
  destruct (gt0 d), (lt0 d); repeat split; intros H;
    try reflexivity; discriminate H.
Qed.

(** X11.  The online total of the current receipt is shown exactly when an
    item was found online or assumed; otherwise the summary says N/A.
    When shown, it comes with the number of items compared (found plus
    assumed) out of the number of current items, the absolute difference
    to the receipt total, and a colour that goes with the label: green
    for "cheaper online", red for "cheaper in store", black for "same
    price".  A note on assumed prices is added exactly when an item was
    assumed. *)
Theorem summary_online_total
  (current_items : list dict) (total_str : value)
  (cur_paid cur_online : float) (cur_found cur_assumed : Z)
  (all_items : list dict) (all_paid all_online : float)
  (all_found all_assumed : Z) (h : html) :
  Forall details_is_text current_items ->
  format_comparison_summary current_items total_str cur_paid cur_online
    cur_found cur_assumed all_items all_paid all_online all_found all_assumed
  = Ok h ->
  (In OnlineTotalNA h <-> cur_found <= 0 /\ cur_assumed <= 0)
  /\ (forall c n note o col d s,
        In (OnlineTotal c n note o col d s) h ->
        (0 < cur_found \/ 0 < cur_assumed)
        /\ c = cur_found + cur_assumed
        /\ n = List.length current_items
        /\ o = cur_online
        /\ d = Float64.abs (Float64.sub cur_paid cur_online)
        /\ (note = if 0 <? cur_assumed then Some cur_assumed else None)
        /\ (col = "green" <-> s = "cheaper online")
        /\ (col = "red" <-> s = "cheaper in store")
        /\ (col = "black" <-> s = "same price")).
Proof.
  intros Hd Hh. split; [split|].
  - intros Hin.
    apply (summary_members _ _ _ _ _ _ _ _ _ _ _ _ _ Hd Hh) in Hin.
    destruct Hin as [Hin|[[_ Hin]|[[Hb _]|[[_ [Hin|[[_ Hin]|[_ Hin]]]]|[Hin|[_ [Hin|[]]]]]]]];
      try discriminate Hin.
    apply orb_false_iff in Hb. rewrite !Z.ltb_ge in Hb. exact Hb.
  - intros [H1 H2].
    destruct (format_comparison_summary_shape current_items total_str cur_paid
                cur_online cur_found cur_assumed all_items all_paid all_online
                all_found all_assumed Hd) as (rows & _ & Heq).
    rewrite Heq in Hh. injection Hh as <-.
    apply Z.ltb_ge in H1, H2. rewrite H1, H2. right. now left.
  - intros c n note o col d s Hin.
    apply (summary_members _ _ _ _ _ _ _ _ _ _ _ _ _ Hd Hh) in Hin.
    destruct Hin as [Hin|[[Hb Hin]|[[_ Hin]|[[_ [Hin|[[_ Hin]|[_ Hin]]]]|[Hin|[_ [Hin|[]]]]]]]];
      try discriminate Hin.
    injection Hin as -> -> -> -> -> -> ->.
    apply orb_true_iff in Hb. rewrite !Z.ltb_lt in Hb.
    repeat (split; [assumption || reflexivity|]).
    apply color_of_status.
Qed.

Lemma summary_online_total_witness :
  Forall details_is_text [Samples.milk_line]
  /\ exists h,
       format_comparison_summary [Samples.milk_line] (PStr "$10.00")
         (Samples.dollars 1000) (Samples.dollars 950) 1 0
         [Samples.milk_line] (Samples.dollars 1000) (Samples.dollars 950) 1 0 = Ok h
       /\ In (OnlineTotal 1 1 None (Samples.dollars 950) "green"
                (Float64.of_decimal false 5 (-1)) "cheaper online") h
       /\ ~ In OnlineTotalNA h.
Proof.
  assert (Hd : Forall details_is_text [Samples.milk_line]).
  { constructor; [|constructor]. eexists. reflexivity. }
  split; [exact Hd|].
  eexists. split; [vm_compute; reflexivity|].
  split; [vm_compute; tauto|].
  intros Hin.
  apply (proj1 (summary_online_total [Samples.milk_line] (PStr "$10.00")
                  (Samples.dollars 1000) (Samples.dollars 950) 1 0
                  [Samples.milk_line] (Samples.dollars 1000) (Samples.dollars 950) 1 0
                  _ Hd eq_refl)) in Hin.
  destruct Hin as [Hin _]. vm_compute in Hin. now apply Hin.
Defined.

(** *** The summaries of [process_receipt] *)






(* ------------------------------------------------------------------ *)
(** ** The vision adapter *)

(** *** The expiry date *)

(** X12.  For an item with the three keys whose days until expiry convert to an
    integer (an integer, a boolean, a finite float, which is truncated, or
    a text that denotes an integer) within the calendar, the adapter keeps
    the item, all its fields intact, and adds as its predicted expiry the
    ISO date that many days after today. *)
Theorem expiry_follows_days (today : Z) (d : dict) (days : Z) :
  Gemini.has_required_keys d = true ->
  int (dict_get_none "days_until_expiry" d) = Ok days ->
  Z.abs days <= 999999999 ->
  1 <= today + days <= Datetime.MAXORDINAL ->
  let v := Gemini.with_expiry (today + days) d in
  Gemini.validate_item today (PDict d) = Ok (Some v)
  /\ dict_get "predicted_expiry" v
     = Some (PStr (Datetime.date_isoformat (today + days)))
  /\ (forall k, k <> "predicted_expiry" -> dict_get k v = dict_get k d).
Proof.
  intros Hkeys Hint Habs Hrange v. split; [|split].
  - unfold Gemini.validate_item, Gemini.expiry_from_days.
    rewrite Hkeys, Hint. simpl.
    now rewrite (add_days_in_range today days Habs Hrange).
  - apply dict_get_set_same.
  - intros k Hk. now apply dict_get_set_other.
Qed.

Lemma expiry_follows_days_witness :
  Gemini.has_required_keys Scenarios.ten_days_item = true
  /\ int (dict_get_none "days_until_expiry" Scenarios.ten_days_item) = Ok 10
  /\ Gemini.validate_item 739923 (PDict Scenarios.ten_days_item)
     = Ok (Some [("item", PStr "Milk"); ("days_until_expiry", PInt 10);
                 ("price_paid", PStr "$4.00");
                 ("predicted_expiry", PStr "2026-11-13")]).
Proof.
  split; [reflexivity|]. split; [reflexivity|].
  refine (proj1 (expiry_follows_days 739923 Scenarios.ten_days_item 10
                   eq_refl eq_refl _ _)).
  - simpl. lia.
  - unfold Datetime.MAXORDINAL. lia.
Defined.

(** *** What the validation raises *)

Lemma int_raises (v : value) (e : exn) :
  int v = Raise e ->
  exn_cls e = ValueError \/ exn_cls e = TypeError
  \/ (exn_cls e = OverflowError /\ exists s, v = PFloat (S754_infinity s)).
Proof.
  destruct v as [|b|z|f|s|l|d]; simpl; try discriminate;
    try (intros [= <-]; simpl; auto; fail).
  - destruct f as [s|s| |s m x]; simpl; try discriminate;
      try (intros [= <-]; simpl; eauto; fail).
  - unfold int_of_str.
    destruct (drop_underscores _ _); [|intros [= <-]; simpl; auto].
    cbv zeta. destruct (4300 <? count_digits _); [intros [= <-]; simpl; auto|].
    destruct (parse_intvalue _); [discriminate | intros [= <-]; simpl; auto].
Qed.

Lemma add_days_raises (today days : Z) (e : exn) :
  Datetime.add_days today days = Raise e ->
  exn_cls e = OverflowError
  /\ ~ (Z.abs days <= 999999999 /\ 1 <= today + days <= Datetime.MAXORDINAL).
Proof.
  unfold Datetime.add_days.
  destruct ((days <? - 2147483648) || (2147483647 <? days)) eqn:H0.
  { intros [= <-]. apply orb_true_iff in H0. rewrite !Z.ltb_lt in H0.
    split; [reflexivity | lia]. }
  destruct (999999999 <? Z.abs days) eqn:H1.
  - intros [= <-]. apply Z.ltb_lt in H1. split; [reflexivity | lia].
  - destruct ((1 <=? today + days) && (today + days <=? Datetime.MAXORDINAL)) eqn:H2;
      [discriminate|].
    intros [= <-]. split; [reflexivity|].
    intros [_ H]. apply andb_false_iff in H2. rewrite !Z.leb_gt in H2. lia.
Qed.

Lemma expiry_from_days_raises (today : Z) (d : dict) (e : exn) :
  Gemini.expiry_from_days today d = Raise e ->
  exn_cls e = ValueError \/ exn_cls e = TypeError \/ exn_cls e = OverflowError.
Proof.
  unfold Gemini.expiry_from_days.
  destruct (int _) as [n|e0] eqn:Hint; simpl.
  - destruct (Datetime.add_days today n) as [m|e1] eqn:Hd; simpl; [discriminate|].
    intros [= <-]. right. right. now apply add_days_raises in Hd.
  - intros [= <-]. apply int_raises in Hint. tauto.
Qed.

Lemma validate_item_raises (today : Z) (item : value) (e : exn) :
  Gemini.validate_item today item = Raise e -> exn_cls e = OverflowError.
Proof.
  unfold Gemini.validate_item. destruct item as [| | | | | |d]; try discriminate.
  destruct (Gemini.has_required_keys d); [|discriminate].
  destruct (Gemini.expiry_from_days today d) as [v|e0] eqn:Hx; [discriminate|].
  apply expiry_from_days_raises in Hx.
  destruct (exn_cls e0) eqn:Hc;
    try (intros [= <-]; rewrite Hc; destruct Hx as [Hx|[Hx|Hx]]; congruence);
    (destruct (Datetime.add_days today 7) as [n|e1] eqn:Hd; simpl;
     [discriminate|]; intros [= <-]; now apply add_days_raises in Hd).
Qed.

Lemma validate_items_raise (today : Z) (item : value) (e : exn) (items : list value) :
  In item items ->
  Gemini.validate_item today item = Raise e ->
  exists e', Gemini.validate_items today items = Raise e'
             /\ exn_cls e' = OverflowError.
Proof.
  induction items as [|x items IH]; intros Hin Hitem; [contradiction|]. simpl.
  destruct (Gemini.validate_item today x) as [v|e0] eqn:Hx.
  - destruct Hin as [->|Hin]; [congruence|].
    destruct (IH Hin Hitem) as (e' & -> & He'). simpl. eauto.
  - simpl. exists e0. split; [reflexivity|]. now apply validate_item_raises in Hx.
Qed.

Lemma beyond_calendar_raises (today : Z) (d : dict) :
  Gemini.has_required_keys d = true ->
  beyond_calendar today (dict_get_none "days_until_expiry" d) ->
  exists e, Gemini.validate_item today (PDict d) = Raise e.
Proof.
  intros Hkeys Hdays. unfold Gemini.validate_item, Gemini.expiry_from_days.
  rewrite Hkeys. destruct Hdays as [[s ->]|(n & -> & Hn)]; simpl.
  - eauto.
  - destruct (Datetime.add_days today n) as [m|e] eqn:Hd.
    + exfalso. apply Hn. revert Hd. unfold Datetime.add_days.
      destruct ((n <? - 2147483648) || (2147483647 <? n)); [discriminate|].
      destruct (999999999 <? Z.abs n) eqn:H1; [discriminate|].
      destruct ((1 <=? today + n) && (today + n <=? Datetime.MAXORDINAL)) eqn:H2;
        [|discriminate].
      intros _. apply Z.ltb_ge in H1. apply andb_true_iff in H2.
      rewrite !Z.leb_le in H2. lia.
    + simpl. destruct (add_days_raises _ _ _ Hd) as [-> _]. eauto.
Qed.

(** X13.  One item whose days until expiry the calendar cannot take (an
    infinite float, an integer beyond 999999999 in magnitude, or one that
    leads past the year 9999) makes the adapter lose the whole receipt:
    the OverflowError is not among the exceptions caught for the item, so
    it reaches the handler of the call, which returns no item at all and
    an error text in place of the total. *)
Theorem days_beyond_calendar_drop_every_item (cfg : config) (today : Z)
  (response : dict) (items : list value) (d : dict) :
  GOOGLE_API_KEY cfg = true -> GEMINI_CLIENT_INITIALIZED cfg = true ->
  dict_get "items" response = Some (PList items) ->
  In (PDict d) items ->
  Gemini.has_required_keys d = true ->
  beyond_calendar today (dict_get_none "days_until_expiry" d) ->
  exists e,
    exn_cls e = OverflowError
    /\ Gemini.call_gemini_vision_api cfg today (Gemini.Json (PDict response))
       = Ok ([], PStr ("Error: AI API call failed (" ++ exn_msg e ++ ")")).
Proof.
  intros Hkey Hinit Hitems Hin Hkeys Hdays.
  destruct (beyond_calendar_raises today d Hkeys Hdays) as [e0 He0].
  destruct (validate_items_raise today _ e0 items Hin He0) as (e & He & Hcls).
  exists e. split; [exact Hcls|].
  unfold Gemini.call_gemini_vision_api, Gemini.validate_response.
  rewrite Hkey, Hinit. simpl.
  unfold dict_get_default at 1. rewrite Hitems, He. reflexivity.
Qed.

Lemma days_beyond_calendar_drop_every_item_witness :
  In (PDict Scenarios.everlasting_item)
    [PDict Scenarios.ten_days_item; PDict Scenarios.everlasting_item]
  /\ beyond_calendar 739923
       (dict_get_none "days_until_expiry" Scenarios.everlasting_item)
  /\ exists e,
       Gemini.call_gemini_vision_api Samples.keys_configured 739923
         Scenarios.milk_and_salt
       = Ok ([], PStr ("Error: AI API call failed (" ++ exn_msg e ++ ")")).
Proof.
  assert (H1 : In (PDict Scenarios.everlasting_item)
                 [PDict Scenarios.ten_days_item; PDict Scenarios.everlasting_item]).
  { right. now left. }
  assert (H2 : beyond_calendar 739923
                 (dict_get_none "days_until_expiry" Scenarios.everlasting_item)).
  { right. exists 10000000000. split; [reflexivity|]. simpl. lia. }
  split; [exact H1|]. split; [exact H2|].
  destruct (days_beyond_calendar_drop_every_item Samples.keys_configured 739923
              [("items", PList [PDict Scenarios.ten_days_item;
                                PDict Scenarios.everlasting_item]);
               ("total", PStr "$5.00")]
              _ Scenarios.everlasting_item eq_refl eq_refl eq_refl H1 eq_refl H2)
    as (e & _ & He).
  exists e. exact He.
Defined.

(** *** The items the adapter keeps *)

Lemma validate_item_kept (today : Z) (item : value) (v : dict) :
  Gemini.validate_item today item = Ok (Some v) ->
  exists d, item = PDict d /\ Gemini.has_required_keys d = true /\ dated d v.
Proof.
  unfold Gemini.validate_item. destruct item as [| | | | | |d]; try discriminate.
  destruct (Gemini.has_required_keys d) eqn:Hk; [|discriminate].
  intros H. exists d. split; [reflexivity|]. split; [exact Hk|].
  revert H. unfold Gemini.expiry_from_days.
  destruct (int _) as [n|e]; simpl.
  - destruct (Datetime.add_days today n) as [m|e]; simpl.
    + intros [= <-]. now exists m.
    + destruct (exn_cls e); try discriminate;
        (destruct (Datetime.add_days today 7) as [m|e1]; simpl; [|discriminate];
         intros [= <-]; now exists m).
  - destruct (exn_cls e); try discriminate;
      (destruct (Datetime.add_days today 7) as [m|e1]; simpl; [|discriminate];
       intros [= <-]; now exists m).
Qed.

Lemma validate_item_skipped (today : Z) (item : value) :
  Gemini.validate_item today item = Ok None -> accepted [item] = [].
Proof.
  unfold Gemini.validate_item, accepted.
  destruct item as [| | | | | |d]; try reflexivity. simpl.
  destruct (Gemini.has_required_keys d); [|reflexivity].
  destruct (Gemini.expiry_from_days today d) as [v|e]; [discriminate|].
  destruct (exn_cls e); try discriminate;
    (destruct (Datetime.add_days today 7); simpl; discriminate).
Qed.

(** X14.  When the validation goes through, the adapter returns one item for
    each object of the response that has the three keys item,
    days_until_expiry and price_paid, in the order of the response: that
    object with a predicted expiry date set.  Everything else in the list
    (objects that lack a key, and values that are not objects) is left
    out. *)
Theorem validated_items_are_the_accepted_ones (today : Z) (items : list value)
  (out : list dict) :
  Gemini.validate_items today items = Ok out ->
  Forall2 dated (accepted items) out.
Proof.
  revert out. induction items as [|item items IH]; intros out; simpl.
  - intros [= <-]. constructor.
  - destruct (Gemini.validate_item today item) as [[v|]|e] eqn:Hitem;
      [| |discriminate]; simpl;
      (destruct (Gemini.validate_items today items) as [rest|e];
       [|discriminate]); simpl; intros [= <-].
    + destruct (validate_item_kept _ _ _ Hitem) as (d & -> & Hk & Hd).
      rewrite Hk. simpl. constructor; [exact Hd | now apply IH].
    + apply validate_item_skipped in Hitem. unfold accepted in Hitem.
      simpl in Hitem. rewrite app_nil_r in Hitem. rewrite Hitem. simpl.
      now apply IH.
Qed.

Lemma validated_items_are_the_accepted_ones_witness :
  Gemini.validate_items 739923
    [PDict Scenarios.ten_days_item; Samples.no_days_item; PStr "Bread"]
  = Ok [Gemini.with_expiry 739933 Scenarios.ten_days_item]
  /\ Forall2 dated
       (accepted [PDict Scenarios.ten_days_item; Samples.no_days_item; PStr "Bread"])
       [Gemini.with_expiry 739933 Scenarios.ten_days_item]
  /\ accepted [PDict Scenarios.ten_days_item; Samples.no_days_item; PStr "Bread"]
     = [Scenarios.ten_days_item].
Proof.
  split; [reflexivity|]. split; [|reflexivity].
  exact (validated_items_are_the_accepted_ones 739923
           [PDict Scenarios.ten_days_item; Samples.no_days_item; PStr "Bread"]
           _ eq_refl).
Defined.

(** *** Failures of the extraction *)

(** X15.  When the call of the vision model fails, its text is not JSON, or the
    validation of the parsed value raises, the adapter returns no item and
    an error text; [process_receipt] then shows that text in place of the
    total, keeps the inventory as it is, asks no price and shows no
    summary. *)
Theorem extraction_failure_is_reported (E : env) (picture : image)
  (inventory : list dict) :
  GOOGLE_API_KEY (cfg E) = true -> GEMINI_CLIENT_INITIALIZED (cfg E) = true ->
  failed_reply (today E) (gemini_reply E) ->
  exists msg text,
    (text = "Error: Invalid JSON response from AI (" ++ msg ++ ")"
     \/ text = "Error: AI API call failed (" ++ msg ++ ")")
    /\ process_receipt E (Some picture) inventory
       = ({| table := from_records_columns inventory COLUMNS_ORDER;
             total_text := PStr text;
             file_output := None;
             inventory_state := inventory;
             summary := [] |}, []).
Proof.
  intros Hkey Hinit Hfail.
  assert (Hx : exists msg text,
             (text = "Error: Invalid JSON response from AI (" ++ msg ++ ")"
              \/ text = "Error: AI API call failed (" ++ msg ++ ")")
             /\ extract E = Ok ([], PStr text)).
  { unfold extract, Gemini.call_gemini_vision_api. rewrite Hkey, Hinit. simpl.
    destruct (gemini_reply E) as [e|json_err|data]; simpl in Hfail.
    - exists (exn_msg e). eexists. split; [right; reflexivity | reflexivity].
    - exists json_err. eexists. split; [left; reflexivity | reflexivity].
    - destruct Hfail as [e ->]. exists (exn_msg e). eexists.
      split; [right; reflexivity | reflexivity]. }
  destruct Hx as (msg & text & Htext & Hx). exists msg, text.
  split; [exact Htext|].
  assert (Herr : Text.contains "Error:" text = true).
  { destruct Htext as [-> | ->]; reflexivity. }
  unfold process_receipt, process_receipt_try, bindM, lift.
  rewrite Hx. simpl. now rewrite Herr.
Qed.

Lemma extraction_failure_is_reported_witness :
  failed_reply (today Scenarios.salt_receipt) (gemini_reply Scenarios.salt_receipt)
  /\ exists msg,
       process_receipt Scenarios.salt_receipt (Some Picture) [Samples.stored_milk]
       = ({| table := from_records_columns [Samples.stored_milk] COLUMNS_ORDER;
             total_text := PStr ("Error: AI API call failed (" ++ msg ++ ")");
             file_output := None;
             inventory_state := [Samples.stored_milk];
             summary := [] |}, []).
Proof.
  assert (H : failed_reply (today Scenarios.salt_receipt)
                (gemini_reply Scenarios.salt_receipt)).
  { eexists. vm_compute. reflexivity. }
  split; [exact H|].
  destruct (extraction_failure_is_reported Scenarios.salt_receipt Picture
              [Samples.stored_milk] eq_refl eq_refl H)
    as (msg & text & [Ht|Ht] & Hcall); subst text.
  - exfalso. vm_compute in Hcall. discriminate Hcall.
  - exists msg. exact Hcall.
Defined.

(** *** The mock *)

Lemma randint_range (r : Gemini.draws) (k : nat) (a b : Z) :
  a <= b -> a <= Gemini.randint r k a b <= b.
Proof.
  intros H. unfold Gemini.randint.
  pose proof (Z.mod_pos_bound (Gemini.draw_int r k) (b - a + 1)). lia.
Qed.

Lemma mock_items_of_catalog (r : Gemini.draws) (today : Z)
  (catalog : list (string * Z * Z)) :
  1 <= today -> today + 28 <= Datetime.MAXORDINAL ->
  Forall (fun '(_, lo, hi) => 0 <= lo <= hi /\ hi <= 28) catalog ->
  forall k, exists items,
    Gemini.mock_items r today k catalog = Ok items
    /\ Forall2 (mock_item_of today) catalog items.
Proof.
  intros H1 H2. induction 1 as [|[[name lo] hi] catalog [Hlo Hhi] _ IH]; intros k.
  - exists []. split; [reflexivity | constructor].
  - simpl.
    pose proof (randint_range r k lo hi (proj2 Hlo)) as Hr.
    rewrite add_days_in_range by lia. simpl.
    destruct (IH (S k)) as (items & -> & Hitems). simpl.
    eexists. split; [reflexivity|]. constructor; [|exact Hitems].
    exists (Gemini.randint r k lo hi), (Gemini.random_price r k).
    split; [exact Hr | reflexivity].
Qed.

Lemma mock_items_priced (today : Z) (catalog : list (string * Z * Z))
  (items : list dict) :
  Forall2 (mock_item_of today) catalog items ->
  forallb (dict_has "price_paid") items = true.
Proof.
  induction 1 as [|[[name lo] hi] item catalog items (days & price & _ & ->) _ IH];
    [reflexivity|].
  simpl. exact IH.
Qed.

(** X16.  With no key for the vision model, the extraction is the mock: on any
    day from which 28 days can be counted it returns the five items of the
    catalog, in order, each with a name, a price text and an expiry date
    within the shelf life of its entry, and a total text.  Every mock item
    has a price, so the price patch of lines 39 to 41 never changes
    anything: the result is that of the mock as it is. *)
Theorem mock_stands_in (E : env) :
  GOOGLE_API_KEY (cfg E) = false ->
  1 <= today E -> today E + 28 <= Datetime.MAXORDINAL ->
  exists items,
    extract E
    = Ok (items, PStr ("$" ++ Float64.format_2f (Gemini.draw_total (mock_random E))))
    /\ Gemini.mock_gemini_vision_processor (mock_random E) (today E) = extract E
    /\ Forall2 (mock_item_of (today E))
         [("Organic Milk", 7, 14); ("Artisan Bread", 2, 5); ("Avocado", 2, 4);
          ("Free-Range Eggs", 14, 28); ("Fresh Spinach", 3, 7)] items.
Proof.
  intros Hkey H1 H2.
  destruct (mock_items_of_catalog (mock_random E) (today E) Gemini.mock_catalog H1 H2)
    with (k := 0%nat) as (items & Hmock & Hitems).
  { unfold Gemini.mock_catalog. repeat constructor; lia. }
  exists items.
  assert (Hx : extract E
               = Ok (items,
                     PStr ("$" ++ Float64.format_2f
                                    (Gemini.draw_total (mock_random E))))).
  { unfold extract, Gemini.mock_gemini_vision_processor. rewrite Hkey, Hmock. simpl.
    now rewrite (mock_items_priced _ _ _ Hitems). }
  split; [exact Hx|]. split; [|exact Hitems].
  rewrite Hx. unfold Gemini.mock_gemini_vision_processor. now rewrite Hmock.
Qed.

Lemma mock_stands_in_witness :
  GOOGLE_API_KEY (cfg Scenarios.mock_run) = false
  /\ exists items,
       extract Scenarios.mock_run = Ok (items, PStr "$0.00")
       /\ List.length items = 5%nat.
Proof.
  split; [reflexivity|].
  destruct (mock_stands_in Scenarios.mock_run eq_refl) as (items & Hx & _ & Hitems).
  - simpl. lia.
  - simpl. unfold Datetime.MAXORDINAL. lia.
  - exists items. split; [exact Hx|].
    symmetry. exact (Forall2_length_eq _ _ _ Hitems).
Defined.

(** *** The settings the program starts with *)

Lemma mock_items_raise (r : Gemini.draws) (today : Z)
  (catalog : list (string * Z * Z)) :
  forall k e, Gemini.mock_items r today k catalog = Raise e ->
              exn_cls e = OverflowError.
Proof.
  induction catalog as [|[[name lo] hi] catalog IH]; intros k e; simpl; [discriminate|].
  destruct (Datetime.add_days today _) as [n|e0] eqn:Hd; simpl.
  - destruct (Gemini.mock_items r today (S k) catalog) as [items|e1] eqn:Hm; simpl;
      [discriminate|].
    intros [= <-]. now apply IH in Hm.
  - intros [= <-]. now apply add_days_raises in Hd.
Qed.

(** X17.  However the settings are loaded, the client counts as initialised
    exactly when the key of the vision model is kept: the key is set to
    [None] when the configuration of the client fails.  So the real
    adapter, which [process_receipt] only calls when the key is kept,
    never raises its "not configured" error, and returns a result for
    every reply.  The extraction can then only raise in the mock, on a day
    from which the shelf lives lead out of the calendar. *)
Theorem loaded_settings_never_block_the_adapter
  (gemini_api_key perplexity_api_key : option string) (configure_raises : bool) :
  let loaded :=
    Startup.load_config gemini_api_key perplexity_api_key configure_raises in
  GEMINI_CLIENT_INITIALIZED loaded = GOOGLE_API_KEY loaded
  /\ (GOOGLE_API_KEY loaded = true
      <-> Startup.is_set gemini_api_key = true /\ configure_raises = false)
  /\ PERPLEXITY_API_KEY loaded = Startup.is_set perplexity_api_key
  /\ (forall E, cfg E = loaded ->
        (GOOGLE_API_KEY loaded = true ->
         exists items total, extract E = Ok (items, total))
        /\ (forall e, extract E = Raise e ->
              GOOGLE_API_KEY loaded = false /\ exn_cls e = OverflowError)).
Proof.
  intros loaded.
  assert (Hsame : GEMINI_CLIENT_INITIALIZED loaded = GOOGLE_API_KEY loaded).
  { unfold loaded, Startup.load_config.
    destruct (Startup.is_set gemini_api_key), configure_raises; reflexivity. }
  split; [exact Hsame|]. split; [|split].
  - unfold loaded, Startup.load_config.
    destruct (Startup.is_set gemini_api_key), configure_raises; simpl;
      split; try tauto; try discriminate; intros [? ?]; discriminate.
  - unfold loaded, Startup.load_config.
    destruct (Startup.is_set gemini_api_key), configure_raises; reflexivity.
  - intros E HE.
    assert (Hreal : GOOGLE_API_KEY loaded = true ->
                    exists items total, extract E = Ok (items, total)).
    { intros Hkey. unfold extract, Gemini.call_gemini_vision_api.
      rewrite HE, Hsame, Hkey. simpl.
      destruct (gemini_reply E) as [e|json_err|data]; eauto.
      destruct (Gemini.validate_response (today E) data) as [[items total]|e]; eauto. }
    split; [exact Hreal|].
    intros e He. destruct (GOOGLE_API_KEY loaded) eqn:Hkey.
    + destruct (Hreal eq_refl) as (items & total & Hx). congruence.
    + split; [reflexivity|].
      revert He. unfold extract, Gemini.mock_gemini_vision_processor.
      rewrite HE, Hkey.
      destruct (Gemini.mock_items _ _ _ _) as [items|e0] eqn:Hm; simpl.
      * destruct (negb _); discriminate.
      * intros [= <-]. now apply mock_items_raise in Hm.
Qed.

Lemma loaded_settings_never_block_the_adapter_witness :
  cfg Samples.two_dimes = Startup.load_config (Some "AIza-key") None false
  /\ GOOGLE_API_KEY (Startup.load_config (Some "AIza-key") None false) = true
  /\ exists items total, extract Samples.two_dimes = Ok (items, total).
Proof.
  split; [reflexivity|]. split; [reflexivity|].
  exact (proj1 (proj2 (proj2 (proj2
           (loaded_settings_never_block_the_adapter (Some "AIza-key") None false)))
           Samples.two_dimes eq_refl) eq_refl).
Defined.

(* ------------------------------------------------------------------ *)
(** ** Printed prices *)

(** *** Printing a price and reading it back *)

Lemma digits_value_from_acc (d : Decimal.uint) :
  forall acc : positive,
  Text.digits_value_from (Z.pos acc) (NilEmpty.string_of_uint d)
  = Z.pos (Pos.of_uint_acc d acc).
Proof.
  induction d; intros acc;
    cbn [NilEmpty.string_of_uint Text.digits_value_from Pos.of_uint_acc];
    try reflexivity; rewrite <- IHd; f_equal;
    unfold Text.digit_value, Text.code; cbn [N_of_ascii N_of_digits];
    lia.
Qed.

Lemma digits_value_of_uint (d : Decimal.uint) :
  Text.digits_value_from 0 (NilEmpty.string_of_uint d) = Z.of_N (Pos.of_uint d).
Proof.
  induction d;
    cbn [NilEmpty.string_of_uint Text.digits_value_from Pos.of_uint Z.of_N];
    try reflexivity; try exact IHd;
    rewrite <- digits_value_from_acc; f_equal.
Qed.

Lemma digits_of_uint_are_digits (d : Decimal.uint) :
  Text.all_chars Text.is_digit (NilEmpty.string_of_uint d) = true.
Proof. induction d; simpl; try reflexivity; exact IHd. Qed.

Lemma string_of_uint_spec (d : Decimal.uint) :
  Text.all_chars Text.is_digit (NilZero.string_of_uint d) = true
  /\ NilZero.string_of_uint d <> ""
  /\ Text.digits_value_from 0 (NilZero.string_of_uint d) = Z.of_N (Pos.of_uint d).
Proof.
  unfold NilZero.string_of_uint.
  destruct d;
    (split; [apply digits_of_uint_are_digits || reflexivity|]);
    (split; [discriminate|]); apply digits_value_of_uint || reflexivity.
Qed.

Lemma digits_of_Z_spec (z : Z) :
  0 <= z ->
  Text.all_chars Text.is_digit (Float64.digits_of_Z z) = true
  /\ Float64.digits_of_Z z <> ""
  /\ Text.digits_value (Float64.digits_of_Z z) = z.
Proof.
  intros Hz. unfold Float64.digits_of_Z, Text.digits_value.
  destruct (string_of_uint_spec (N.to_uint (Z.to_N z))) as (H1 & H2 & H3).
  split; [exact H1|]. split; [exact H2|].
  rewrite H3. change (Pos.of_uint (N.to_uint (Z.to_N z)))
    with (N.of_uint (N.to_uint (Z.to_N z))).
  rewrite DecimalN.Unsigned.of_to. now apply Z2N.id.
Qed.

Lemma digits_value_from_app (a b : string) :
  forall acc,
  Text.digits_value_from acc (a ++ b)
  = Text.digits_value_from (Text.digits_value_from acc a) b.
Proof. induction a as [|c a IH]; intros acc; simpl; [reflexivity | apply IH]. Qed.

Lemma two_digits_spec (r : Z) :
  0 <= r < 100 ->
  Text.all_chars Text.is_digit (Float64.two_digits r) = true
  /\ String.length (Float64.two_digits r) = 2%nat
  /\ forall acc, Text.digits_value_from acc (Float64.two_digits r) = acc * 100 + r.
Proof.
  intros Hr.
  assert (Hn : exists n : nat, (n < 100)%nat /\ r = Z.of_nat n).
  { exists (Z.to_nat r). split; lia. }
  destruct Hn as (n & Hn & ->). clear Hr.
  do 100 (destruct n as [|n];
          [split; [reflexivity|]; split; [reflexivity|];
           intros acc; vm_compute Float64.two_digits;
           cbn [Text.digits_value_from]; unfold Text.digit_value, Text.code;
           cbn [N_of_ascii N_of_digits]; lia|]).
  lia.
Qed.

Lemma round_cents_nonneg (m : positive) (e : Z) : 0 <= Float64.round_cents m e.
Proof.
  unfold Float64.round_cents. destruct (0 <=? e) eqn:He.
  - apply Z.leb_le in He.
    assert (0 < 2 ^ e) by (apply Z.pow_pos_nonneg; lia). nia.
  - apply Z.leb_gt in He.
    assert (Hd : 0 < 2 ^ (- e)) by (apply Z.pow_pos_nonneg; lia).
    assert (Hq : 0 <= Z.pos m * 100 / 2 ^ (- e)) by (apply Z.div_pos; lia).
    destruct (2 * ((Z.pos m * 100) mod 2 ^ (- e)) ?= 2 ^ (- e));
      [destruct (Z.even _)| |]; lia.
Qed.

Lemma format_2f_read_back (m : positive) (e : Z) :
  parse_price (PStr ("$" ++ Float64.format_2f (S754_finite false m e)))
  = Ok (Some (Float64.of_decimal false (Float64.round_cents m e) (-2))).
Proof.
  unfold Float64.format_2f.
  set (c := Float64.round_cents m e).
  pose proof (round_cents_nonneg m e) as Hc. fold c in Hc.
  assert (Hq : 0 <= c / 100) by (apply Z.div_pos; lia).
  assert (Hr : 0 <= c mod 100 < 100) by (apply Z.mod_pos_bound; lia).
  destruct (digits_of_Z_spec (c / 100) Hq) as (Hi1 & Hi2 & Hi3).
  destruct (two_digits_spec (c mod 100) Hr) as (Hf1 & Hf2 & Hf3).
  set (ip := Float64.digits_of_Z (c / 100)) in *.
  set (fp := Float64.two_digits (c mod 100)) in *.
  assert (Hcomma : Text.remove_char "," ip = ip).
  { apply remove_char_absent. revert Hi1. apply all_chars_impl.
    intros a Ha. destruct a as [[] [] [] [] [] [] [] []]; try reflexivity; discriminate Ha. }
  assert (Hwf : well_formed_price ip (Some fp)).
  { split; [|split; [|split]].
    - revert Hi1. apply all_chars_impl. intros a Ha. unfold digit_or_comma.
      now rewrite Ha.
    - now rewrite Hcomma.
    - exact Hf1.
    - intros Hfp. rewrite Hfp in Hf2. discriminate. }
  change ("$" ++ ("" ++ ip ++ "." ++ fp)) with (price_text true ip (Some fp)).
  rewrite (parse_price_of_pattern true ip (Some fp) Hwf).
  unfold denoted_price, fraction_digits. rewrite Hcomma, Hf2.
  unfold Text.digits_value. rewrite digits_value_from_app.
  fold (Text.digits_value ip). rewrite Hi3, Hf3.
  do 3 f_equal. pose proof (Z.div_mod c 100). lia.
Qed.

(** X18.  A positive price printed with a dollar sign and two decimals, as the
    mock and the price patch print theirs, is read back by [parse_price]
    as the float nearest to the printed number, that is to the price
    rounded to cents (ties to even), and not in general as the price that
    was printed: the paid price of a mock item, of which only the text
    is kept, is the drawn price rounded to cents. *)
Theorem printed_price_is_read_back (m : positive) (e : Z) :
  parse_price (PStr ("$" ++ Float64.format_2f (S754_finite false m e)))
  = Ok (Some (Float64.of_decimal false (Float64.round_cents m e) (-2)))
  /\ forall (r : Gemini.draws) (k : nat),
       Gemini.draw_uniform r k = S754_finite false m e ->
       parse_price (PStr (Gemini.random_price r k))
       = Ok (Some (Float64.of_decimal false (Float64.round_cents m e) (-2))).
Proof.
  split; [apply format_2f_read_back|].
  intros r k Hdraw. unfold Gemini.random_price. rewrite Hdraw.
  apply format_2f_read_back.
Qed.

Lemma printed_price_is_read_back_witness :
  Gemini.draw_uniform Scenarios.odd_draws 0 = Float64.of_decimal false 2675 (-3)
  /\ Gemini.random_price Scenarios.odd_draws 0 = "$2.67"
  /\ parse_price (PStr (Gemini.random_price Scenarios.odd_draws 0))
     = Ok (Some (Float64.of_decimal false 267 (-2)))
  /\ Float64.of_decimal false 267 (-2) <> Float64.of_decimal false 2675 (-3).
Proof.
  split; [reflexivity|]. split; [reflexivity|]. split; [|vm_compute; discriminate].
  exact (proj2 (printed_price_is_read_back 6023564501608038 (-51))
           Scenarios.odd_draws 0%nat eq_refl).
Defined.

(* ------------------------------------------------------------------ *)
(** ** The application *)

(** *** Sessions *)

Lemma batch_ids_kept (E : env) (receipt_image : option image)
  (inventory : list dict) :
  Forall has_batch_id inventory ->
  Forall has_batch_id
    (inventory_state (fst (process_receipt E receipt_image inventory))).
Proof.
  intros Hinv. destruct receipt_image as [picture|]; [|exact Hinv].
  destruct (process_receipt_inventory E picture inventory) as (new_items & -> & Htag).
  apply Forall_app. split; [exact Hinv|].
  revert Htag. apply Forall_impl. intros item Hitem.
  exists (Datetime.isoformat (now E)). split; [exact Hitem | apply isoformat_nonempty].
Qed.

Lemma well_stored_kept (E : env) (receipt_image : option image)
  (inventory : list dict) :
  Forall well_stored inventory ->
  Forall well_stored
    (inventory_state (fst (process_receipt E receipt_image inventory))).
Proof.
  intros Hinv. destruct receipt_image as [picture|]; [|exact Hinv].
  destruct (process_receipt_cases E picture inventory)
    as [(-> & _ & _)|(item & items & total & cur & stored & st & all & h & _ & Hloop
                      & _ & _ & -> & _)]; [exact Hinv|].
  apply Forall_app. split; [exact Hinv|].
  now destruct (process_items_stored_from _ _ _ _ _ _ _ _ Hloop).
Qed.

Lemma step_keeps_well_formed (s : App.screen) (a : App.action) :
  well_formed_inventory (App.inventory_state s) ->
  well_formed_inventory (App.inventory_state (App.step s a)).
Proof.
  intros (H1 & H2 & H3). destruct a as [picture|E| |]; simpl.
  - repeat split; assumption.
  - repeat split;
      [now apply batch_ids_kept | now apply item_fields_invariant
       | now apply well_stored_kept].
  - repeat split; constructor.
  - repeat split; assumption.
Qed.

Lemma run_keeps_well_formed (actions : list App.action) :
  forall s, well_formed_inventory (App.inventory_state s) ->
            well_formed_inventory (App.inventory_state (App.run s actions)).
Proof.
  induction actions as [|a actions IH]; intros s Hs; [exact Hs|].
  simpl. apply IH. now apply step_keeps_well_formed.
Qed.

(** X19.  In a session that starts with an empty inventory, whatever the user
    does (uploading pictures, processing them, clearing, asking for another
    receipt) and whatever the two services answer, every item of the
    inventory carries a batch identifier that is not empty, has a name, a
    paid price and a predicted expiry date, and holds a float or nothing as
    its online price.  So the table of the inventory can always be built
    and the cumulative totals can always be computed. *)
Theorem session_keeps_the_inventory_well_formed (s : App.screen)
  (actions : list App.action) :
  App.inventory_state s = [] ->
  let inventory := App.inventory_state (App.run s actions) in
  Forall has_batch_id inventory
  /\ Forall has_item_fields inventory
  /\ Forall well_stored inventory
  /\ inventory_table inventory = full_table inventory
  /\ forall ts cur, exists all, cumulative ts cur inventory = Ok all.
Proof.
  intros Hs inventory.
  assert (H : well_formed_inventory inventory).
  { apply run_keeps_well_formed. rewrite Hs. repeat split; constructor. }
  destruct H as (H1 & H2 & H3).
  repeat (split; [assumption|]). split.
  - now apply inventory_table_full_table.
  - intros ts cur. now apply cumulative_total.
Qed.

Lemma session_keeps_the_inventory_well_formed_witness :
  App.inventory_state Scenarios.start = []
  /\ List.length (App.inventory_state (App.run Scenarios.start Scenarios.two_receipts))
     = 2%nat
  /\ Forall has_batch_id
       (App.inventory_state (App.run Scenarios.start Scenarios.two_receipts)).
Proof.
  split; [reflexivity|]. split; [reflexivity|].
  exact (proj1 (session_keeps_the_inventory_well_formed Scenarios.start
                  Scenarios.two_receipts eq_refl)).
Defined.

(** X20.  The button "Add Another Receipt", at any point of a session that
    started with an empty inventory, empties the upload area, the total,
    the file and the summary, keeps the inventory, and shows the same
    table of the inventory as a call of [process_receipt] that goes
    through. *)
Theorem add_another_receipt_shows_the_inventory (s : App.screen)
  (actions : list App.action) :
  App.inventory_state s = [] ->
  let s' := App.run s actions in
  App.step s' App.AddAnotherReceipt
  = {| App.receipt_input := None;
       App.inventory_state := App.inventory_state s';
       App.inventory_output_df := full_table (App.inventory_state s');
       App.latest_total_output := PStr "";
       App.download_button := None;
       App.comparison_summary_output := [] |}.
Proof.
  intros Hs s'.
  assert (H : well_formed_inventory (App.inventory_state s')).
  { apply run_keeps_well_formed. rewrite Hs. repeat split; constructor. }
  destruct H as (_ & H2 & _).
  simpl. unfold App.on_add_receipt, prepare_for_next_receipt.
  now rewrite (inventory_table_full_table _ H2).
Qed.

Lemma add_another_receipt_shows_the_inventory_witness :
  App.inventory_state Scenarios.start = []
  /\ App.inventory_output_df
       (App.step (App.run Scenarios.start Scenarios.two_receipts) App.AddAnotherReceipt)
     = App.inventory_output_df (App.run Scenarios.start Scenarios.two_receipts)
  /\ App.receipt_input
       (App.step (App.run Scenarios.start Scenarios.two_receipts) App.AddAnotherReceipt)
     = None.
Proof.
  split; [reflexivity|].
  rewrite (add_another_receipt_shows_the_inventory Scenarios.start
             Scenarios.two_receipts eq_refl).
  split; reflexivity.
Defined.

Lemma step_extends (s : App.screen) (a : App.action) :
  a <> App.ClearAll ->
  exists new_items,
    App.inventory_state (App.step s a) = (App.inventory_state s ++ new_items)%list.
Proof.
  intros Ha. destruct a as [picture|E| |]; simpl.
  - exists []. now rewrite app_nil_r.
  - destruct (App.receipt_input s) as [picture|].
    + destruct (process_receipt_inventory E picture (App.inventory_state s))
        as (new_items & Hnew & _). eauto.
    + exists []. now rewrite app_nil_r.
  - now contradiction Ha.
  - exists []. now rewrite app_nil_r.
Qed.

(** X21.  Only "Clear All" removes items: over any actions other than that
    button the inventory keeps what it holds, in the same order, and new
    items are appended to it.  This holds also when calls fail, and when
    the same picture is processed again (its items are then stored again). *)
Theorem inventory_grows_until_cleared (s : App.screen) (actions : list App.action) :
  ~ In App.ClearAll actions ->
  exists new_items,
    App.inventory_state (App.run s actions)
    = (App.inventory_state s ++ new_items)%list.
Proof.
  revert s. induction actions as [|a actions IH]; intros s Hno.
  - exists []. simpl. now rewrite app_nil_r.
  - simpl. destruct (IH (App.step s a)) as (rest & ->).
    { intros Hin. apply Hno. now right. }
    destruct (step_extends s a) as (new_items & ->).
    { intros ->. apply Hno. now left. }
    exists (new_items ++ rest)%list. now rewrite app_assoc.
Qed.

Lemma inventory_grows_until_cleared_witness :
  ~ In App.ClearAll Scenarios.two_receipts
  /\ exists new_items,
       App.inventory_state
         (App.run (App.step Scenarios.start (App.ProcessReceipt Samples.receipt_A))
            Scenarios.two_receipts)
       = (App.inventory_state
            (App.step Scenarios.start (App.ProcessReceipt Samples.receipt_A))
          ++ new_items)%list.
Proof.
  assert (H : ~ In App.ClearAll Scenarios.two_receipts).
  { intros Hin. simpl in Hin.
    repeat (destruct Hin as [Hin|Hin]; [discriminate Hin|]). exact Hin. }
  split; [exact H|].
  exact (inventory_grows_until_cleared
           (App.step Scenarios.start (App.ProcessReceipt Samples.receipt_A))
           Scenarios.two_receipts H).
Defined.

(* ------------------------------------------------------------------ *)
(** ** The price service *)

Import PerplexityReply.

(** *** Digits *)

Lemma digit_char_facts (c : ascii) :
  Text.is_digit c = true ->
  (Text.code c <? 128)%N = true
  /\ Text.is_decimal_char (String c "") = true
  /\ String.eqb (String c "") "$" = false.
Proof.
  destruct c as [[] [] [] [] [] [] [] []]; vm_compute; intros H;
    try discriminate H; repeat split.
Qed.

(** The characters of ASCII digits are decimal digits. *)
Lemma chars_digits (ds : string) :
  Text.all_chars Text.is_digit ds = true ->
  Text.all_chars (fun c => (Text.code c <? 128)%N) ds = true
  /\ Forall (fun t => Text.is_decimal_char t = true) (Text.chars ds).
Proof.
  induction ds as [|c ds IH]; [split; [reflexivity | constructor]|].
  simpl Text.all_chars. intros H. apply andb_prop in H. destruct H as [Hc Hd].
  destruct (digit_char_facts c Hc) as (H128 & Hdec & _).
  destruct (IH Hd) as [Hall Hchars].
  split; [now rewrite H128, Hall|].
  rewrite (chars_cons_ascii c ds H128). now constructor.
Qed.

(** *** Reading the price out of the answer *)

Lemma span_chars_spec (p : string -> bool) (l : list string) :
  forall a u,
  span_chars p l = (a, u) ->
  l = (a ++ u)%list
  /\ Forall (fun t => p t = true) a
  /\ match u with
     | [] => True
     | x :: _ => p x = false
     end.
Proof.
  induction l as [|t l IH]; simpl; intros a u.
  - intros [= <- <-]. repeat split. constructor.
  - destruct (p t) eqn:Ht.
    + destruct (span_chars p l) as [a' u'].
      destruct (IH a' u' eq_refl) as (-> & Ha & Hu).
      intros [= <- <-]. repeat split; [now constructor | exact Hu].
    + intros [= <- <-]. repeat split; [constructor | exact Ht].
Qed.

Lemma span_chars_app (p : string -> bool) (a u : list string) :
  Forall (fun t => p t = true) a ->
  match u with
  | [] => True
  | x :: _ => p x = false
  end ->
  span_chars p (a ++ u) = (a, u).
Proof.
  intros Ha Hu. induction Ha as [|t a Ht _ IH]; simpl.
  - destruct u as [|x u]; [reflexivity|]. simpl. now rewrite Hu.
  - now rewrite Ht, IH.
Qed.

Lemma not_point_differs (s t : string) :
  Text.all_chars not_point s = false -> Text.all_chars not_point t = true ->
  String.eqb s t = false.
Proof.
  intros Hs Ht. destruct (String.eqb_spec s t) as [->|]; [congruence | reflexivity].
Qed.

Lemma not_the_point (t : string) :
  Text.all_chars not_point t = true -> String.eqb t "." = false.
Proof.
  intros Ht. rewrite String.eqb_sym. now apply not_point_differs.
Qed.

Lemma match_amount_needs_point (l : list string) :
  Forall (fun t => Text.all_chars not_point t = true) l -> match_amount l = None.
Proof.
  intros Hl. unfold match_amount.
  destruct (span_chars Text.is_decimal_char l) as [ds r] eqn:Hspan.
  destruct (span_chars_spec _ l ds r Hspan) as (-> & _ & _).
  apply Forall_app in Hl. destruct Hl as [_ Hr].
  destruct ds; [reflexivity|].
  destruct r as [|dot [|a [|b rest]]]; try reflexivity.
  inversion Hr as [|? ? Hdot _]; subst.
  now rewrite (not_the_point dot Hdot).
Qed.

Lemma match_price_here_needs_point (l : list string) :
  Forall (fun t => Text.all_chars not_point t = true) l ->
  match_price_here l = None.
Proof.
  intros Hl. unfold match_price_here.
  destruct l as [|t r]; [reflexivity|].
  rewrite (match_amount_needs_point _ Hl).
  inversion Hl as [|? ? _ Hr]; subst.
  rewrite (match_amount_needs_point _ Hr). now destruct (String.eqb t "$").
Qed.

Lemma search_price_from_needs_point (l : list string) :
  Forall (fun t => Text.all_chars not_point t = true) l ->
  search_price_from l = None.
Proof.
  induction l as [|t r IH]; intros Hl.
  - reflexivity.
  - cbn [search_price_from]. rewrite (match_price_here_needs_point _ Hl).
    apply IH. now inversion Hl.
Qed.

Lemma search_price_needs_point (s : string) :
  Text.all_chars not_point s = true -> search_price s = None.
Proof.
  intros Hs. apply search_price_from_needs_point. now apply chars_bytes.
Qed.

Lemma last_is_decimal_all (l : list string) :
  l <> [] -> Forall (fun t => Text.is_decimal_char t = true) l ->
  last_is_decimal l = true.
Proof.
  induction l as [|t r IH]; intros Hne Hl; [now contradiction Hne|].
  inversion Hl as [|? ? Ht Hr]; subst.
  destruct r as [|t' r']; [exact Ht|].
  change (last_is_decimal (t' :: r') = true). apply IH; [discriminate | exact Hr].
Qed.

Lemma last_is_decimal_tail (t : string) (q : list string) :
  last_is_decimal (t :: q) = false -> last_is_decimal q = false.
Proof. destruct q; [reflexivity | now simpl]. Qed.

(** The amount at the head of the characters [l]: digits, the point and
    two digits. *)
Lemma match_amount_here (ds : string) (a b : ascii) (rest : list string) :
  Text.all_chars Text.is_digit ds = true -> ds <> "" ->
  Text.is_digit a = true -> Text.is_digit b = true ->
  match_amount (Text.chars ds ++ "." :: String a "" :: String b "" :: rest)
  = Some (ds ++ String "." (String a (String b "")), rest).
Proof.
  intros Hds Hne Ha Hb. unfold match_amount.
  destruct (chars_digits ds Hds) as [_ Hdec].
  rewrite (span_chars_app _ _ _ Hdec) by reflexivity.
  destruct (Text.chars ds) as [|t l] eqn:Hchars.
  { apply chars_nil in Hchars. now contradiction Hne. }
  rewrite <- Hchars, join_chars.
  destruct (digit_char_facts a Ha) as (_ & -> & _).
  destruct (digit_char_facts b Hb) as (_ & -> & _).
  reflexivity.
Qed.

(** No amount starts among characters without a point that do not end in
    a digit. *)
Lemma match_amount_before (q text : list string) :
  q <> [] -> Forall (fun t => Text.all_chars not_point t = true) q ->
  last_is_decimal q = false ->
  match_amount (q ++ text) = None.
Proof.
  intros Hq Hnp Hend. unfold match_amount.
  destruct (span_chars Text.is_decimal_char q) as [d1 t1] eqn:Hspan.
  destruct (span_chars_spec _ q d1 t1 Hspan) as (Heq & Hd1 & Hx).
  destruct t1 as [|x t1].
  - exfalso. rewrite app_nil_r in Heq. subst d1.
    rewrite (last_is_decimal_all q Hq Hd1) in Hend. discriminate.
  - subst q. rewrite <- app_assoc.
    rewrite (span_chars_app _ d1 _ Hd1) by exact Hx.
    destruct d1; [reflexivity|].
    apply Forall_app in Hnp. destruct Hnp as [_ Hnp].
    inversion Hnp as [|? ? Hp _]; subst.
    cbn [app]. rewrite (not_the_point x Hp).
    now destruct (t1 ++ text)%list as [|? [|? ?]].
Qed.

Lemma search_price_from_after (p text rest : list string) (amount : string) :
  match_amount text = Some (amount, rest) ->
  match_price_here text = Some amount ->
  Forall (fun t => Text.all_chars not_point t = true) p ->
  last_is_decimal p = false ->
  search_price_from (p ++ text) = Some amount.
Proof.
  intros Hhere Hstart.
  induction p as [|t q IH]; intros Hnp Hend.
  - simpl. destruct text; cbn [search_price_from]; now rewrite Hstart.
  - inversion Hnp as [|? ? Ht Hq]; subst.
    pose proof (last_is_decimal_tail t q Hend) as Hend'.
    cbn [app search_price_from match_price_here].
    destruct (String.eqb t "$") eqn:Hdollar.
    + destruct q as [|t' q'].
      * simpl. now rewrite Hhere.
      * rewrite match_amount_before; [|discriminate | exact Hq | exact Hend'].
        simpl. now apply IH.
    + change (t :: q ++ text)%list with ((t :: q) ++ text)%list.
      rewrite match_amount_before; [|discriminate | exact Hnp | exact Hend].
      simpl. now apply IH.
Qed.

Lemma search_price_after (p ds rest : string) (a b : ascii) :
  Text.all_chars Text.is_digit ds = true -> ds <> "" ->
  Text.is_digit a = true -> Text.is_digit b = true ->
  Text.all_chars not_point p = true -> ends_in_digit p = false ->
  search_price (p ++ ds ++ String "." (String a (String b rest)))
  = Some (ds ++ String "." (String a (String b ""))).
Proof.
  intros Hds Hne Ha Hb Hp Hend.
  destruct (chars_digits ds Hds) as [Hascii _].
  destruct (digit_char_facts a Ha) as (Ha128 & _ & _).
  destruct (digit_char_facts b Hb) as (Hb128 & _ & _).
  assert (Htext : Text.chars (ds ++ String "." (String a (String b rest)))
                  = (Text.chars ds
                     ++ "." :: String a "" :: String b "" :: Text.chars rest)%list).
  { rewrite (chars_app_ascii ds _ Hascii).
    rewrite (chars_cons_ascii "." _ eq_refl), (chars_cons_ascii a _ Ha128),
      (chars_cons_ascii b _ Hb128). reflexivity. }
  unfold search_price. rewrite chars_app, Htext.
  - pose proof (match_amount_here ds a b (Text.chars rest) Hds Hne Ha Hb) as Hhere.
    apply (search_price_from_after _ _ (Text.chars rest));
      [exact Hhere | | now apply chars_bytes | exact Hend].
    destruct ds as [|d0 ds']; [now contradiction Hne|].
    simpl in Hds. apply andb_prop in Hds. destruct Hds as [Hd0 _].
    destruct (digit_char_facts d0 Hd0) as (H128 & _ & Hd).
    rewrite (chars_cons_ascii d0 ds' H128) in Hhere |- *.
    cbn [app] in Hhere |- *. unfold match_price_here.
    now rewrite Hd, Hhere.
  - destruct ds as [|d0 ds']; [now contradiction Hne|].
    simpl in Hds. apply andb_prop in Hds. destruct Hds as [Hd0 _].
    cbn [append Text.starts_with_continuation]. unfold Text.is_continuation.
    destruct (digit_char_facts d0 Hd0) as (H128 & _ & _).
    apply N.ltb_lt in H128. apply andb_false_iff. left. apply N.leb_gt. exact H128.
Qed.

(** X22.  The price pattern [\$?(\d+\.\d{2})] is searched for in the price text
    of the answer: what is read is the first run of digits that a point
    and two digits follow, with these two digits, and nothing else of the
    text.  Here the run [ds] and the two digits are ASCII digits, and the
    text [p] before them has no point and does not end in a decimal digit
    of any script, which the pattern would take into the run.  So the
    digits before a thousands separator are lost ("$1,234.56" is read as
    234.56) and decimals after the second are cut off ("3.999" is read as
    3.99).  The item counts as found at that price. *)
Theorem only_the_digits_at_the_point_are_read (str_of : value -> string)
  (d : dict) (p ds rest : string) (a b : ascii) :
  dict_get "price" d = Some (PStr (p ++ ds ++ String "." (String a (String b rest)))) ->
  Text.all_chars not_point p = true -> ends_in_digit p = false ->
  Text.all_chars Text.is_digit ds = true -> ds <> "" ->
  Text.is_digit a = true -> Text.is_digit b = true ->
  exists text,
    interpret_data str_of (PDict d)
    = Ok {| lookup_status := found;
            price := Some (Float64.of_decimal false
                             (Text.digits_value (ds ++ String a (String b ""))) (-2));
            details := text;
            url := dict_get_none "url" d |}.
Proof.
  intros Hprice Hp Hend Hds Hne Ha Hb.
  set (s := p ++ ds ++ String "." (String a (String b rest))) in *.
  assert (Hpoint : Text.all_chars not_point s = false).
  { unfold s. rewrite !all_chars_app. simpl.
    now rewrite andb_false_r, andb_false_r. }
  assert (Hsearch : search_price s = Some (ds ++ String "." (String a (String b "")))).
  { now apply search_price_after. }
  assert (Hfloat : float_of_str (ds ++ String "." (String a (String b "")))
                   = Ok (Float64.of_decimal false
                           (Text.digits_value (ds ++ String a (String b ""))) (-2))).
  { apply (float_of_digits ds (Some (String a (String b ""))) Hds Hne).
    split; [simpl; now rewrite Ha, Hb | discriminate]. }
  unfold interpret_data, dict_get_default. rewrite Hprice.
  cbn [ne_str negb].
  rewrite (not_point_differs s "Not Found" Hpoint eq_refl).
  rewrite (not_point_differs s "Price Varies" Hpoint eq_refl).
  cbn [negb]. rewrite Hsearch, Hfloat. eexists. reflexivity.
Qed.

Lemma only_the_digits_at_the_point_are_read_witness :
  dict_get "price" Scenarios.thousands_answer
  = Some (PStr ("$1," ++ "234" ++ String "." (String "5" (String "6" ""))))
  /\ exists text,
       interpret_data Scenarios.type_in_brackets (PDict Scenarios.thousands_answer)
       = Ok {| lookup_status := found;
               price := Some (Float64.of_decimal false 23456 (-2));
               details := text;
               url := PNone |}.
Proof.
  split; [reflexivity|].
  refine (only_the_digits_at_the_point_are_read Scenarios.type_in_brackets
            Scenarios.thousands_answer "$1," "234" "" "5" "6"
            eq_refl eq_refl eq_refl eq_refl _ eq_refl eq_refl).
  discriminate.
Defined.

(** X23.  A price text without a point, such as "$5" or "5 dollars", has no
    match for the price pattern: the adapter still answers "found", with
    the text as details, but without a price.  The aggregator does not
    count such an item as found: when its paid price was read it is
    assumed to cost online what was paid. *)
Theorem price_without_cents_is_not_read (str_of : value -> string)
  (d : dict) (s : string) :
  dict_get "price" d = Some (PStr s) ->
  Text.all_chars not_point s = true ->
  s <> "Not Found" -> s <> "Price Varies" ->
  exists res,
    interpret_data str_of (PDict d) = Ok res
    /\ lookup_status res = found
    /\ price res = None
    /\ details res
       = s ++ " at " ++ text_of str_of (dict_get_default "retailer" (PStr "Unknown") d)
    /\ url res = dict_get_none "url" d
    /\ forall (q : float) (cur : aggregate) (item : dict),
         fold_lookup res (Some q) cur item
         = (Float64.add (online_total cur) q, found_count cur, assumed_count cur + 1,
            "Assumed same as receipt ($" ++ Float64.format_2f q ++ ")",
            dict_set "is_assumed_price" (PBool true)
              (dict_set "online_price" (PFloat q) item)).
Proof.
  intros Hprice Hs H1 H2.
  unfold interpret_data, dict_get_default. rewrite Hprice.
  cbn [ne_str negb].
  destruct (String.eqb_spec s "Not Found") as [?|_]; [contradiction|].
  destruct (String.eqb_spec s "Price Varies") as [?|_]; [contradiction|].
  cbn [negb]. rewrite (search_price_needs_point s Hs).
  eexists. split; [reflexivity|]. repeat split.
Qed.

Lemma price_without_cents_is_not_read_witness :
  dict_get "price" Scenarios.whole_dollars_answer = Some (PStr "$5")
  /\ Text.all_chars not_point "$5" = true
  /\ exists res,
       interpret_data Scenarios.type_in_brackets (PDict Scenarios.whole_dollars_answer)
       = Ok res
       /\ price res = None
       /\ details res = "$5 at Target".
Proof.
  split; [reflexivity|]. split; [reflexivity|].
  destruct (price_without_cents_is_not_read Scenarios.type_in_brackets
              Scenarios.whole_dollars_answer "$5" eq_refl eq_refl)
    as (res & Hres & _ & Hprice & Hdetails & _); try discriminate.
  exists res. repeat split; assumption.
Defined.

(** *** The answers of the adapter *)

Ltac settle_answer :=
  simpl; repeat split; intros;
  repeat match goal with H : _ \/ _ |- _ => destruct H end;
  try discriminate; reflexivity.

Lemma interpret_data_consistent (str_of : value -> string) (data : value)
  (res : lookup_result) :
  interpret_data str_of data = Ok res ->
  (forall p, price res = Some p -> lookup_status res = found)
  /\ (lookup_status res = not_found \/ lookup_status res = error ->
      price res = None /\ url res = PNone)
  /\ (lookup_status res = varies -> price res = None /\ details res = "Price Varies").
Proof.
  unfold interpret_data. destruct data as [| | | | | |d]; try discriminate.
  destruct (negb (ne_str _ "Not Found")); [intros [= <-]; settle_answer|].
  destruct (negb (ne_str _ "Price Varies")); [intros [= <-]; settle_answer|].
  destruct (dict_get_default "price" (PStr "N/A") d) as [| | | |s| |];
    try discriminate.
  destruct (search_price s) as [g|]; [|intros [= <-]; settle_answer].
  destruct (float_of_str g) as [p|e]; [intros [= <-]; settle_answer|].
  destruct (exn_cls e); try discriminate. intros [= <-]. settle_answer.
Qed.

Lemma fallback_consistent (str_of : value -> string) (content : string)
  (res : lookup_result) :
  fallback str_of content = Ok res ->
  (forall p, price res = Some p -> lookup_status res = found)
  /\ (lookup_status res = not_found \/ lookup_status res = error ->
      price res = None /\ url res = PNone)
  /\ (lookup_status res = varies -> price res = None /\ details res = "Price Varies").
Proof.
  unfold fallback. destruct (search_offer content) as [[g retailer]|].
  - destruct (float_of_str g) as [p|e]; simpl; [|discriminate].
    intros [= <-]. settle_answer.
  - destruct (Text.contains "Not Found" content); [intros [= <-]; settle_answer|].
    destruct (Text.contains "Price Varies" content); intros [= <-]; settle_answer.
Qed.

(** X24.  Whatever the request yields, the answer of the adapter is well
    formed: a price only comes with the status "found"; an answer "not
    found" or "error" has neither price nor link; an answer "varies" has no
    price.  So the aggregator counts an item as found online only on an
    answer "found" that has a price. *)
Theorem answer_is_consistent (str_of : value -> string) (r : http_reply) :
  let res := answer str_of r in
  (forall p, price res = Some p -> lookup_status res = found)
  /\ (lookup_status res = not_found \/ lookup_status res = error ->
      price res = None /\ url res = PNone)
  /\ (lookup_status res = varies -> price res = None /\ details res = "Price Varies").
Proof.
  assert (Herr : forall text,
             let res := error_result text in
             (forall p, price res = Some p -> lookup_status res = found)
             /\ (lookup_status res = not_found \/ lookup_status res = error ->
                 price res = None /\ url res = PNone)
             /\ (lookup_status res = varies ->
                 price res = None /\ details res = "Price Varies")).
  { intros text. settle_answer. }
  unfold answer. destruct r as [req_err|e| |raw j]; try apply Herr.
  destruct (Text.is_empty raw); [apply Herr|].
  destruct (Text.is_empty (Text.strip raw)); [apply Herr|].
  destruct j as [data|].
  - destruct (interpret_data str_of data) as [res|e] eqn:H; [|apply Herr].
    now apply (interpret_data_consistent str_of data).
  - destruct (fallback str_of (Text.strip raw)) as [res|e] eqn:H; [|apply Herr].
    now apply (fallback_consistent str_of (Text.strip raw)).
Qed.

Lemma answer_is_consistent_witness :
  let res :=
    answer Scenarios.type_in_brackets
      (Content "{...}" (Decoded (PDict Scenarios.thousands_answer))) in
  price res = Some (Float64.of_decimal false 23456 (-2))
  /\ lookup_status res = found.
Proof.
  intros res.
  assert (H : price res = Some (Float64.of_decimal false 23456 (-2)))
    by reflexivity.
  split; [exact H|].
  exact (proj1 (answer_is_consistent Scenarios.type_in_brackets
                  (Content "{...}" (Decoded (PDict Scenarios.thousands_answer))))
           _ H).
Defined.

